(** * QR-code browser extension: storage, settings, history and selection

    A shallow embedding of the hardened implementation of the extension
    (core/storage-manager.js, core/config-manager.js, core/error-handler.js,
    modules/history-manager.js, modules/qr-recognizer.js, and the
    installation step of background.js) and the properties its
    specification states about it, followed by further properties that the
    code itself shows.

    Conventions of the model.
    - A JavaScript string is a sequence of code units; the model keeps the
      code units below 256 and writes them as [string].
    - A JavaScript number is kept as an integer ([Z]); NaN, infinities and
      fractions are outside the model.
    - Every asynchronous operation runs to completion before the next one
      starts (each call is awaited); [World] is the state they share.
    - The logger is left out. [StorageManager.get], after a cache miss, and
      [StorageManager.set], after a write, start [logPerformance] without
      awaiting it. That background work goes on after the call has
      returned, and each of its writes starts it again; as long as its
      chrome.storage calls succeed it reads and writes the statistics key
      only. It is left out of [get] and [set]: the statements below speak
      of the other keys, and of the statistics key only for the metric of
      a recognition, which the background work does not record; where a
      statement on [get] or [set] takes any key, it sets the statistics
      key aside. Where [logPerformance] is awaited it is modelled in
      full.
    - chrome.storage.local hands back a serialised copy of what was
      written. The store of the model hands back the value itself, which
      is the same for every value without [undefined] inside. *)

From Stdlib Require Import ZArith String Ascii List Lia Bool Sorted.
From stdpp Require Import base strings pretty gmap list.
Import ListNotations.

Local Open Scope Z_scope.

(** ** JavaScript values *)

Module Js.

#[warnings="-register-all"] Inductive value : Type :=
| VUndefined
| VNull
| VBool (b : bool)
| VNum (n : Z)
| VStr (s : string)
| VArr (items : list value)
| VObj (fields : list (string * value)).

(** [typeof v]. *)
Definition typeof (v : value) : string :=
  match v with
  | VUndefined => "undefined"
  | VNull => "object"
  | VBool _ => "boolean"
  | VNum _ => "number"
  | VStr _ => "string"
  | VArr _ => "object"
  | VObj _ => "object"
  end.

(** Truthiness, as used by [if (v)], [!v] and [a || b]. *)
Definition truthy (v : value) : bool :=
  match v with
  | VUndefined => false
  | VNull => false
  | VBool b => b
  | VNum n => negb (n =? 0)
  | VStr s => negb (String.eqb s EmptyString)
  | VArr _ => true
  | VObj _ => true
  end.

Definition isArray (v : value) : bool :=
  match v with VArr _ => true | _ => false end.

(** Objects are association lists in insertion order; a lookup takes the
    first binding of the key. *)
Fixpoint lookup_field (k : string) (fs : list (string * value)) : option value :=
  match fs with
  | [] => None
  | (k', v) :: rest => if String.eqb k k' then Some v else lookup_field k rest
  end.

(** [o[k] = v] on the own properties of an object. *)
Fixpoint set_field (k : string) (v : value) (fs : list (string * value))
  : list (string * value) :=
  match fs with
  | [] => [(k, v)]
  | (k', v') :: rest =>
      if String.eqb k k' then (k, v) :: rest else (k', v') :: set_field k v rest
  end.

(** The own enumerable properties copied by a spread [...v]. [null] and
    [undefined] spread to nothing. Arrays and strings would contribute
    their indices; no operand modelled here is one of them. *)
Definition own_fields (v : value) : list (string * value) :=
  match v with
  | VObj fs => fs
  | _ => []
  end.

(** [{ ...base, ...ext }] continued from the properties already set. *)
Definition spread_into (acc : list (string * value)) (v : value)
  : list (string * value) :=
  fold_left (fun a kv => set_field (fst kv) (snd kv) a) (own_fields v) acc.

(** Property read [v.k]. [None] is the TypeError raised when the receiver
    is [null] or [undefined]; other primitives and arrays have none of the
    properties read here. *)
Definition prop (v : value) (k : string) : option value :=
  match v with
  | VUndefined | VNull => None
  | VObj fs => Some (default VUndefined (lookup_field k fs))
  | _ => Some VUndefined
  end.

(** Property read on a receiver already known not to be nullish. *)
Definition field (v : value) (k : string) : value :=
  default VUndefined (prop v k).

(** Strict equality [a === b]. Two objects or arrays are equal only when
    they are the same reference; the operands compared here are a value
    read from storage and a value of the caller, never the same object. *)
Definition strict_eq (a b : value) : bool :=
  match a, b with
  | VUndefined, VUndefined => true
  | VNull, VNull => true
  | VBool x, VBool y => Bool.eqb x y
  | VNum x, VNum y => x =? y
  | VStr x, VStr y => String.eqb x y
  | _, _ => false
  end.

(** [Array.prototype.includes] (SameValueZero, which is [===] without NaN). *)
Definition includes_value (l : list value) (v : value) : bool :=
  existsb (fun x => strict_eq x v) l.

End Js.

(** ** Strings *)

Module Str.

Definition chars (s : string) : list ascii := list_ascii_of_string s.

Definition code (c : ascii) : N := N_of_ascii c.

Definition in_range (lo hi : N) (c : ascii) : bool :=
  ((lo <=? code c) && (code c <=? hi))%N.

(** [String.prototype.toLowerCase] on code units below 256: A-Z and the
    Latin-1 capitals (0xC0-0xDE without the multiplication sign 0xD7) move
    up by 32, every other code unit stays. *)
Definition lower_char (c : ascii) : ascii :=
  if in_range 65 90 c then ascii_of_N (code c + 32)
  else if in_range 192 222 c && negb (code c =? 215)%N then ascii_of_N (code c + 32)
  else c.

Fixpoint toLowerCase (s : string) : string :=
  match s with
  | EmptyString => EmptyString
  | String c rest => String (lower_char c) (toLowerCase rest)
  end.

(** [s.includes(sub)]: [sub] occurs in [s] as a contiguous substring. *)
Fixpoint includes (s sub : string) : bool :=
  String.prefix sub s ||
  match s with
  | EmptyString => false
  | String _ rest => includes rest sub
  end.

(** [s.substring(0, n)]. *)
Definition substring_to (n : nat) (s : string) : string := String.substring 0 n s.

End Str.

(** ** Regular expressions

    The three patterns of the source are anchored at both ends ([^...$],
    without the multiline flag), so [RegExp.prototype.test] decides
    membership of the whole string in the language of the pattern. The
    matcher takes derivatives. *)

Module Regex.

Inductive regex : Type :=
| Void
| Eps
| Class (p : ascii -> bool)
| Seq (r1 r2 : regex)
| Or (r1 r2 : regex)
| Star (r : regex).

(** [r+] *)
Definition Plus (r : regex) : regex := Seq r (Star r).

(** [r{n}] *)
Fixpoint Times (n : nat) (r : regex) : regex :=
  match n with
  | O => Eps
  | S k => Seq r (Times k r)
  end.

(** [r{n,}] *)
Definition AtLeast (n : nat) (r : regex) : regex := Seq (Times n r) (Star r).

Definition Lit (c : ascii) : regex := Class (Ascii.eqb c).

Fixpoint nullable (r : regex) : bool :=
  match r with
  | Void => false
  | Eps => true
  | Class _ => false
  | Seq r1 r2 => nullable r1 && nullable r2
  | Or r1 r2 => nullable r1 || nullable r2
  | Star _ => true
  end.

Fixpoint deriv (c : ascii) (r : regex) : regex :=
  match r with
  | Void => Void
  | Eps => Void
  | Class p => if p c then Eps else Void
  | Seq r1 r2 =>
      if nullable r1 then Or (Seq (deriv c r1) r2) (deriv c r2)
      else Seq (deriv c r1) r2
  | Or r1 r2 => Or (deriv c r1) (deriv c r2)
  | Star r1 => Seq (deriv c r1) (Star r1)
  end.

Fixpoint matches (r : regex) (l : list ascii) : bool :=
  match l with
  | [] => nullable r
  | c :: rest => matches (deriv c r) rest
  end.

(** [/^r$/.test(s)] *)
Definition test (r : regex) (s : string) : bool := matches r (Str.chars s).

(** Character classes of the source patterns. *)

(** [\d] *)
Definition digit (c : ascii) : bool := Str.in_range 48 57 c.

(** [\s] on code units below 256: tab, line feed, vertical tab, form feed,
    carriage return, space and the no-break space. *)
Definition space (c : ascii) : bool :=
  Str.in_range 9 13 c || (Str.code c =? 32)%N || (Str.code c =? 160)%N.

(** [[A-Fa-f0-9]]; the [i] flag adds no code unit to it. *)
Definition hex (c : ascii) : bool :=
  Str.in_range 65 70 c || Str.in_range 97 102 c || Str.in_range 48 57 c.

(** [[^\s@]] *)
Definition not_space_at (c : ascii) : bool :=
  negb (space c || Ascii.eqb c "@").

(** [[\d\s\-\+\(\)]] *)
Definition phone_char (c : ascii) : bool :=
  digit c || space c || Ascii.eqb c "-" || Ascii.eqb c "+"
  || Ascii.eqb c "(" || Ascii.eqb c ")".

End Regex.

(** ** Errors (core/error-handler.js, class AppError) *)

(** ERROR_TYPES, as docs/ARCHITECTURE.md lists them. *)
Inductive ErrorType : Type :=
| NETWORK_ERROR
| STORAGE_ERROR
| PERMISSION_ERROR
| VALIDATION_ERROR
| RUNTIME_ERROR
| UNKNOWN_ERROR.

(** A thrown value. [AppError message type code errors cause] keeps of the
    [details] object the list [details.errors] and the error [details.error]
    that the new one wraps. [NativeError] is an error of the platform
    (TypeError, SyntaxError, chrome.runtime.lastError). *)
#[warnings="-register-all"] Inductive Error : Type :=
| AppError (message : string) (type : ErrorType) (code : Z)
           (errors : list string) (cause : option Error)
| NativeError (message : string).

Definition error_type (e : Error) : option ErrorType :=
  match e with
  | AppError _ t _ _ _ => Some t
  | NativeError _ => None
  end.

Definition error_code (e : Error) : option Z :=
  match e with
  | AppError _ _ c _ _ => Some c
  | NativeError _ => None
  end.

Definition error_cause (e : Error) : option Error :=
  match e with
  | AppError _ _ _ _ c => c
  | NativeError _ => None
  end.

Definition ErrorType_eqb (a b : ErrorType) : bool :=
  match a, b with
  | NETWORK_ERROR, NETWORK_ERROR
  | STORAGE_ERROR, STORAGE_ERROR
  | PERMISSION_ERROR, PERMISSION_ERROR
  | VALIDATION_ERROR, VALIDATION_ERROR
  | RUNTIME_ERROR, RUNTIME_ERROR
  | UNKNOWN_ERROR, UNKNOWN_ERROR => true
  | _, _ => false
  end.

(** ** The shared state and its observations *)

Inductive Event : Type :=
| EvStorageGet (key : string) (failed : bool)
| EvStorageSet (key : string) (v : Js.value) (retryCount : nat) (failed : bool)
| EvStorageClear (failed : bool)
| EvSetTimeout (ms : Z)
| EvCacheTimer (key : string) (ms : Z)
| EvErrorCallbacks (e : Error)
| EvListeners (event : string) (data : Js.value)
| EvApplySettings (settings : Js.value)
| EvPerformance (metric : string) (duration : Z)
| EvNotification (message kind : string).

(** The state of the region-selection controller (modules/qr-recognizer.js). *)

Inductive Cursor : Type :=
| CursorDefault
| CursorCrosshair.

Record Rect : Type := mkRect {
  rect_left : Z;
  rect_top : Z;
  rect_width : Z;
  rect_height : Z
}.

Record RecognitionResult : Type := mkResult {
  success : bool;
  data : option string;
  location : option (Z * Z);
  duration : Z
}.

Record Recognizer : Type := mkRecognizer {
  isSelectionMode : bool;
  (** the overlay element, with the box its style describes *)
  selectionBox : option Rect;
  startX : Z;
  startY : Z;
  currentX : Z;
  currentY : Z;
  html2canvasLoaded : bool;
  (** entries of [recognitionHistory]: result, timestamp, page URL *)
  recognitionHistory : list (RecognitionResult * Z * string);
  (** document.body.style.cursor *)
  cursor : Cursor;
  (** how many times the three mouse listeners are registered on the document *)
  mouseListeners : nat;
  (** the rectangles [recognizeFromRect] was started on, oldest first *)
  started : list Rect;
  (** how many of the started captures have run to their end *)
  completed : nat
}.

Record World : Type := mkWorld {
  (** chrome.storage.local *)
  local : gmap string Js.value;
  (** chrome.runtime.lastError of the coming chrome.storage calls, in call
      order: [true] when the call fails. Calls beyond the list succeed. *)
  lastError : list bool;
  (** StorageManager.cache *)
  cache : gmap string Js.value;
  (** ErrorHandler.errorHistory *)
  errorHistory : list Error;
  (** ConfigManager.currentSettings *)
  currentSettings : Js.value;
  (** HistoryManager.searchQuery, filterType, sortBy, sortOrder *)
  searchQuery : string;
  filterType : string;
  sortBy : string;
  sortOrder : string;
  (** the QRRecognizer of the page *)
  recognizer : Recognizer;
  (** what the outside has seen, oldest first *)
  trace : list Event
}.

Definition set_local (x : gmap string Js.value) (w : World) : World :=
  mkWorld x (lastError w) (cache w) (errorHistory w) (currentSettings w)
          (searchQuery w) (filterType w) (sortBy w) (sortOrder w)
          (recognizer w) (trace w).

Definition set_lastError (x : list bool) (w : World) : World :=
  mkWorld (local w) x (cache w) (errorHistory w) (currentSettings w)
          (searchQuery w) (filterType w) (sortBy w) (sortOrder w)
          (recognizer w) (trace w).

Definition set_cache (x : gmap string Js.value) (w : World) : World :=
  mkWorld (local w) (lastError w) x (errorHistory w) (currentSettings w)
          (searchQuery w) (filterType w) (sortBy w) (sortOrder w)
          (recognizer w) (trace w).

Definition set_errorHistory (x : list Error) (w : World) : World :=
  mkWorld (local w) (lastError w) (cache w) x (currentSettings w)
          (searchQuery w) (filterType w) (sortBy w) (sortOrder w)
          (recognizer w) (trace w).

Definition set_currentSettings (x : Js.value) (w : World) : World :=
  mkWorld (local w) (lastError w) (cache w) (errorHistory w) x
          (searchQuery w) (filterType w) (sortBy w) (sortOrder w)
          (recognizer w) (trace w).

Definition set_searchQuery (x : string) (w : World) : World :=
  mkWorld (local w) (lastError w) (cache w) (errorHistory w) (currentSettings w)
          x (filterType w) (sortBy w) (sortOrder w)
          (recognizer w) (trace w).

Definition set_filterType (x : string) (w : World) : World :=
  mkWorld (local w) (lastError w) (cache w) (errorHistory w) (currentSettings w)
          (searchQuery w) x (sortBy w) (sortOrder w)
          (recognizer w) (trace w).

Definition set_sort (by_ order : string) (w : World) : World :=
  mkWorld (local w) (lastError w) (cache w) (errorHistory w) (currentSettings w)
          (searchQuery w) (filterType w) by_ order
          (recognizer w) (trace w).

Definition set_recognizer (x : Recognizer) (w : World) : World :=
  mkWorld (local w) (lastError w) (cache w) (errorHistory w) (currentSettings w)
          (searchQuery w) (filterType w) (sortBy w) (sortOrder w)
          x (trace w).

Definition set_trace (x : list Event) (w : World) : World :=
  mkWorld (local w) (lastError w) (cache w) (errorHistory w) (currentSettings w)
          (searchQuery w) (filterType w) (sortBy w) (sortOrder w)
          (recognizer w) x.

(** ** Computations: state and exceptions *)

Inductive Result (A : Type) : Type :=
| Ok (a : A)
| Throw (e : Error).

Arguments Ok {A} a.
Arguments Throw {A} e.

Definition M (A : Type) : Type := World -> Result A * World.

Definition ret {A : Type} (a : A) : M A := fun w => (Ok a, w).

Definition throw {A : Type} (e : Error) : M A := fun w => (Throw e, w).

Definition bind {A B : Type} (m : M A) (k : A -> M B) : M B :=
  fun w =>
    match m w with
    | (Ok a, w') => k a w'
    | (Throw e, w') => (Throw e, w')
    end.

(** [try { m } catch (error) { h error }] *)
Definition try_catch {A : Type} (m : M A) (h : Error -> M A) : M A :=
  fun w =>
    match m w with
    | (Ok a, w') => (Ok a, w')
    | (Throw e, w') => h e w'
    end.

Definition gets {A : Type} (f : World -> A) : M A := fun w => (Ok (f w), w).

Definition modify (f : World -> World) : M unit := fun w => (Ok tt, f w).

Definition emit (e : Event) : M unit :=
  modify (fun w => set_trace (trace w ++ [e]) w).

Declare Scope js_scope.
Delimit Scope js_scope with js.
Notation "x <- m ;; k" := (bind m (fun x => k))
  (at level 100, m at next level, right associativity) : js_scope.
Notation "m ;; k" := (bind m (fun _ => k))
  (at level 100, right associativity) : js_scope.
Local Open Scope js_scope.

(** The outcome of the next chrome.storage call. *)
Definition next_lastError : M bool :=
  fun w =>
    match lastError w with
    | [] => (Ok false, w)
    | failed :: rest => (Ok failed, set_lastError rest w)
    end.

(** The clock and the random source as the creation of one history entry
    reads them: [Date.now()] for the timestamp, [Date.now()] again inside
    [generateId], and the digits cut out of [Math.random().toString(36)]. *)
Record Fresh : Type := mkFresh {
  now : Z;
  idNow : Z;
  random : string
}.

(** ** core/error-handler.js *)

Module ErrorHandler.

Definition maxHistorySize : nat := 50.

Definition addToHistory (e : Error) : M unit :=
  modify (fun w =>
    let h := errorHistory w ++ [e] in
    set_errorHistory (if (maxHistorySize <? length h)%nat then tl h else h) w).

Definition notifyCallbacks (e : Error) : M unit := emit (EvErrorCallbacks e).

(** [chrome.storage.local.clear] of the storage recovery. *)
Definition tryStorageRecovery : M unit :=
  failed <- next_lastError ;;
  emit (EvStorageClear failed) ;;
  if failed then ret tt else modify (set_local ∅).

(** The permission and network recoveries only look and wait. *)
Definition tryRecovery (e : Error) : M unit :=
  match error_type e with
  | Some STORAGE_ERROR => tryStorageRecovery
  | _ => ret tt
  end.

Definition handleError (error : Error) : M Error :=
  let appError :=
    match error with
    | AppError _ _ _ _ _ => error
    | NativeError message =>
        AppError (if String.eqb message EmptyString then "Unknown error" else message)
                 UNKNOWN_ERROR 0 [] (Some error)
    end in
  addToHistory appError ;;
  notifyCallbacks appError ;;
  tryRecovery appError ;;
  ret appError.

(** [throw errorHandler.handleError(e)] *)
Definition raise {A : Type} (e : Error) : M A :=
  handled <- handleError e ;; throw handled.

End ErrorHandler.

(** ** core/storage-manager.js *)

Module StorageKeys.

(** Modelled from the spec: STORAGE_KEYS.QR_HISTORY of core/constants.js,
    which is not among the sources; the key is the one that
    history-manager.js and options.js write literally. *)
Definition QR_HISTORY : string := "qrHistory".

(** Modelled from the spec: STORAGE_KEYS.QR_SETTINGS of core/constants.js;
    the key is the one that options.js reads and writes literally. *)
Definition QR_SETTINGS : string := "qrSettings".

(** Modelled from the spec: HISTORY_LIMIT of core/constants.js; the cap of
    the data model, which history-manager.js writes as the literal 100. *)
Definition HISTORY_LIMIT : nat := 100.

(** Modelled from the spec: PERFORMANCE_METRICS.QR_RECOGNITION_TIME of
    core/constants.js, the name of the metric of one recognition. *)
Definition QR_RECOGNITION_TIME : string := "qrRecognitionTime".

(** Modelled from the spec: STORAGE_KEYS.PERFORMANCE_STATS of
    core/constants.js; the key is the one under which background.js reads
    and removes the statistics literally. *)
Definition PERFORMANCE_STATS : string := "performanceStats".

End StorageKeys.

Module StorageManager.

Import Js.

Definition cacheTimeout : Z := 5000.
Definition maxRetries : nat := 3.
Definition retryDelay : Z := 1000.

(** [getFromStorage(key)]. The value comes back as it was written, which
    is what chrome.storage does for every value without [undefined]
    inside. *)
Definition getFromStorage (key : string) : M value :=
  failed <- next_lastError ;;
  emit (EvStorageGet key failed) ;;
  if failed then throw (NativeError "chrome.runtime.lastError")
  else gets (fun w => default VUndefined (local w !! key)).

(** [cache.set(key, value)] followed by the timer that deletes the entry. *)
Definition remember (key : string) (v : value) : M unit :=
  modify (fun w => set_cache (<[key := v]> (cache w)) w) ;;
  emit (EvCacheTimer key cacheTimeout).

(** [get(key, defaultValue)], without the [logPerformance] that it starts
    after a cache miss and does not await. *)
Definition get (key : string) (defaultValue : value) : M value :=
  try_catch
    (cached <- gets (fun w => default VUndefined (cache w !! key)) ;;
     match cached with
     | VUndefined =>
         result <- getFromStorage key ;;
         let v := match result with VUndefined => defaultValue | _ => result end in
         remember key v ;;
         ret v
     | _ => ret cached
     end)
    (fun error =>
       ErrorHandler.raise
         (AppError ("Storage get failed for key: " +:+ key)
                   STORAGE_ERROR 2001 [] (Some error))).

(** [setWithRetry(key, value, retryCount)]; [budget] is the number of
    retries still allowed, [maxRetries - retryCount], so that the test
    [retryCount < maxRetries] of the source is [budget <> 0]. *)
Fixpoint setWithRetry_from (budget : nat) (key : string) (v : value)
         (retryCount : nat) : M unit :=
  failed <- next_lastError ;;
  emit (EvStorageSet key v retryCount failed) ;;
  if failed then
    match budget with
    | S budget' =>
        emit (EvSetTimeout (retryDelay * (Z.of_nat retryCount + 1))) ;;
        setWithRetry_from budget' key v (retryCount + 1)
    | O => throw (NativeError "chrome.runtime.lastError")
    end
  else modify (fun w => set_local (<[key := v]> (local w)) w).

Definition setWithRetry (key : string) (v : value) (retryCount : nat) : M unit :=
  setWithRetry_from (maxRetries - retryCount) key v retryCount.

(** [set(key, value)], without the [logPerformance] that it starts after
    the write and does not await. *)
Definition set (key : string) (v : value) : M bool :=
  try_catch
    (setWithRetry key v 0 ;;
     remember key v ;;
     ret true)
    (fun error =>
       ErrorHandler.raise
         (AppError ("Storage set failed for key: " +:+ key)
                   STORAGE_ERROR 2002 [] (Some error))).

(** The timer set by [remember] fires. *)
Definition cacheTimerFires (key : string) : M unit :=
  modify (fun w => set_cache (base.delete key (cache w)) w).

(** The entry of a metric after one more sample of [duration]. An entry
    that is missing or falsy is first made
    [{count: 0, total: 0, min: Infinity, max: 0, avg: 0}], so that the
    sample leaves [min] equal to the duration. [None] is the TypeError of
    the source on an entry that is a truthy primitive. An array keeps the
    five numbers as named properties, which are not part of its value. An
    entry one of whose four numbers is not a number gives NaN in the
    source: NaN is outside the model, which then stops as for a TypeError.
    The quotient [avg] is kept rounded down. The metric is not the index
    of an array element. *)
Definition sampled (duration : Z) (entry : value) : option value :=
  if negb (truthy entry) then
    Some (VObj [("count", VNum 1); ("total", VNum duration); ("min", VNum duration);
                ("max", VNum (Z.max 0 duration)); ("avg", VNum duration)])
  else
    match entry with
    | VObj fs =>
        match lookup_field "count" fs, lookup_field "total" fs,
              lookup_field "min" fs, lookup_field "max" fs with
        | Some (VNum count), Some (VNum total), Some (VNum min), Some (VNum max) =>
            Some (VObj (set_field "avg" (VNum ((total + duration) / (count + 1)))
                          (set_field "max" (VNum (Z.max max duration))
                             (set_field "min" (VNum (Z.min min duration))
                                (set_field "total" (VNum (total + duration))
                                   (set_field "count" (VNum (count + 1)) fs))))))
        | _, _, _, _ => None
        end
    | VArr _ => Some entry
    | _ => None
    end.

(** [logPerformance(metric, startTime)] with [duration] the time elapsed
    since [startTime]. The statistics are the object that the cache holds,
    so the sample is seen through the cache before it is written. Whatever
    fails inside is caught and logged: it never throws. *)
Definition logPerformance (metric : string) (duration : Z) : M unit :=
  emit (EvPerformance metric duration) ;;
  try_catch
    (stats <- get StorageKeys.PERFORMANCE_STATS (VObj []) ;;
     match stats with
     | VObj fs =>
         match sampled duration (default VUndefined (lookup_field metric fs)) with
         | Some entry =>
             let updated := VObj (set_field metric entry fs) in
             modify (fun w =>
               set_cache (<[StorageKeys.PERFORMANCE_STATS := updated]> (cache w)) w) ;;
             set StorageKeys.PERFORMANCE_STATS updated ;;
             ret tt
         | None => throw (NativeError "TypeError")
         end
     | VArr _ =>
         set StorageKeys.PERFORMANCE_STATS stats ;;
         ret tt
     | _ => throw (NativeError "TypeError")
     end)
    (fun _ => ret tt).

(** [getHistory()]. The array handed out is the object that the cache
    holds, so the second component tells whether a later in-place change
    of the result is seen through the cache. *)
Definition getHistory : M (list value * bool) :=
  history <- get StorageKeys.QR_HISTORY (VArr []) ;;
  match history with
  | VArr items => ret (items, true)
  | _ => ret ([], false)
  end.

(** The in-place change of the array returned by [getHistory]. *)
Definition mutated (shared : bool) (items : list value) : M unit :=
  if shared
  then modify (fun w => set_cache (<[StorageKeys.QR_HISTORY := VArr items]> (cache w)) w)
  else ret tt.

Definition generateId (f : Fresh) : string :=
  pretty (idNow f) +:+ "-" +:+ random f.

(** [saveToHistory(content)] *)
Definition saveToHistory (content : value) (f : Fresh) : M value :=
  try_catch
    (h <- getHistory ;;
     let newEntry := VObj [("content", content); ("timestamp", VNum (now f));
                           ("id", VStr (generateId f))] in
     let history := newEntry :: fst h in
     let history :=
       if (StorageKeys.HISTORY_LIMIT <? length history)%nat
       then take StorageKeys.HISTORY_LIMIT history else history in
     mutated (snd h) history ;;
     set StorageKeys.QR_HISTORY (VArr history) ;;
     ret newEntry)
    (fun error =>
       ErrorHandler.raise
         (AppError "Failed to save to history" STORAGE_ERROR 2005 [] (Some error))).

(** [history.splice(index, 1)]: the list without position [index]. *)
Definition splice1 (index : nat) (l : list value) : list value :=
  take index l ++ drop (S index) l.

Definition deleteFromHistory (index : Z) : M value :=
  try_catch
    (h <- getHistory ;;
     if (0 <=? index) && (index <? Z.of_nat (length (fst h))) then
       let deletedItem := default VUndefined (fst h !! Z.to_nat index) in
       let history := splice1 (Z.to_nat index) (fst h) in
       mutated (snd h) history ;;
       set StorageKeys.QR_HISTORY (VArr history) ;;
       ret deletedItem
     else
       throw (AppError "Invalid history index" VALIDATION_ERROR 3001 [] None))
    (fun error => ErrorHandler.raise error).

Definition clearHistory : M bool :=
  try_catch
    (set StorageKeys.QR_HISTORY (VArr []) ;; ret true)
    (fun error =>
       ErrorHandler.raise
         (AppError "Failed to clear history" STORAGE_ERROR 2006 [] (Some error))).

Definition getSettings : M value :=
  settings <- get StorageKeys.QR_SETTINGS VNull ;;
  ret (if truthy settings then settings else VObj []).

Definition saveSettings (settings : value) : M bool :=
  try_catch
    (set StorageKeys.QR_SETTINGS settings ;; ret true)
    (fun error =>
       ErrorHandler.raise
         (AppError "Failed to save settings" STORAGE_ERROR 2007 [] (Some error))).

(** [removeFromStorage(key)]: [chrome.storage.local.remove([key])]. *)
Definition removeFromStorage (key : string) : M unit :=
  failed <- next_lastError ;;
  if failed then throw (NativeError "chrome.runtime.lastError")
  else modify (fun w => set_local (base.delete key (local w)) w).

Definition remove (key : string) : M bool :=
  try_catch
    (removeFromStorage key ;;
     modify (fun w => set_cache (base.delete key (cache w)) w) ;;
     ret true)
    (fun error =>
       ErrorHandler.raise
         (AppError ("Storage remove failed for key: " +:+ key)
                   STORAGE_ERROR 2003 [] (Some error))).

(** [clearStorage()]: [chrome.storage.local.clear()]. *)
Definition clearStorage : M unit :=
  failed <- next_lastError ;;
  emit (EvStorageClear failed) ;;
  if failed then throw (NativeError "chrome.runtime.lastError")
  else modify (set_local ∅).

Definition clear : M bool :=
  try_catch
    (clearStorage ;;
     modify (set_cache ∅) ;;
     ret true)
    (fun error =>
       ErrorHandler.raise
         (AppError "Storage clear failed" STORAGE_ERROR 2004 [] (Some error))).

End StorageManager.

(** ** What the platform provides *)

Class Platform : Type := {
  (** [new URL(s)] returns a URL instead of throwing *)
  URL_parses : string -> bool;
  (** [JSON.stringify(v, null, 2)] *)
  JSON_stringify : Js.value -> string;
  (** [JSON.parse(s)]; [None] when it throws a SyntaxError *)
  JSON_parse : string -> option Js.value;
  (** [a.localeCompare(b)] *)
  localeCompare : string -> string -> Z
}.

(** ** core/config-manager.js *)

Module ConfigManager.

Import Js.

(** Modelled from the spec: QR_CORRECT_LEVELS of core/constants.js, which
    is not among the sources; the four error-correction levels of the data
    model, which qr-generator.js uses as the keys of QRCode.CorrectLevel. *)
Definition QR_CORRECT_LEVELS : list (string * value) :=
  [("L", VStr "L"); ("M", VStr "M"); ("Q", VStr "Q"); ("H", VStr "H")].

(** Modelled from the spec: DEFAULT_SETTINGS of core/constants.js; the
    defaults are the ones options.js falls back to. *)
Definition DEFAULT_SETTINGS : value :=
  VObj [("size", VNum 200); ("colorDark", VStr "#000000");
        ("colorLight", VStr "#ffffff"); ("correctLevel", VStr "H")].

(** [/^#([A-Fa-f0-9]{6}|[A-Fa-f0-9]{3})$/i] *)
Definition colorRegex : Regex.regex :=
  Regex.Seq (Regex.Lit "#")
            (Regex.Or (Regex.Times 6 (Regex.Class Regex.hex))
                      (Regex.Times 3 (Regex.Class Regex.hex))).

Definition isValidColor (color : value) : bool :=
  match color with
  | VStr s => Regex.test colorRegex s
  | _ => false
  end.

(** [typeof size !== 'number' || size < 100 || size > 1000] on the numbers
    of the model. A NaN, which the model does not hold, has the type
    [number] and fails both comparisons. *)
Definition size_out_of_range (size : value) : bool :=
  match size with
  | VNum n => (n <? 100) || (1000 <? n)
  | _ => true
  end.

(** The [errors] array that [validateSettings] collects. *)
Definition validation_errors (settings : value) : list string :=
  (if size_out_of_range (field settings "size")
   then ["Size must be between 100 and 1000"] else [])
  ++ (if negb (isValidColor (field settings "colorDark"))
      then ["Invalid colorDark value"] else [])
  ++ (if negb (isValidColor (field settings "colorLight"))
      then ["Invalid colorLight value"] else [])
  ++ (if negb (includes_value (map snd QR_CORRECT_LEVELS) (field settings "correctLevel"))
      then ["Invalid correctLevel value"] else []).

Definition validateSettings (settings : value) : M unit :=
  if negb (truthy settings) then
    throw (AppError "Settings object is null or undefined" VALIDATION_ERROR 4101 [] None)
  else
    let errors := validation_errors settings in
    if (0 <? length errors)%nat then
      throw (AppError "Settings validation failed" VALIDATION_ERROR 4102 errors None)
    else ret tt.

(** [applySettings] writes three CSS variables and never throws. *)
Definition applySettings (settings : value) : M unit := emit (EvApplySettings settings).

Definition notifyListeners (event : string) (data : value) : M unit :=
  emit (EvListeners event data).

Definition mergeWithDefaults (settings : value) : value :=
  VObj (spread_into (spread_into [] DEFAULT_SETTINGS) settings).

Definition init : M unit :=
  try_catch
    (settings <- StorageManager.getSettings ;;
     modify (set_currentSettings settings) ;;
     validateSettings settings ;;
     applySettings settings)
    (fun _ => modify (set_currentSettings (VObj (spread_into [] DEFAULT_SETTINGS)))).

Definition loadSettings : M value :=
  try_catch
    (settings <- StorageManager.getSettings ;;
     let merged := mergeWithDefaults settings in
     modify (set_currentSettings merged) ;;
     validateSettings merged ;;
     notifyListeners "settingsLoaded" merged ;;
     ret merged)
    (fun error =>
       ErrorHandler.raise
         (AppError "Failed to load settings" STORAGE_ERROR 4001 [] (Some error))).

Definition saveSettings (newSettings : value) : M value :=
  try_catch
    (validateSettings newSettings ;;
     current <- gets currentSettings ;;
     let mergedSettings := VObj (spread_into (spread_into [] current) newSettings) in
     StorageManager.saveSettings mergedSettings ;;
     modify (set_currentSettings mergedSettings) ;;
     applySettings mergedSettings ;;
     notifyListeners "settingsSaved" mergedSettings ;;
     ret mergedSettings)
    (fun error =>
       ErrorHandler.raise
         (AppError "Failed to save settings" STORAGE_ERROR 4002 [] (Some error))).

Definition resetSettings : M value :=
  try_catch
    (let defaultSettings := VObj (spread_into [] DEFAULT_SETTINGS) in
     StorageManager.saveSettings defaultSettings ;;
     modify (set_currentSettings defaultSettings) ;;
     applySettings defaultSettings ;;
     notifyListeners "settingsReset" defaultSettings ;;
     ret defaultSettings)
    (fun error =>
       ErrorHandler.raise
         (AppError "Failed to reset settings" STORAGE_ERROR 4003 [] (Some error))).

Definition getSettings : M value :=
  gets (fun w => VObj (spread_into [] (currentSettings w))).

Definition setSetting (key : string) (v : value) : M value :=
  saveSettings (VObj [(key, v)]).

Section WithPlatform.

Context {platform : Platform}.

Definition exportSettings : M string :=
  gets (fun w => JSON_stringify (currentSettings w)).

Definition importSettings (settingsJson : string) : M value :=
  try_catch
    (match JSON_parse settingsJson with
     | None => throw (NativeError "SyntaxError")
     | Some settings =>
         validateSettings settings ;;
         saveSettings settings ;;
         ret settings
     end)
    (fun error =>
       ErrorHandler.raise
         (AppError "Failed to import settings" VALIDATION_ERROR 4201 [] (Some error))).

End WithPlatform.

End ConfigManager.

(** ** modules/history-manager.js *)

Module HistoryManager.

Import Js.

Definition generateId (f : Fresh) : string :=
  pretty (idNow f) +:+ "-" +:+ random f.

(** [/^[^\s@]+@[^\s@]+\.[^\s@]+$/] *)
Definition emailRegex : Regex.regex :=
  Regex.Seq (Regex.Plus (Regex.Class Regex.not_space_at))
    (Regex.Seq (Regex.Lit "@")
       (Regex.Seq (Regex.Plus (Regex.Class Regex.not_space_at))
          (Regex.Seq (Regex.Lit ".")
             (Regex.Plus (Regex.Class Regex.not_space_at))))).

(** [/^[\d\s\-\+\(\)]{10,}$/] *)
Definition phoneRegex : Regex.regex :=
  Regex.AtLeast 10 (Regex.Class Regex.phone_char).

Definition isEmail (content : string) : bool := Regex.test emailRegex content.

Definition isPhoneNumber (content : string) : bool := Regex.test phoneRegex content.

Definition notifyListeners (event : string) (data : value) : M unit :=
  emit (EvListeners event data).

(** A callback of [filter] or [findIndex] that reads a property of a
    [null] element throws a TypeError. *)
Definition typeError {A : Type} : M A := throw (NativeError "TypeError").

Fixpoint filterM (p : value -> option bool) (l : list value) : option (list value) :=
  match l with
  | [] => Some []
  | x :: rest =>
      match p x with
      | None => None
      | Some b =>
          match filterM p rest with
          | None => None
          | Some r => Some (if b then x :: r else r)
          end
      end
  end.

Definition filter_by (p : value -> option bool) (l : list value) : M (list value) :=
  match filterM p l with
  | Some r => ret r
  | None => typeError
  end.

(** [item.type === filterType] *)
Definition type_is (filterType : string) (item : value) : option bool :=
  match prop item "type" with
  | Some t => Some (strict_eq t (VStr filterType))
  | None => None
  end.

(** [item.content.toLowerCase().includes(q)] *)
Definition content_includes (q : string) (item : value) : option bool :=
  match prop item "content" with
  | Some (VStr c) => Some (Str.includes (Str.toLowerCase c) q)
  | _ => None
  end.

(** [item.type && item.type.toLowerCase().includes(q)] as a condition *)
Definition type_includes (q : string) (item : value) : option bool :=
  match prop item "type" with
  | Some (VStr t) => Some (negb (String.eqb t EmptyString) && Str.includes (Str.toLowerCase t) q)
  | Some t => if truthy t then None else Some false
  | None => None
  end.

(** The callback of [search]; [||] does not look at the type when the
    content matches. *)
Definition search_matches (q : string) (item : value) : option bool :=
  match content_includes q item with
  | Some true => Some true
  | Some false => type_includes q item
  | None => None
  end.

(** [Array.prototype.sort] is stable; for a comparator [cmp] the result is
    the one of inserting from the right. *)
Fixpoint insert_by (cmp : value -> value -> Z) (x : value) (l : list value) : list value :=
  match l with
  | [] => [x]
  | y :: rest => if cmp x y <=? 0 then x :: y :: rest else y :: insert_by cmp x rest
  end.

Fixpoint sort_by (cmp : value -> value -> Z) (l : list value) : list value :=
  match l with
  | [] => []
  | x :: rest => insert_by cmp x (sort_by cmp rest)
  end.

(** The number a value stands for in a subtraction, [None] for NaN. It is
    exact for numbers, [null] and booleans, which is what the statements
    on the order rely on; a string is taken as NaN, where JavaScript
    converts one that spells a number. *)
Definition to_number (v : value) : option Z :=
  match v with
  | VNum n => Some n
  | VNull => Some 0
  | VBool b => Some (if b then 1 else 0)
  | _ => None
  end.

Definition oriented (sortOrder : string) (comparison : Z) : Z :=
  if String.eqb sortOrder "desc" then - comparison else comparison.

(** [a.timestamp - b.timestamp]; a comparator result NaN counts as 0. *)
Definition by_timestamp (sortOrder : string) (a b : value) : Z :=
  match to_number (field a "timestamp"), to_number (field b "timestamp") with
  | Some x, Some y => oriented sortOrder (x - y)
  | _, _ => 0
  end.

Definition nullish (v : value) : bool :=
  match v with
  | VUndefined | VNull => true
  | _ => false
  end.

Definition has_string_content (item : value) : bool :=
  match prop item "content" with
  | Some (VStr _) => true
  | _ => false
  end.

Section WithPlatform.

Context {platform : Platform}.

Definition isUrl (content : string) : bool := URL_parses content.

Definition detectContentType (content : string) : string :=
  if isUrl content then "url"
  else if isEmail content then "email"
  else if isPhoneNumber content then "phone"
  else "text".

Definition by_content (sortOrder : string) (a b : value) : Z :=
  match field a "content", field b "content" with
  | VStr x, VStr y => oriented sortOrder (localeCompare x y)
  | _, _ => 0
  end.

(** [filterAndSort(history)]. [shared] tells whether [history] is the array
    of the cache; [filter] builds a new array, [sort] works in place. With
    two or more elements every element meets the comparator, which throws a
    TypeError on a [null] element; for the order by content the model lets
    it throw on every content that is not a string. *)
Definition filterAndSort (history : list value) (shared : bool) : M (list value) :=
  ft <- gets filterType ;;
  byType <- (if negb (String.eqb ft "all")
             then filter_by (type_is ft) history else ret history) ;;
  q <- gets searchQuery ;;
  filtered <- (if negb (String.eqb q EmptyString)
               then filter_by (content_includes q) byType else ret byType) ;;
  let in_place := shared && String.eqb ft "all" && String.eqb q EmptyString in
  by_ <- gets sortBy ;;
  order <- gets sortOrder ;;
  if String.eqb by_ "timestamp" then
    if (2 <=? length filtered)%nat && existsb nullish filtered then typeError
    else
      let sorted := sort_by (by_timestamp order) filtered in
      StorageManager.mutated in_place sorted ;;
      ret sorted
  else if String.eqb by_ "content" then
    if (2 <=? length filtered)%nat && negb (forallb has_string_content filtered)
    then typeError
    else
      let sorted := sort_by (by_content order) filtered in
      StorageManager.mutated in_place sorted ;;
      ret sorted
  else ret filtered.

Definition getAll : M (list value) :=
  try_catch
    (h <- StorageManager.getHistory ;;
     filterAndSort (fst h) (snd h))
    (fun error =>
       ErrorHandler.raise
         (AppError "Failed to get history" STORAGE_ERROR 8001 [] (Some error))).

(** [add(content, metadata)] *)
Definition add (content metadata : value) (f : Fresh) : M value :=
  try_catch
    (if negb (truthy content) || negb (String.eqb (typeof content) "string") then
       throw (AppError "Invalid content for history item" VALIDATION_ERROR 8101 [] None)
     else
       let text := match content with VStr s => s | _ => EmptyString end in
       let newItem :=
         VObj (spread_into
                 [("content", content); ("timestamp", VNum (now f));
                  ("id", VStr (generateId f));
                  ("type", VStr (detectContentType text))]
                 metadata) in
       h <- StorageManager.getHistory ;;
       let history := newItem :: fst h in
       let history := if (100 <? length history)%nat then take 100 history else history in
       StorageManager.mutated (snd h) history ;;
       StorageManager.set "qrHistory" (VArr history) ;;
       notifyListeners "historyAdded" newItem ;;
       ret newItem)
    (fun error =>
       ErrorHandler.raise
         (AppError "Failed to add to history" STORAGE_ERROR 8102 [] (Some error))).

(** [history.findIndex(item => item.id === id)], counting from [i]. *)
Fixpoint findIndex_id (id : value) (l : list value) (i : nat) : M (option nat) :=
  match l with
  | [] => ret None
  | item :: rest =>
      match prop item "id" with
      | None => typeError
      | Some v => if strict_eq v id then ret (Some i) else findIndex_id id rest (S i)
      end
  end.

Definition delete (id : value) : M value :=
  try_catch
    (h <- StorageManager.getHistory ;;
     index <- findIndex_id id (fst h) 0 ;;
     match index with
     | None =>
         throw (AppError "History item not found" VALIDATION_ERROR 8201 [] None)
     | Some i =>
         let deletedItem := default VUndefined (fst h !! i) in
         let history := StorageManager.splice1 i (fst h) in
         StorageManager.mutated (snd h) history ;;
         StorageManager.set "qrHistory" (VArr history) ;;
         notifyListeners "historyDeleted" (VObj [("id", id); ("item", deletedItem)]) ;;
         ret deletedItem
     end)
    (fun error =>
       ErrorHandler.raise
         (AppError "Failed to delete from history" STORAGE_ERROR 8202 [] (Some error))).

Definition deleteByIndex (index : Z) : M value :=
  try_catch
    (h <- StorageManager.getHistory ;;
     if (index <? 0) || (Z.of_nat (length (fst h)) <=? index) then
       throw (AppError "Invalid history index" VALIDATION_ERROR 8203 [] None)
     else
       let deletedItem := default VUndefined (fst h !! Z.to_nat index) in
       let history := StorageManager.splice1 (Z.to_nat index) (fst h) in
       StorageManager.mutated (snd h) history ;;
       StorageManager.set "qrHistory" (VArr history) ;;
       notifyListeners "historyDeleted" (VObj [("index", VNum index); ("item", deletedItem)]) ;;
       ret deletedItem)
    (fun error =>
       ErrorHandler.raise
         (AppError "Failed to delete from history by index" STORAGE_ERROR 8204 []
                   (Some error))).

Definition clear : M bool :=
  try_catch
    (StorageManager.clearHistory ;;
     notifyListeners "historyCleared" (VObj []) ;;
     ret true)
    (fun error =>
       ErrorHandler.raise
         (AppError "Failed to clear history" STORAGE_ERROR 8301 [] (Some error))).

Definition search (query : string) : M (list value) :=
  try_catch
    (modify (set_searchQuery (Str.toLowerCase query)) ;;
     history <- getAll ;;
     q <- gets searchQuery ;;
     filter_by (search_matches q) history)
    (fun error =>
       ErrorHandler.raise
         (AppError "Failed to search history" RUNTIME_ERROR 8401 [] (Some error))).

Definition setFilter (type : string) : M unit := modify (set_filterType type).

Definition setSort (by_ order : string) : M unit := modify (set_sort by_ order).

(** [exportAsJson(history)], with [exportTime] the ISO date of the call. *)
Definition exportAsJson (exportTime : string) (history : list value) : string :=
  JSON_stringify
    (VObj [("exportTime", VStr exportTime);
           ("totalItems", VNum (Z.of_nat (length history)));
           ("items", VArr history)]).

Definition importFromJson (data : string) : M (list value) :=
  match JSON_parse data with
  | None => throw (NativeError "SyntaxError")
  | Some parsed =>
      match prop parsed "items" with
      | None => typeError
      | Some (VArr items) => ret items
      | Some _ => ret []
      end
  end.

(** The decoders of the two other formats are not embedded here. *)
Variable importFromCsv : string -> M (list value).
Variable importFromTxt : string -> M (list value).

(** [import(data, format)] *)
Definition import (data format : string) : M (list value) :=
  try_catch
    (items <- (if String.eqb format "json" then importFromJson data
               else if String.eqb format "csv" then importFromCsv data
               else if String.eqb format "txt" then importFromTxt data
               else throw (AppError "Unsupported import format" VALIDATION_ERROR 8601 [] None)) ;;
     h <- StorageManager.getHistory ;;
     let history := items ++ fst h in
     let history := if (100 <? length history)%nat then take 100 history else history in
     StorageManager.mutated (snd h) history ;;
     StorageManager.set "qrHistory" (VArr history) ;;
     notifyListeners "historyImported"
                     (VObj [("count", VNum (Z.of_nat (length items)))]) ;;
     ret items)
    (fun error =>
       ErrorHandler.raise
         (AppError "Failed to import history" RUNTIME_ERROR 8602 [] (Some error))).

End WithPlatform.

End HistoryManager.

(** ** modules/qr-recognizer.js *)

Module QRRecognizer.

Import Js.

Definition maxHistorySize : nat := 50.

Definition with_isSelectionMode (x : bool) (r : Recognizer) : Recognizer :=
  mkRecognizer x (selectionBox r) (startX r) (startY r) (currentX r) (currentY r)
               (html2canvasLoaded r) (recognitionHistory r) (cursor r)
               (mouseListeners r) (started r) (completed r).

Definition with_selectionBox (x : option Rect) (r : Recognizer) : Recognizer :=
  mkRecognizer (isSelectionMode r) x (startX r) (startY r) (currentX r) (currentY r)
               (html2canvasLoaded r) (recognitionHistory r) (cursor r)
               (mouseListeners r) (started r) (completed r).

Definition with_start (x y : Z) (r : Recognizer) : Recognizer :=
  mkRecognizer (isSelectionMode r) (selectionBox r) x y (currentX r) (currentY r)
               (html2canvasLoaded r) (recognitionHistory r) (cursor r)
               (mouseListeners r) (started r) (completed r).

Definition with_current (x y : Z) (r : Recognizer) : Recognizer :=
  mkRecognizer (isSelectionMode r) (selectionBox r) (startX r) (startY r) x y
               (html2canvasLoaded r) (recognitionHistory r) (cursor r)
               (mouseListeners r) (started r) (completed r).

Definition with_html2canvasLoaded (x : bool) (r : Recognizer) : Recognizer :=
  mkRecognizer (isSelectionMode r) (selectionBox r) (startX r) (startY r)
               (currentX r) (currentY r) x (recognitionHistory r) (cursor r)
               (mouseListeners r) (started r) (completed r).

Definition with_recognitionHistory (x : list (RecognitionResult * Z * string))
           (r : Recognizer) : Recognizer :=
  mkRecognizer (isSelectionMode r) (selectionBox r) (startX r) (startY r)
               (currentX r) (currentY r) (html2canvasLoaded r) x (cursor r)
               (mouseListeners r) (started r) (completed r).

Definition with_cursor (x : Cursor) (r : Recognizer) : Recognizer :=
  mkRecognizer (isSelectionMode r) (selectionBox r) (startX r) (startY r)
               (currentX r) (currentY r) (html2canvasLoaded r)
               (recognitionHistory r) x (mouseListeners r) (started r) (completed r).

Definition with_mouseListeners (x : nat) (r : Recognizer) : Recognizer :=
  mkRecognizer (isSelectionMode r) (selectionBox r) (startX r) (startY r)
               (currentX r) (currentY r) (html2canvasLoaded r)
               (recognitionHistory r) (cursor r) x (started r) (completed r).

Definition with_started (x : list Rect) (r : Recognizer) : Recognizer :=
  mkRecognizer (isSelectionMode r) (selectionBox r) (startX r) (startY r)
               (currentX r) (currentY r) (html2canvasLoaded r)
               (recognitionHistory r) (cursor r) (mouseListeners r) x (completed r).

Definition with_completed (x : nat) (r : Recognizer) : Recognizer :=
  mkRecognizer (isSelectionMode r) (selectionBox r) (startX r) (startY r)
               (currentX r) (currentY r) (html2canvasLoaded r)
               (recognitionHistory r) (cursor r) (mouseListeners r) (started r) x.

Definition update (f : Recognizer -> Recognizer) : M unit :=
  modify (fun w => set_recognizer (f (recognizer w)) w).

Definition showNotification (message kind : string) : M unit :=
  emit (EvNotification message kind).

Definition removeSelectionBox : M unit := update (with_selectionBox None).

(** [createSelectionBox] followed by [updateSelectionBox(left, top, width,
    height)]: the overlay exists and its style holds the four numbers. *)
Definition updateSelectionBox (left top width height : Z) : M unit :=
  update (fun r =>
    match selectionBox r with
    | Some _ => with_selectionBox (Some (mkRect left top width height)) r
    | None => r
    end).

Definition createSelectionBox : M unit :=
  update (with_selectionBox (Some (mkRect 0 0 0 0))).

(** [toggleSelectionMode()]. Every call of [bind] makes a new function, so
    [addEventListener] registers the three handlers once more and
    [removeEventListener] finds nothing to remove. *)
Definition toggleSelectionMode : M unit :=
  update (fun r => with_isSelectionMode (negb (isSelectionMode r)) r) ;;
  on <- gets (fun w => isSelectionMode (recognizer w)) ;;
  if on then
    update (with_cursor CursorCrosshair) ;;
    update (fun r => with_mouseListeners (S (mouseListeners r)) r) ;;
    showNotification "框选模式已开启，请框选二维码" "info"
  else
    update (with_cursor CursorDefault) ;;
    removeSelectionBox ;;
    showNotification "框选模式已关闭" "info".

Definition handleMouseDown (clientX clientY : Z) : M unit :=
  r <- gets recognizer ;;
  if negb (isSelectionMode r) then ret tt
  else
    update (with_start clientX clientY) ;;
    createSelectionBox ;;
    updateSelectionBox clientX clientY clientX clientY.

Definition handleMouseMove (clientX clientY : Z) : M unit :=
  r <- gets recognizer ;;
  if negb (isSelectionMode r) || negb (bool_decide (is_Some (selectionBox r))) then ret tt
  else
    update (with_current clientX clientY) ;;
    let left := Z.min (startX r) clientX in
    let top := Z.min (startY r) clientY in
    let width := Z.abs (clientX - startX r) in
    let height := Z.abs (clientY - startY r) in
    updateSelectionBox left top width height.

(** [handleMouseUp]. The call [this.recognizeFromRect(rect)] is not awaited:
    the capture is started and runs to its end later. [started] keeps the
    rectangle that the style of the overlay describes; the rectangle that
    the source passes is the bounding box of the element, which the border
    of 2px on each side makes 4px wider and higher than the style says.
    What the capture finds there is given by the [Attempt]. *)
Definition handleMouseUp : M unit :=
  r <- gets recognizer ;;
  match isSelectionMode r, selectionBox r with
  | true, Some rect =>
      update (fun r => with_started (started r ++ [rect]) r) ;;
      removeSelectionBox ;;
      update (with_isSelectionMode false) ;;
      update (with_cursor CursorDefault)
  | _, _ => ret tt
  end.

(** One result of jsQR. *)
Record QRCode : Type := mkQRCode {
  qr_data : string;
  qr_topLeftCorner : option (Z * Z)
}.

(** What the page, the two libraries and the clocks do during one run of
    [recognizeFromRect]. *)
Record Attempt : Type := mkAttempt {
  (** [typeof html2canvas !== 'undefined'] *)
  html2canvas_defined : bool;
  (** [typeof jsQR !== 'undefined'] *)
  jsQR_defined : bool;
  (** the message of the error thrown by html2canvas or by the canvas calls *)
  capture_failure : option string;
  (** the value of [jsQR(...)], [None] for [null] *)
  decoded : option QRCode;
  (** the readings of [performance.now()]: at the start, inside
      [logPerformance], and where the result is built *)
  t_start : Z;
  t_logged : Z;
  t_end : Z;
  (** [Date.now()] and [window.location.href] in [addToRecognitionHistory] *)
  seenAt : Z;
  pageUrl : string;
  (** the clock and random source of [saveToHistory] *)
  fresh : Fresh
}.

Definition loadHtml2Canvas (a : Attempt) : M unit :=
  loaded <- gets (fun w => html2canvasLoaded (recognizer w)) ;;
  if loaded then ret tt
  else if html2canvas_defined a then update (with_html2canvasLoaded true)
  else ret tt.

Definition addToRecognitionHistory (result : RecognitionResult) (a : Attempt) : M unit :=
  update (fun r =>
    let h := (result, seenAt a, pageUrl a) :: recognitionHistory r in
    with_recognitionHistory
      (if (maxHistorySize <? length h)%nat then removelast h else h) r).

Definition error_message (e : Error) : string :=
  match e with
  | AppError message _ _ _ _ => message
  | NativeError message => message
  end.

(** The text of the success notification. *)
Definition preview (s : string) : string :=
  Str.substring_to 50 s +:+ (if (50 <? String.length s)%nat then "..." else EmptyString).

Definition recognizeFromRect (a : Attempt) (rect : Rect) : M RecognitionResult :=
  try_catch
    (loaded <- gets (fun w => html2canvasLoaded (recognizer w)) ;;
     (if negb loaded then loadHtml2Canvas a else ret tt) ;;
     if negb (html2canvas_defined a) then
       throw (AppError "html2canvas library not available" RUNTIME_ERROR 7001 [] None)
     else if negb (jsQR_defined a) then
       throw (AppError "jsQR library not available" RUNTIME_ERROR 7002 [] None)
     else
       match capture_failure a with
       | Some message => throw (NativeError message)
       | None =>
           StorageManager.logPerformance StorageKeys.QR_RECOGNITION_TIME
                                         (t_logged a - t_start a) ;;
           match decoded a with
           | Some code =>
               let result :=
                 mkResult true (Some (qr_data code))
                          (Some (default (0, 0) (qr_topLeftCorner code)))
                          (t_end a - t_start a) in
               addToRecognitionHistory result a ;;
               StorageManager.saveToHistory (VStr (qr_data code)) (fresh a) ;;
               showNotification ("识别成功: " +:+ preview (qr_data code)) "success" ;;
               ret result
           | None =>
               let result := mkResult false None None (t_end a - t_start a) in
               showNotification "未识别到二维码" "warning" ;;
               ret result
           end
       end)
    (fun error =>
       showNotification ("识别失败: " +:+ error_message error) "error" ;;
       ErrorHandler.raise
         (AppError "QR code recognition failed" RUNTIME_ERROR 7003 [] (Some error))).

(** ** The controller as a machine driven by the page *)

Inductive PageEvent : Type :=
| ToggleCommand
| MouseDown (clientX clientY : Z)
| MouseMove (clientX clientY : Z)
| MouseUp
| CaptureCompletes (a : Attempt).

Fixpoint each_listener (n : nat) (handler : M unit) : M unit :=
  match n with
  | O => ret tt
  | S k => handler ;; each_listener k handler
  end.

(** The promise of a capture started by [handleMouseUp] has no handler; its
    rejection reaches the [unhandledrejection] listener of the error
    handler. *)
Definition settle (a : Attempt) (rect : Rect) : M unit :=
  try_catch
    (recognizeFromRect a rect ;; ret tt)
    (fun error =>
       ErrorHandler.handleError
         (AppError "Unhandled promise rejection" RUNTIME_ERROR 1002 [] (Some error)) ;;
       ret tt).

Definition step (e : PageEvent) : M unit :=
  match e with
  | ToggleCommand => toggleSelectionMode
  | MouseDown x y =>
      n <- gets (fun w => mouseListeners (recognizer w)) ;;
      each_listener n (handleMouseDown x y)
  | MouseMove x y =>
      n <- gets (fun w => mouseListeners (recognizer w)) ;;
      each_listener n (handleMouseMove x y)
  | MouseUp =>
      n <- gets (fun w => mouseListeners (recognizer w)) ;;
      each_listener n handleMouseUp
  | CaptureCompletes a =>
      r <- gets recognizer ;;
      match started r !! completed r with
      | Some rect =>
          update (with_completed (S (completed r))) ;;
          settle a rect
      | None => ret tt
      end
  end.

Fixpoint run (events : list PageEvent) : M unit :=
  match events with
  | [] => ret tt
  | e :: rest => step e ;; run rest
  end.

Inductive SelectionState : Type :=
| Idle
| ArmedForSelection
| Dragging.

Definition selection_state (r : Recognizer) : SelectionState :=
  if isSelectionMode r then
    match selectionBox r with
    | Some _ => Dragging
    | None => ArmedForSelection
    end
  else Idle.

Definition initial : Recognizer :=
  mkRecognizer false None 0 0 0 0 false [] CursorDefault 0 [] 0.

End QRRecognizer.

(** ** background.js *)

Module BackgroundService.

Import Js.

(** [chrome.storage.local.get('qrSettings')] and
    [chrome.storage.local.set({ qrSettings })] as promises: a failed call
    rejects. *)
Definition storage_get (key : string) : M value :=
  failed <- next_lastError ;;
  emit (EvStorageGet key failed) ;;
  if failed then throw (NativeError "chrome.runtime.lastError")
  else gets (fun w => default VUndefined (local w !! key)).

Definition storage_set (key : string) (v : value) : M unit :=
  failed <- next_lastError ;;
  emit (EvStorageSet key v 0 failed) ;;
  if failed then throw (NativeError "chrome.runtime.lastError")
  else modify (fun w => set_local (<[key := v]> (local w)) w).

(** [initializeDefaultSettings()], run on installation. *)
Definition initializeDefaultSettings : M unit :=
  try_catch
    (existing <- storage_get "qrSettings" ;;
     if negb (truthy existing) then
       let defaultSettings :=
         VObj [("size", VNum 200); ("colorDark", VStr "#000000");
               ("colorLight", VStr "#ffffff"); ("correctLevel", VStr "H")] in
       storage_set "qrSettings" defaultSettings
     else ret tt)
    (fun error => ErrorHandler.handleError error ;; ret tt).

End BackgroundService.

(** ** Observations used by the statements *)

(** The language of a pattern, as a relation. *)
Inductive lang : Regex.regex -> list ascii -> Prop :=
| lang_eps : lang Regex.Eps []
| lang_class p c : p c = true -> lang (Regex.Class p) [c]
| lang_seq r1 r2 l1 l2 : lang r1 l1 -> lang r2 l2 -> lang (Regex.Seq r1 r2) (l1 ++ l2)
| lang_or_l r1 r2 l : lang r1 l -> lang (Regex.Or r1 r2) l
| lang_or_r r1 r2 l : lang r2 l -> lang (Regex.Or r1 r2) l
| lang_star_nil r : lang (Regex.Star r) []
| lang_star_cons r l1 l2 :
    lang r l1 -> lang (Regex.Star r) l2 -> lang (Regex.Star r) (l1 ++ l2).

(** The [chrome.storage.local.set] attempts of a trace, each with its
    [retryCount] and whether it failed, and the delays of the retry timers. *)
Definition attempts (t : list Event) : list (nat * bool) :=
  omap (fun e => match e with
                 | EvStorageSet _ _ n failed => Some (n, failed)
                 | _ => None
                 end) t.

Definition delays (t : list Event) : list Z :=
  omap (fun e => match e with EvSetTimeout ms => Some ms | _ => None end) t.

Definition notifications (t : list Event) : list (string * string) :=
  omap (fun e => match e with
                 | EvNotification message kind => Some (message, kind)
                 | _ => None
                 end) t.

Definition listener_calls (t : list Event) : list (string * Js.value) :=
  omap (fun e => match e with EvListeners event d => Some (event, d) | _ => None end) t.

Definition performance_samples (t : list Event) : list (string * Z) :=
  omap (fun e => match e with EvPerformance m d => Some (m, d) | _ => None end) t.

(** The array kept under the history key of chrome.storage.local, empty
    when the key is absent or holds something else. *)
Definition stored_history (w : World) : list Js.value :=
  match local w !! StorageKeys.QR_HISTORY with
  | Some (Js.VArr items) => items
  | _ => []
  end.

(** The value a read of the history key sees: the cache entry when there
    is one, the stored value otherwise. *)
Definition history_value (w : World) : Js.value :=
  match default Js.VUndefined (cache w !! StorageKeys.QR_HISTORY) with
  | Js.VUndefined => default Js.VUndefined (local w !! StorageKeys.QR_HISTORY)
  | v => v
  end.

Definition visible_history (w : World) : list Js.value :=
  match history_value w with
  | Js.VArr items => items
  | _ => []
  end.

(** A read of the history key does not fail: it is served by the cache, or
    the next chrome.storage call succeeds. *)
Definition history_readable (w : World) : Prop :=
  default Js.VUndefined (cache w !! StorageKeys.QR_HISTORY) <> Js.VUndefined
  \/ hd false (lastError w) = false.

(** The cache holds nothing for the history key, or what the store holds. *)
Definition cache_coherent (w : World) : Prop :=
  cache w !! StorageKeys.QR_HISTORY = None
  \/ cache w !! StorageKeys.QR_HISTORY = local w !! StorageKeys.QR_HISTORY.

Definition content_of (item : Js.value) : Js.value := Js.field item "content".


(** The shapes the two classification patterns stand for. *)
Definition email_shaped (s : string) : Prop :=
  exists mailbox domain rest,
    Str.chars s = mailbox ++ "@"%char :: domain ++ "."%char :: rest
    /\ mailbox <> [] /\ domain <> [] /\ rest <> []
    /\ forallb Regex.not_space_at mailbox = true
    /\ forallb Regex.not_space_at domain = true
    /\ forallb Regex.not_space_at rest = true.

Definition phone_shaped (s : string) : Prop :=
  (10 <= length (Str.chars s))%nat /\ forallb Regex.phone_char (Str.chars s) = true.

(** The object that [exportAsJson] hands to [JSON.stringify]. *)
Definition export_document (exportTime : string) (history : list Js.value) : Js.value :=
  Js.VObj [("exportTime", Js.VStr exportTime);
           ("totalItems", Js.VNum (Z.of_nat (length history)));
           ("items", Js.VArr history)].

(** A session on the history: calls of [historyManager.add(content)] and of
    [storageManager.saveToHistory(content)], awaited one after the other (a
    caller sees a failed call reject and goes on), with the cache timers
    firing in between. *)

Module Session.

Import Js.

Inductive Call : Type :=
| Add (content : string) (f : Fresh)
| Save (content : string) (f : Fresh)
| CacheTimerFires.

Section WithPlatform.

Context {platform : Platform}.

Definition perform (c : Call) : M unit :=
  match c with
  | Add content f =>
      try_catch (HistoryManager.add (VStr content) (VObj []) f ;; ret tt)
                (fun _ => ret tt)
  | Save content f =>
      try_catch (StorageManager.saveToHistory (VStr content) f ;; ret tt)
                (fun _ => ret tt)
  | CacheTimerFires => StorageManager.cacheTimerFires StorageKeys.QR_HISTORY
  end.

Fixpoint run (calls : list Call) : M unit :=
  match calls with
  | [] => ret tt
  | c :: rest => perform c ;; run rest
  end.

(** The entry that [add(content)] builds. *)
Definition entry (content : string) (f : Fresh) : value :=
  VObj [("content", VStr content); ("timestamp", VNum (now f));
        ("id", VStr (HistoryManager.generateId f));
        ("type", VStr (HistoryManager.detectContentType content))].

(** The entry that [saveToHistory(content)] builds. *)
Definition plain_entry (content : string) (f : Fresh) : value :=
  VObj [("content", VStr content); ("timestamp", VNum (now f));
        ("id", VStr (StorageManager.generateId f))].

(** The entries of the calls, in call order. *)
Definition added (calls : list Call) : list value :=
  omap (fun c => match c with
                 | Add content f => Some (entry content f)
                 | Save content f => Some (plain_entry content f)
                 | CacheTimerFires => None
                 end) calls.

(** [add] takes a content that is not empty. *)
Definition has_content (c : Call) : Prop :=
  match c with
  | Add content _ => content <> EmptyString
  | _ => True
  end.

End WithPlatform.

End Session.


(** What the selection state machine is made of: the mode flag, the
    overlay, the cursor, and the captures started so far. *)
Definition selection (w : World) : bool * option Rect * Cursor * list Rect :=
  (isSelectionMode (recognizer w), selectionBox (recognizer w),
   cursor (recognizer w), started (recognizer w)).

(** The toggle commands among the events. *)
Fixpoint toggles (events : list QRRecognizer.PageEvent) : nat :=
  match events with
  | [] => 0
  | QRRecognizer.ToggleCommand :: rest => S (toggles rest)
  | _ :: rest => toggles rest
  end.

(** A computation that leaves an observation of the world as it was. *)
Definition keeps {X A : Type} (obs : World -> X) (m : M A) : Prop :=
  forall w, obs (snd (m w)) = obs w.

(** What the subscribers of the configuration see: the settings in memory
    and the calls of the listeners. *)
Definition visible_settings (w : World) : Js.value * list (string * Js.value) :=
  (currentSettings w, listener_calls (trace w)).

(** Both together: what the storage manager and the error handler never
    touch. *)
Definition surface (w : World)
  : (bool * option Rect * Cursor * list Rect) * (Js.value * list (string * Js.value)) :=
  (selection w, visible_settings w).

(** The captures started so far, plus one when selection mode is on, and
    the computations that add at most [k] to it. *)
Definition budget_used (w : World) : nat :=
  (length (started (recognizer w)) + (if isSelectionMode (recognizer w) then 1 else 0))%nat.

Definition spends_at_most (k : nat) {A : Type} (m : M A) : Prop :=
  forall w, (budget_used (snd (m w)) <= budget_used w + k)%nat.

(** The value that [getHistory] works on: the default array when the read
    sees nothing. *)
Definition read_value (w : World) : Js.value :=
  match history_value w with
  | Js.VUndefined => Js.VArr []
  | v => v
  end.

(** [item.id === id] as the callback of [findIndex] sees it on an element
    that is an object. *)
Definition has_id (id : Js.value) (item : Js.value) : bool :=
  match Js.prop item "id" with
  | Some v => Js.strict_eq v id
  | None => false
  end.

Definition is_object (item : Js.value) : bool :=
  match item with
  | Js.VObj _ => true
  | _ => false
  end.

(** An entry as the history manager writes it: an object whose content is
    a string. *)
Definition well_formed (item : Js.value) : bool :=
  is_object item && HistoryManager.has_string_content item.

(** The content of the entry contains [q], case folded. *)
Definition content_has (q : string) (item : Js.value) : bool :=
  default false (HistoryManager.content_includes q item).

(** The type of the entry contains [q], case folded. *)
Definition type_has (q : string) (item : Js.value) : bool :=
  default false (HistoryManager.type_includes q item).






(** ** A reference platform

    The statements about the platform are run on sample data with this
    one: a URL parser that looks for the scheme only, a JSON printer and a
    JSON parser for the values of the model, and the comparison of strings
    by code units. *)

Module Reference.

Import Js.

Definition alpha (c : ascii) : bool :=
  Str.in_range 65 90 c || Str.in_range 97 122 c.

Definition scheme_char (c : ascii) : bool :=
  alpha c || Regex.digit c || Ascii.eqb c "+" || Ascii.eqb c "-" || Ascii.eqb c ".".

(** A scheme, a colon, and anything after it. *)
Definition url_parses (s : string) : bool :=
  Regex.test
    (Regex.Seq (Regex.Class alpha)
       (Regex.Seq (Regex.Star (Regex.Class scheme_char))
          (Regex.Seq (Regex.Lit ":") (Regex.Star (Regex.Class (fun _ => true))))))
    s.

Definition newline : string := String (ascii_of_N 10) EmptyString.

Fixpoint pad (n : nat) : string :=
  match n with
  | O => EmptyString
  | S k => " " +:+ pad k
  end.

Fixpoint join (sep : string) (l : list string) : string :=
  match l with
  | [] => EmptyString
  | [x] => x
  | x :: rest => x +:+ sep +:+ join sep rest
  end.

Definition dquote : ascii := ascii_of_N 34.

Definition hex_digit (n : N) : ascii :=
  if (n <? 10)%N then ascii_of_N (48 + n) else ascii_of_N (87 + n).

Definition escape_char (c : ascii) : string :=
  if Ascii.eqb c dquote then String "\" (String dquote EmptyString)
  else if Ascii.eqb c "\" then String "\" (String "\" EmptyString)
  else if (Str.code c =? 10)%N then String "\" (String "n" EmptyString)
  else if (Str.code c =? 13)%N then String "\" (String "r" EmptyString)
  else if (Str.code c =? 9)%N then String "\" (String "t" EmptyString)
  else if (Str.code c =? 8)%N then String "\" (String "b" EmptyString)
  else if (Str.code c =? 12)%N then String "\" (String "f" EmptyString)
  else if (Str.code c <? 32)%N then
    String "\" (String "u" (String "0" (String "0"
      (String (hex_digit (Str.code c / 16)) (String (hex_digit (Str.code c mod 16)) EmptyString)))))
  else String c EmptyString.

Fixpoint escape (s : string) : string :=
  match s with
  | EmptyString => EmptyString
  | String c rest => escape_char c +:+ escape rest
  end.

Definition quote (s : string) : string :=
  String dquote (escape s +:+ String dquote EmptyString).

(** [JSON.stringify(v, null, 2)] below the top level; a property whose
    value is [undefined] is left out, an array element [undefined] is
    printed as [null]. *)
Fixpoint print (indent : nat) (v : value) {struct v} : string :=
  match v with
  | VUndefined => "null"
  | VNull => "null"
  | VBool b => if b then "true" else "false"
  | VNum n => pretty n
  | VStr s => quote s
  | VArr items =>
      match items with
      | [] => "[]"
      | _ => "[" +:+ newline
             +:+ join ("," +:+ newline)
                      (map (fun x => pad (indent + 2) +:+ print (indent + 2) x) items)
             +:+ newline +:+ pad indent +:+ "]"
      end
  | VObj fields =>
      let shown :=
        flat_map (fun kv =>
                    let '(k, x) := kv in
                    match x with
                    | VUndefined => []
                    | _ => [pad (indent + 2) +:+ quote k +:+ ": "
                            +:+ print (indent + 2) x]
                    end) fields in
      match shown with
      | [] => "{}"
      | _ => "{" +:+ newline +:+ join ("," +:+ newline) shown
             +:+ newline +:+ pad indent +:+ "}"
      end
  end.

Definition stringify (v : value) : string := print 0 v.

(** The parser works on the list of code units and gives back what is
    left of it. *)
Fixpoint skip_space (l : list ascii) : list ascii :=
  match l with
  | c :: rest =>
      if (Str.code c =? 32)%N || (Str.code c =? 10)%N
         || (Str.code c =? 13)%N || (Str.code c =? 9)%N
      then skip_space rest else l
  | [] => []
  end.

Fixpoint expect (word l : list ascii) : option (list ascii) :=
  match word, l with
  | [], _ => Some l
  | a :: word', b :: l' => if Ascii.eqb a b then expect word' l' else None
  | _ :: _, [] => None
  end.

Fixpoint read_digits (acc : Z) (l : list ascii) : Z * list ascii :=
  match l with
  | c :: rest =>
      if Regex.digit c
      then read_digits (10 * acc + Z.of_N (Str.code c - 48)) rest
      else (acc, l)
  | [] => (acc, [])
  end.

Definition hex_value (c : ascii) : option N :=
  if Regex.digit c then Some (Str.code c - 48)%N
  else if Str.in_range 97 102 c then Some (Str.code c - 87)%N
  else if Str.in_range 65 70 c then Some (Str.code c - 55)%N
  else None.

(** The characters of a string literal after its opening quote. *)
Fixpoint read_string (fuel : nat) (l : list ascii) : option (string * list ascii) :=
  match fuel with
  | O => None
  | S fuel' =>
      match l with
      | [] => None
      | c :: rest =>
          if Ascii.eqb c dquote then Some (EmptyString, rest)
          else if Ascii.eqb c "\" then
            match rest with
            | e :: rest' =>
                if Ascii.eqb e "u" then
                  match rest' with
                  | a :: b :: c1 :: d :: rest'' =>
                      match hex_value a, hex_value b, hex_value c1, hex_value d with
                      | Some 0%N, Some 0%N, Some h, Some k =>
                          match read_string fuel' rest'' with
                          | Some (s, out) => Some (String (ascii_of_N (16 * h + k)) s, out)
                          | None => None
                          end
                      | _, _, _, _ => None
                      end
                  | _ => None
                  end
                else
                  let plain :=
                    if Ascii.eqb e "n" then Some (ascii_of_N 10)
                    else if Ascii.eqb e "t" then Some (ascii_of_N 9)
                    else if Ascii.eqb e "r" then Some (ascii_of_N 13)
                    else if Ascii.eqb e "b" then Some (ascii_of_N 8)
                    else if Ascii.eqb e "f" then Some (ascii_of_N 12)
                    else if Ascii.eqb e dquote || Ascii.eqb e "\" || Ascii.eqb e "/"
                    then Some e else None in
                  match plain, read_string fuel' rest' with
                  | Some x, Some (s, out) => Some (String x s, out)
                  | _, _ => None
                  end
            | [] => None
            end
          else if (Str.code c <? 32)%N then None
          else
            match read_string fuel' rest with
            | Some (s, out) => Some (String c s, out)
            | None => None
            end
      end
  end.

Fixpoint read_value (fuel : nat) (l : list ascii) : option (value * list ascii) :=
  match fuel with
  | O => None
  | S fuel' =>
      let read_items :=
        fix read_items (n : nat) (l : list ascii) : option (list value * list ascii) :=
          match n with
          | O => None
          | S n' =>
              match read_value fuel' l with
              | Some (x, out) =>
                  match skip_space out with
                  | c :: out' =>
                      if Ascii.eqb c "," then
                        match read_items n' out' with
                        | Some (xs, out'') => Some (x :: xs, out'')
                        | None => None
                        end
                      else if Ascii.eqb c "]" then Some ([x], out')
                      else None
                  | [] => None
                  end
              | None => None
              end
          end in
      let read_fields :=
        fix read_fields (n : nat) (l : list ascii)
          : option (list (string * value) * list ascii) :=
          match n with
          | O => None
          | S n' =>
              match skip_space l with
              | q :: l1 =>
                  if Ascii.eqb q dquote then
                    match read_string fuel' l1 with
                    | Some (k, l2) =>
                        match skip_space l2 with
                        | colon :: l3 =>
                            if Ascii.eqb colon ":" then
                              match read_value fuel' l3 with
                              | Some (x, out) =>
                                  match skip_space out with
                                  | c :: out' =>
                                      if Ascii.eqb c "," then
                                        match read_fields n' out' with
                                        | Some (fs, out'') => Some ((k, x) :: fs, out'')
                                        | None => None
                                        end
                                      else if Ascii.eqb c "}" then Some ([(k, x)], out')
                                      else None
                                  | [] => None
                                  end
                              | None => None
                              end
                            else None
                        | [] => None
                        end
                    | None => None
                    end
                  else None
              | [] => None
              end
          end in
      match skip_space l with
      | [] => None
      | c :: rest =>
          if Ascii.eqb c "n" then
            option_map (fun out => (VNull, out)) (expect (Str.chars "ull") rest)
          else if Ascii.eqb c "t" then
            option_map (fun out => (VBool true, out)) (expect (Str.chars "rue") rest)
          else if Ascii.eqb c "f" then
            option_map (fun out => (VBool false, out)) (expect (Str.chars "alse") rest)
          else if Ascii.eqb c dquote then
            option_map (fun r => (VStr (fst r), snd r)) (read_string fuel' rest)
          else if Ascii.eqb c "-" then
            match rest with
            | d :: _ =>
                if Regex.digit d
                then let r := read_digits 0 rest in Some (VNum (- fst r), snd r)
                else None
            | [] => None
            end
          else if Regex.digit c then
            let r := read_digits 0 (c :: rest) in Some (VNum (fst r), snd r)
          else if Ascii.eqb c "[" then
            match skip_space rest with
            | c' :: rest' =>
                if Ascii.eqb c' "]" then Some (VArr [], rest')
                else option_map (fun r => (VArr (fst r), snd r)) (read_items fuel' rest)
            | [] => None
            end
          else if Ascii.eqb c "{" then
            match skip_space rest with
            | c' :: rest' =>
                if Ascii.eqb c' "}" then Some (VObj [], rest')
                else option_map (fun r => (VObj (fst r), snd r)) (read_fields fuel' rest)
            | [] => None
            end
          else None
      end
  end.

(** [JSON.parse]: one value, white space around it, and nothing else. *)
Definition parse (s : string) : option value :=
  match read_value (S (String.length s)) (Str.chars s) with
  | Some (v, out) =>
      match skip_space out with
      | [] => Some v
      | _ => None
      end
  | None => None
  end.

Definition compare_units (a b : string) : Z :=
  match String.compare a b with
  | Lt => (-1)%Z
  | Eq => 0%Z
  | Gt => 1%Z
  end.

Definition platform : Platform := {|
  URL_parses := url_parses;
  JSON_stringify := stringify;
  JSON_parse := parse;
  localeCompare := compare_units
|}.

End Reference.

(** ** Sample data *)

Module Sample.

Import Js.

Definition blank : World :=
  mkWorld ∅ [] ∅ [] VNull EmptyString "all" "timestamp" "desc" QRRecognizer.initial [].

(** A store whose next writes fail three times and then succeed. *)
Definition flaky : World := set_lastError [true; true; true; false] blank.

Definition settings : value :=
  VObj [("size", VNum 200); ("colorDark", VStr "#000000");
        ("colorLight", VStr "#ffffff"); ("correctLevel", VStr "H")].

(** The settings above are stored and loaded. *)
Definition configured : World :=
  set_currentSettings settings
    (set_local (<[StorageKeys.QR_SETTINGS := settings]> ∅) blank).

Definition link : value :=
  VObj [("content", VStr "https://example.com"); ("timestamp", VNum 1700000000000);
        ("id", VStr "1700000000000-abc123xyz"); ("type", VStr "url")].

Definition note : value :=
  VObj [("content", VStr "hello world"); ("timestamp", VNum 1700000000500);
        ("id", VStr "1700000000500-k3j9x0a2b"); ("type", VStr "text")].

(** One and two entries are stored. *)
Definition with_link : World :=
  set_local (<[StorageKeys.QR_HISTORY := VArr [link]]> ∅) blank.

Definition with_two : World :=
  set_local (<[StorageKeys.QR_HISTORY := VArr [note; link]]> ∅) blank.

(** Something that is not an array sits under the history key. *)
Definition malformed : World :=
  set_local (<[StorageKeys.QR_HISTORY := VStr "not a list"]> ∅) blank.

Definition fresh : Fresh := mkFresh 1700000001000 1700000001000 "q1w2e3r4t".

Definition nth_call (i : nat) : Session.Call :=
  Session.Add ("entry " +:+ pretty i)
              (mkFresh (1700000002000 + Z.of_nat i) (1700000002000 + Z.of_nat i) "r4nd0mxyz").

(** One call more than the history keeps. *)
Definition calls101 : list Session.Call := map nth_call (seq 0 101).

(** jsQR finds a code whose text is longer than the preview. *)
Definition long_text : string :=
  "https://example.com/a/rather/long/path/that/goes/on/and/on?with=query&and=more".

Definition scan : QRRecognizer.Attempt :=
  QRRecognizer.mkAttempt true true None
    (Some (QRRecognizer.mkQRCode long_text (Some (12, 34)%Z)))
    1000 1450 1500 1700000003000 "https://example.org/page" fresh.

(** jsQR finds nothing. *)
Definition miss : QRRecognizer.Attempt :=
  QRRecognizer.mkAttempt true true None None
    1000 1450 1500 1700000003000 "https://example.org/page" fresh.

(** Selection was switched on, the pointer went down and was dragged. *)
Definition dragging : World :=
  snd (QRRecognizer.run
         [QRRecognizer.ToggleCommand; QRRecognizer.MouseDown 10 10;
          QRRecognizer.MouseMove 50 60] blank).

End Sample.


(** ** Further observations and sample data *)

(** The number under [timestamp], 0 when there is none. *)
Definition timestamp_of (item : Js.value) : Z :=
  default 0%Z (HistoryManager.to_number (Js.field item "timestamp")).

(** An entry whose timestamp is a number. *)
Definition has_timestamp (item : Js.value) : bool :=
  match Js.field item "timestamp" with
  | Js.VNum _ => true
  | _ => false
  end.



(** The settings pass [validateSettings]. *)
Definition valid_settings (settings : Js.value) : Prop :=
  forall w, ConfigManager.validateSettings settings w = (Ok tt, w).

(** No key is bound twice, as in every object of the program. *)
Definition distinct_keys (v : Js.value) : Prop :=
  List.NoDup (map fst (Js.own_fields v)).

(** The parts of the world that belong to the configuration manager, the
    history manager and the recognizer. *)
Definition components (w : World)
  : Js.value * (string * string * string * string) * Recognizer :=
  (currentSettings w, (searchQuery w, filterType w, sortBy w, sortOrder w), recognizer w).

(** The chrome.storage calls of a trace. *)
Definition storage_calls (t : list Event) : list Event :=
  List.filter (fun e => match e with
                        | EvStorageGet _ _ | EvStorageSet _ _ _ _ | EvStorageClear _ => true
                        | _ => false
                        end) t.

Module More.

Import Js.

Definition red : value :=
  VObj [("size", VNum 300); ("colorDark", VStr "#cc0000");
        ("colorLight", VStr "#ffffff"); ("correctLevel", VStr "M")].

(** A key is cached and stored. *)
Definition cached : World :=
  set_cache (<["theme" := VStr "dark"]> ∅)
    (set_local (<["theme" := VStr "dark"]> ∅) Sample.blank).

(** The recognizer is armed: selection mode is on, nothing is drawn. *)
Definition armed : World :=
  snd (QRRecognizer.step QRRecognizer.ToggleCommand Sample.blank).

(** html2canvas never arrived on the page. *)
Definition no_capture_library : QRRecognizer.Attempt :=
  QRRecognizer.mkAttempt false true None None
    1000 1450 1500 1700000003000 "https://example.org/page" Sample.fresh.

(** Selection was switched on and off again: the listeners of the first
    round are still on the document. *)
Definition idle_again : World :=
  snd (QRRecognizer.run [QRRecognizer.ToggleCommand; QRRecognizer.ToggleCommand]
                        Sample.blank).

(** A session on a page: two selections, the second one cancelled. *)
Definition session : list QRRecognizer.PageEvent :=
  [QRRecognizer.ToggleCommand; QRRecognizer.MouseDown 10 10;
   QRRecognizer.MouseMove 50 60; QRRecognizer.MouseUp;
   QRRecognizer.CaptureCompletes Sample.miss; QRRecognizer.MouseMove 70 80;
   QRRecognizer.ToggleCommand; QRRecognizer.MouseDown 5 5; QRRecognizer.ToggleCommand].

End More.

(** The error that [handleError] records for a thrown value: an [AppError]
    as it is, anything else wrapped as an UNKNOWN_ERROR. *)
Definition as_app_error (e : Error) : Error :=
  match e with
  | AppError _ _ _ _ _ => e
  | NativeError message =>
      AppError (if String.eqb message EmptyString then "Unknown error" else message)
               UNKNOWN_ERROR 0 [] (Some e)
  end.

(** Errors reaching the handler one after the other. *)
Fixpoint handle_all (errors : list Error) : M unit :=
  match errors with
  | [] => ret tt
  | e :: rest => bind (ErrorHandler.handleError e) (fun _ => handle_all rest)
  end.

Definition is_storage_error (e : Error) : bool :=
  match error_type e with
  | Some STORAGE_ERROR => true
  | _ => false
  end.

(** The events that the mouse listeners of the document receive. *)
Definition is_pointer_event (e : QRRecognizer.PageEvent) : bool :=
  match e with
  | QRRecognizer.MouseDown _ _ | QRRecognizer.MouseMove _ _ | QRRecognizer.MouseUp => true
  | _ => false
  end.

(** The overlay and the cursor agree with the mode flag: no overlay while
    selection mode is off, and the crosshair exactly while it is on. *)
Definition mode_consistent (r : Recognizer) : Prop :=
  (isSelectionMode r = false -> selectionBox r = None)
  /\ cursor r = (if isSelectionMode r then CursorCrosshair else CursorDefault).

(** A computation under which a property of the world, once true, stays
    true. *)
Definition preserves {A : Type} (P : World -> Prop) (m : M A) : Prop :=
  forall w, P w -> P (snd (m w)).

(** The code that [recognizeFromRect] gets to see: both libraries are
    there, the capture does not fail, and jsQR finds one. *)
Definition code_found (a : QRRecognizer.Attempt) : option QRRecognizer.QRCode :=
  if QRRecognizer.html2canvas_defined a && QRRecognizer.jsQR_defined a then
    match QRRecognizer.capture_failure a with
    | None => QRRecognizer.decoded a
    | Some _ => None
    end
  else None.

(** The error that stops a run of [recognizeFromRect] before jsQR is
    called. *)
Definition capture_error (a : QRRecognizer.Attempt) : option Error :=
  if negb (QRRecognizer.html2canvas_defined a) then
    Some (AppError "html2canvas library not available" RUNTIME_ERROR 7001 [] None)
  else if negb (QRRecognizer.jsQR_defined a) then
    Some (AppError "jsQR library not available" RUNTIME_ERROR 7002 [] None)
  else option_map NativeError (QRRecognizer.capture_failure a).
(** ** Theorems *)

Local Open Scope nat_scope.

Section RegexFacts.

Import Regex.

Lemma nullable_lang r : nullable r = true <-> lang r [].
Proof.
  split.
  - induction r; simpl; intros Hn; try discriminate.
    + constructor.
    + apply andb_true_iff in Hn as [H1 H2].
      change (@nil ascii) with (@nil ascii ++ []). constructor; auto.
    + apply orb_true_iff in Hn as [H|H]; [apply lang_or_l|apply lang_or_r]; auto.
    + constructor.
  - intros H. remember [] as l eqn:El. induction H; simpl; auto; try discriminate.
    + apply app_eq_nil in El as [-> ->]. rewrite IHlang1, IHlang2; auto.
    + rewrite IHlang; auto.
    + rewrite IHlang; auto. apply orb_true_r.
Qed.

Lemma lang_star_uncons r c l :
  lang (Star r) (c :: l) ->
  exists l1 l2, l = l1 ++ l2 /\ lang r (c :: l1) /\ lang (Star r) l2.
Proof.
  intros H. remember (Star r) as s eqn:Es. remember (c :: l) as cl eqn:El.
  revert c l El. induction H; intros c0 l0 El; try discriminate.
  injection Es as ->.
  destruct l1 as [|a l1'].
  - simpl in El. apply IHlang2; auto.
  - simpl in El. injection El as -> <-. exists l1', l2. auto.
Qed.

Lemma lang_seq_inv r1 r2 l :
  lang (Seq r1 r2) l -> exists l1 l2, l = l1 ++ l2 /\ lang r1 l1 /\ lang r2 l2.
Proof. intros H. inversion H; subst. eauto. Qed.

Lemma lang_or_inv r1 r2 l : lang (Or r1 r2) l -> lang r1 l \/ lang r2 l.
Proof. intros H. inversion H; subst; auto. Qed.

Lemma lang_class_inv p l : lang (Class p) l -> exists c, l = [c] /\ p c = true.
Proof. intros H. inversion H; subst. eauto. Qed.

Lemma lang_eps_inv l : lang Eps l -> l = [].
Proof. intros H. inversion H; auto. Qed.

Lemma lang_void_inv l : ~ lang Void l.
Proof. intros H. inversion H. Qed.

Lemma lang_seq_cons r1 r2 c l1 l2 :
  lang r1 (c :: l1) -> lang r2 l2 -> lang (Seq r1 r2) (c :: l1 ++ l2).
Proof. intros H1 H2. apply (lang_seq r1 r2 (c :: l1) l2); auto. Qed.

Lemma deriv_lang c r l : lang (deriv c r) l <-> lang r (c :: l).
Proof.
  revert l. induction r as [| |p|r1 IH1 r2 IH2|r1 IH1 r2 IH2|r IH]; intros l; simpl.
  - split; intros H; exfalso; eapply lang_void_inv; eauto.
  - split; intros H.
    + exfalso; eapply lang_void_inv; eauto.
    + apply lang_eps_inv in H. discriminate.
  - destruct (p c) eqn:Hp; split; intros H.
    + apply lang_eps_inv in H as ->. constructor; auto.
    + apply lang_class_inv in H as (c' & E & _). injection E as _ ->. constructor.
    + exfalso; eapply lang_void_inv; eauto.
    + apply lang_class_inv in H as (c' & E & Hc). injection E as <- _. congruence.
  - assert (Hseq : lang (Seq (deriv c r1) r2) l -> lang (Seq r1 r2) (c :: l)).
    { intros H. apply lang_seq_inv in H as (l1 & l2 & -> & H1 & H2).
      apply lang_seq_cons; auto. apply IH1; auto. }
    destruct (nullable r1) eqn:Hn; split; intros H.
    + apply lang_or_inv in H as [H|H]; auto.
      apply (lang_seq r1 r2 [] (c :: l)).
      * apply nullable_lang; auto.
      * apply IH2; auto.
    + apply lang_seq_inv in H as (l1 & l2 & E & H1 & H2).
      destruct l1 as [|a l1']; simpl in E.
      * subst l2. apply lang_or_r. apply IH2; auto.
      * injection E as <- ->. apply lang_or_l. constructor; auto. apply IH1; auto.
    + auto.
    + apply lang_seq_inv in H as (l1 & l2 & E & H1 & H2).
      destruct l1 as [|a l1']; simpl in E.
      * apply nullable_lang in H1. congruence.
      * injection E as <- ->. constructor; auto. apply IH1; auto.
  - split; intros H; apply lang_or_inv in H as [H|H];
      solve [apply lang_or_l; apply IH1; auto | apply lang_or_r; apply IH2; auto].
  - split; intros H.
    + apply lang_seq_inv in H as (l1 & l2 & -> & H1 & H2).
      apply (lang_star_cons r (c :: l1) l2); auto. apply IH; auto.
    + apply lang_star_uncons in H as (l1 & l2 & -> & H1 & H2).
      constructor; auto. apply IH; auto.
Qed.

Lemma matches_lang r l : matches r l = true <-> lang r l.
Proof.
  revert r. induction l as [|c l IH]; intros r; simpl.
  - apply nullable_lang.
  - rewrite IH. apply deriv_lang.
Qed.

Lemma lang_star_class p l : lang (Star (Class p)) l <-> forallb p l = true.
Proof.
  split.
  - intros H. remember (Star (Class p)) as s eqn:Es.
    induction H; try discriminate; auto.
    injection Es as ->.
    apply lang_class_inv in H as (c & -> & Hc). simpl. rewrite Hc. auto.
  - induction l as [|c l IH]; simpl; intros H.
    + constructor.
    + apply andb_true_iff in H as [Hc Hl].
      apply (lang_star_cons (Class p) [c] l); auto. constructor; auto.
Qed.

Lemma lang_times_class n p l :
  lang (Times n (Class p)) l <-> length l = n /\ forallb p l = true.
Proof.
  revert l. induction n as [|n IH]; intros l; simpl.
  - split.
    + intros H. apply lang_eps_inv in H as ->. auto.
    + intros [Hl _]. destruct l; [constructor|discriminate].
  - split.
    + intros H. apply lang_seq_inv in H as (l1 & l2 & -> & H1 & H2).
      apply lang_class_inv in H1 as (c & -> & Hc).
      apply IH in H2 as [<- Hall]. simpl. rewrite Hc. auto.
    + intros [Hl Hall]. destruct l as [|c l]; [discriminate|].
      simpl in *. apply andb_true_iff in Hall as [Hc Hall].
      apply (lang_seq (Class p) _ [c] l); [constructor; auto|].
      apply IH. split; [lia|auto].
Qed.

Lemma lang_plus_class p l :
  lang (Plus (Class p)) l <-> l <> [] /\ forallb p l = true.
Proof.
  unfold Plus. split.
  - intros H. apply lang_seq_inv in H as (l1 & l2 & -> & H1 & H2).
    apply lang_class_inv in H1 as (c & -> & Hc).
    apply lang_star_class in H2. simpl. rewrite Hc. split; [discriminate|auto].
  - intros [Hne Hall]. destruct l as [|c l]; [congruence|].
    simpl in Hall. apply andb_true_iff in Hall as [Hc Hall].
    apply (lang_seq (Class p) _ [c] l); [constructor; auto|].
    apply lang_star_class; auto.
Qed.

Lemma lang_atleast_class n p l :
  lang (AtLeast n (Class p)) l <-> n <= length l /\ forallb p l = true.
Proof.
  unfold AtLeast. split.
  - intros H. apply lang_seq_inv in H as (l1 & l2 & -> & H1 & H2).
    apply lang_times_class in H1 as [<- H1]. apply lang_star_class in H2.
    rewrite length_app, forallb_app, H1, H2. split; [lia|auto].
  - intros [Hn Hall].
    rewrite <- (take_drop n l) in Hall |- *.
    rewrite forallb_app in Hall. apply andb_true_iff in Hall as [H1 H2].
    constructor.
    + apply lang_times_class. split; auto. rewrite length_take. lia.
    + apply lang_star_class; auto.
Qed.

Lemma lang_lit c l : lang (Lit c) l <-> l = [c].
Proof.
  unfold Lit. split.
  - intros H. apply lang_class_inv in H as (c' & -> & Hc).
    apply Ascii.eqb_eq in Hc. subst; auto.
  - intros ->. constructor. apply Ascii.eqb_refl.
Qed.

End RegexFacts.

(** *** The three patterns of the source, in words *)

(** X8. A colour is accepted exactly when it is a [#] followed by six or by
    three hexadecimal digits. *)
Lemma isValidColor_shape (s : string) :
  ConfigManager.isValidColor (Js.VStr s) = true <->
  exists digits, Str.chars s = "#"%char :: digits
                 /\ (length digits = 6 \/ length digits = 3)
                 /\ forallb Regex.hex digits = true.
Proof.
  unfold ConfigManager.isValidColor, Regex.test, ConfigManager.colorRegex.
  rewrite matches_lang. split.
  - intros H. apply lang_seq_inv in H as (l1 & l2 & E & H1 & H2).
    apply lang_lit in H1 as ->. exists l2. split; [auto|].
    apply lang_or_inv in H2 as [H2|H2]; apply lang_times_class in H2 as [? ?]; auto.
  - intros (digits & -> & Hlen & Hall).
    apply (lang_seq _ _ ["#"%char] digits); [apply lang_lit; auto|].
    destruct Hlen as [Hlen|Hlen];
      [apply lang_or_l|apply lang_or_r]; apply lang_times_class; auto.
Qed.

(** The phone pattern accepts exactly the strings of at least ten code
    units that are all digits, white space, [-], [+], [(] or [)]. *)
Lemma isPhoneNumber_shape (s : string) :
  HistoryManager.isPhoneNumber s = true <-> phone_shaped s.
Proof.
  unfold HistoryManager.isPhoneNumber, Regex.test, HistoryManager.phoneRegex.
  rewrite matches_lang. apply lang_atleast_class.
Qed.

(** The email pattern accepts exactly [local@domain.rest] where the three
    parts are not empty and hold neither white space nor [@]. *)
Lemma isEmail_shape (s : string) :
  HistoryManager.isEmail s = true <-> email_shaped s.
Proof.
  unfold HistoryManager.isEmail, Regex.test, HistoryManager.emailRegex, email_shaped.
  rewrite matches_lang. split.
  - intros H.
    apply lang_seq_inv in H as (a & l & -> & Ha & H).
    apply lang_seq_inv in H as (at_ & l' & -> & Hat & H).
    apply lang_seq_inv in H as (b & l'' & -> & Hb & H).
    apply lang_seq_inv in H as (dot & c & -> & Hdot & Hc).
    apply lang_lit in Hat as ->. apply lang_lit in Hdot as ->.
    apply lang_plus_class in Ha as [? ?]. apply lang_plus_class in Hb as [? ?].
    apply lang_plus_class in Hc as [? ?].
    exists a, b, c. simpl. auto 10.
  - intros (a & b & c & -> & Ha & Hb & Hc & Fa & Fb & Fc).
    constructor; [apply lang_plus_class; auto|].
    apply (lang_seq _ _ ["@"%char]); [apply lang_lit; auto|].
    constructor; [apply lang_plus_class; auto|].
    apply (lang_seq _ _ ["."%char]); [apply lang_lit; auto|].
    apply lang_plus_class; auto.
Qed.

(** *** Running the storage manager *)

Ltac run_m :=
  unfold bind, try_catch, ret, throw, gets, modify, emit; simpl.

Lemma next_lastError_quiet w :
  lastError w = [] -> next_lastError w = (Ok false, w).
Proof. intros H. unfold next_lastError. rewrite H. reflexivity. Qed.

Lemma next_lastError_cons w failed rest :
  lastError w = failed :: rest -> next_lastError w = (Ok failed, set_lastError rest w).
Proof. intros H. unfold next_lastError. rewrite H. reflexivity. Qed.

(** One run of [setWithRetry]: the oracle decides how many attempts fail
    before the run ends. *)
Lemma setWithRetry_from_runs budget key v : forall retryCount w,
  exists n w' new res,
    StorageManager.setWithRetry_from budget key v retryCount w = (res, w')
    /\ trace w' = trace w ++ new
    /\ n <= budget
    /\ attempts new = map (fun i => (i, true)) (seq retryCount n)
                      ++ [(retryCount + n, match res with Ok _ => false | Throw _ => true end)]
    /\ delays new = map (fun i => (1000 * (Z.of_nat i + 1))%Z) (seq retryCount n)
    /\ cache w' = cache w /\ errorHistory w' = errorHistory w
    /\ match res with
       | Ok _ => local w' = <[key := v]> (local w)
                 /\ lastError w' = drop (S n) (lastError w)
                 /\ firstn (S n) (lastError w) = replicate n true ++ firstn 1 (drop n (lastError w))
                 /\ nth n (lastError w) false = false
       | Throw e => n = budget /\ local w' = local w
                    /\ firstn (S n) (lastError w) = replicate (S n) true
                    /\ lastError w' = drop (S n) (lastError w)
                    /\ e = NativeError "chrome.runtime.lastError"
       end.
Proof.
  induction budget as [|budget IH]; intros retryCount w.
  - destruct (lastError w) as [|[] rest] eqn:E.
    + exists 0, (set_local (<[key := v]> (local w))
                  (set_trace (trace w ++ [EvStorageSet key v retryCount false]) w)),
        [EvStorageSet key v retryCount false], (Ok tt).
      simpl. run_m. rewrite (next_lastError_quiet _ E). simpl.
      rewrite ?Nat.add_0_r. repeat split; auto.
    + exists 0, (set_trace (trace w ++ [EvStorageSet key v retryCount true])
                           (set_lastError rest w)),
        [EvStorageSet key v retryCount true], (Throw (NativeError "chrome.runtime.lastError")).
      simpl. run_m. rewrite (next_lastError_cons _ _ _ E). simpl.
      rewrite ?Nat.add_0_r. simpl. rewrite drop_0. repeat split; auto.
    + exists 0, (set_local (<[key := v]> (local w))
                  (set_trace (trace w ++ [EvStorageSet key v retryCount false])
                             (set_lastError rest w))),
        [EvStorageSet key v retryCount false], (Ok tt).
      simpl. run_m. rewrite (next_lastError_cons _ _ _ E). simpl.
      rewrite ?Nat.add_0_r. simpl. rewrite drop_0. repeat split; auto.
  - destruct (lastError w) as [|[] rest] eqn:E.
    + exists 0, (set_local (<[key := v]> (local w))
                  (set_trace (trace w ++ [EvStorageSet key v retryCount false]) w)),
        [EvStorageSet key v retryCount false], (Ok tt).
      simpl. run_m. rewrite (next_lastError_quiet _ E). simpl.
      rewrite ?Nat.add_0_r. repeat split; auto. lia.
    + set (w1 := set_trace
                   ((trace w ++ [EvStorageSet key v retryCount true])
                      ++ [EvSetTimeout (1000 * (Z.of_nat retryCount + 1))])
                   (set_lastError rest w)).
      destruct (IH (retryCount + 1) w1) as (n & w' & new & res & Hrun & Htr & Hn & Hat & Hde & Hc & He & Hres).
      exists (S n), w',
        (EvStorageSet key v retryCount true
           :: EvSetTimeout (1000 * (Z.of_nat retryCount + 1)) :: new), res.
      simpl StorageManager.setWithRetry_from. run_m.
      rewrite (next_lastError_cons _ _ _ E). simpl.
      fold w1. unfold StorageManager.retryDelay in *.
      split; [exact Hrun|].
      split; [rewrite Htr; unfold w1; simpl; rewrite <- !app_assoc; reflexivity|].
      split; [lia|].
      split; [simpl; rewrite Hat; replace (retryCount + 1) with (S retryCount) by lia;
              replace (S retryCount + n) with (retryCount + S n) by lia; reflexivity|].
      split; [simpl; rewrite Hde; replace (retryCount + 1) with (S retryCount) by lia;
              reflexivity|].
      split; [rewrite Hc; reflexivity|].
      split; [rewrite He; reflexivity|].
      unfold w1 in Hres; simpl in Hres.
      destruct res as [[]|e]; simpl.
      * destruct Hres as (Hl & Hle & Hf & Hnth). repeat split; auto.
        rewrite Hf. reflexivity.
      * destruct Hres as (-> & Hl & Hf & Hle & ->). repeat split; auto.
        rewrite Hf. reflexivity.
    + exists 0, (set_local (<[key := v]> (local w))
                  (set_trace (trace w ++ [EvStorageSet key v retryCount false])
                             (set_lastError rest w))),
        [EvStorageSet key v retryCount false], (Ok tt).
      simpl. run_m. rewrite (next_lastError_cons _ _ _ E). simpl.
      rewrite ?Nat.add_0_r. simpl. rewrite drop_0. repeat split; auto. lia.
Qed.

(** What [handleError] does with an [AppError]: it keeps it, hands it to the
    callbacks, and on a STORAGE_ERROR clears chrome.storage.local. *)
Lemma handleError_AppError message t code errs cause w :
  let e := AppError message t code errs cause in
  exists w',
    ErrorHandler.handleError e w = (Ok e, w')
    /\ cache w' = cache w /\ currentSettings w' = currentSettings w
    /\ recognizer w' = recognizer w
    /\ searchQuery w' = searchQuery w /\ filterType w' = filterType w
    /\ sortBy w' = sortBy w /\ sortOrder w' = sortOrder w
    /\ match t with
       | STORAGE_ERROR =>
           trace w' = trace w ++ [EvErrorCallbacks e; EvStorageClear (hd false (lastError w))]
           /\ lastError w' = tl (lastError w)
           /\ local w' = (if hd false (lastError w) then local w else ∅)
       | _ => trace w' = trace w ++ [EvErrorCallbacks e]
              /\ lastError w' = lastError w /\ local w' = local w
       end.
Proof.
  intros e. unfold ErrorHandler.handleError, ErrorHandler.addToHistory,
    ErrorHandler.notifyCallbacks, ErrorHandler.tryRecovery. subst e. simpl error_type.
  destruct t; run_m; try (eexists; repeat split; reflexivity).
  unfold ErrorHandler.tryStorageRecovery. run_m.
  unfold next_lastError. simpl.
  destruct (lastError w) as [|[] rest] eqn:E; simpl;
    eexists; (split; [reflexivity|]); simpl; rewrite <- ?app_assoc; simpl;
    repeat split; auto.
Qed.

Lemma raise_AppError {A : Type} message t code errs cause w :
  let e := AppError message t code errs cause in
  exists w',
    @ErrorHandler.raise A e w = (Throw e, w')
    /\ ErrorHandler.handleError e w = (Ok e, w').
Proof.
  intros e. destruct (handleError_AppError message t code errs cause w) as (w' & H & _).
  exists w'. split; auto. unfold ErrorHandler.raise, bind. subst e. simpl in H.
  rewrite H. reflexivity.
Qed.

Lemma attempts_app t1 t2 : attempts (t1 ++ t2) = attempts t1 ++ attempts t2.
Proof. unfold attempts. apply omap_app. Qed.

Lemma delays_app t1 t2 : delays (t1 ++ t2) = delays t1 ++ delays t2.
Proof. unfold delays. apply omap_app. Qed.

(** One run of [set]. *)
Lemma set_runs key v w :
  exists n w' new res,
    StorageManager.set key v w = (res, w')
    /\ trace w' = trace w ++ new
    /\ n <= 3
    /\ attempts new = map (fun i => (i, true)) (seq 0 n)
                      ++ [(n, match res with Ok _ => false | Throw _ => true end)]
    /\ delays new = map (fun i => (1000 * (Z.of_nat i + 1))%Z) (seq 0 n)
    /\ match res with
       | Ok r => r = true /\ local w' = <[key := v]> (local w)
                 /\ cache w' = <[key := v]> (cache w)
                 /\ lastError w' = drop (S n) (lastError w)
                 /\ nth n (lastError w) false = false
       | Throw e => n = 3 /\ firstn 4 (lastError w) = [true; true; true; true]
                    /\ e = AppError ("Storage set failed for key: " +:+ key) STORAGE_ERROR
                                    2002 [] (Some (NativeError "chrome.runtime.lastError"))
       end.
Proof.
  destruct (setWithRetry_from_runs 3 key v 0 w)
    as (n & w1 & new & res & Hrun & Htr & Hn & Hat & Hde & Hc & He & Hres).
  unfold StorageManager.set, StorageManager.setWithRetry, StorageManager.maxRetries.
  simpl Nat.sub. unfold try_catch at 1. unfold bind at 1. rewrite Hrun.
  destruct res as [[]|e].
  - destruct Hres as (Hl & Hle & _ & Hnth).
    eexists n, _, (new ++ [EvCacheTimer key StorageManager.cacheTimeout]), (Ok true).
    unfold StorageManager.remember. run_m.
    split; [reflexivity|]. simpl.
    split; [rewrite Htr, <- app_assoc; reflexivity|].
    split; [exact Hn|].
    rewrite attempts_app, delays_app, Hat, Hde. simpl. rewrite ?app_nil_r.
    repeat split; auto. rewrite Hc; reflexivity.
  - destruct Hres as (-> & Hl & Hf & Hle & ->).
    destruct (handleError_AppError ("Storage set failed for key: " +:+ key)
                STORAGE_ERROR 2002 [] (Some (NativeError "chrome.runtime.lastError")) w1)
      as (w2 & Hh & _ & _ & _ & _ & _ & _ & _ & Ht2 & _).
    simpl in Hh.
    eexists 3, w2, (new ++ [_; _]), (Throw _).
    unfold ErrorHandler.raise. unfold bind at 1. rewrite Hh.
    split; [reflexivity|].
    split; [rewrite Ht2, Htr, <- app_assoc; reflexivity|].
    split; [lia|].
    rewrite attempts_app, delays_app, Hat, Hde. simpl. rewrite ?app_nil_r.
    repeat split; auto.
Qed.

(** C8 (amended). A storage write is attempted at most four times: the
    first attempt and up to three retries ([n] below is the number of failed
    attempts that were retried). The retries wait 1000, 2000 and 3000 ms.
    The write reports failure, as a STORAGE_ERROR with code 2002, only after
    the fourth attempt has failed; when some attempt among the four succeeds
    it returns [true] and the value is stored. *)
Theorem set_retries_three_times (key : string) (v : Js.value) (w : World) :
  exists n new,
    let res := fst (StorageManager.set key v w) in
    let w' := snd (StorageManager.set key v w) in
    trace w' = trace w ++ new
    /\ n <= 3
    /\ map fst (attempts new) = seq 0 (S n)
    /\ map snd (attempts new)
       = replicate n true ++ [match res with Ok _ => false | Throw _ => true end]
    /\ delays new = map (fun i => (1000 * (Z.of_nat i + 1))%Z) (seq 0 n)
    /\ match res with
       | Ok r => r = true /\ local w' !! key = Some v
                 /\ nth n (lastError w) false = false
       | Throw e => n = 3 /\ firstn 4 (lastError w) = [true; true; true; true]
                    /\ error_type e = Some STORAGE_ERROR /\ error_code e = Some 2002%Z
       end.
Proof.
  destruct (set_runs key v w) as (n & w' & new & res & Hrun & Htr & Hn & Hat & Hde & Hres).
  exists n, new. rewrite Hrun. cbn [fst snd].
  split; [exact Htr|]. split; [exact Hn|].
  rewrite Hat, !map_app, !map_map. cbn [map fst snd].
  split; [rewrite map_id, seq_S; reflexivity|].
  split; [f_equal; clear; generalize 0; induction n; intros; simpl; f_equal; auto|].
  split; [exact Hde|].
  destruct res as [r|e].
  - destruct Hres as (-> & Hl & _ & _ & Hnth). rewrite Hl, lookup_insert_eq. auto.
  - destruct Hres as (-> & Hf & ->). auto.
Qed.

(** C8, as stated, fails: with three failing attempts ahead the manager
    makes a fourth attempt and reports success. *)
Lemma set_fourth_attempt :
  fst (StorageManager.set "qrHistory" (Js.VArr []) Sample.flaky) = Ok true
  /\ ~ length (attempts (trace (snd (StorageManager.set "qrHistory" (Js.VArr []) Sample.flaky)))) <= 3.
Proof.
  split.
  - vm_compute. reflexivity.
  - vm_compute. lia.
Qed.

(** *** Reading and writing the history *)

Lemma set_quiet key v w :
  lastError w = [] ->
  StorageManager.set key v w
  = (Ok true,
     set_trace (trace w ++ [EvStorageSet key v 0 false;
                            EvCacheTimer key StorageManager.cacheTimeout])
       (set_cache (<[key := v]> (cache w))
          (set_local (<[key := v]> (local w)) w))).
Proof.
  intros H. unfold StorageManager.set, StorageManager.setWithRetry, StorageManager.remember.
  simpl. run_m. rewrite (next_lastError_quiet _ H). simpl.
  rewrite <- app_assoc. reflexivity.
Qed.

Lemma getHistory_runs w :
  history_readable w ->
  exists w',
    StorageManager.getHistory w
    = (Ok (visible_history w, Js.isArray (read_value w)), w')
    /\ local w' = local w
    /\ cache w' !! StorageKeys.QR_HISTORY = Some (read_value w)
    /\ (lastError w = [] -> lastError w' = [])
    /\ errorHistory w' = errorHistory w
    /\ currentSettings w' = currentSettings w
    /\ recognizer w' = recognizer w
    /\ searchQuery w' = searchQuery w /\ filterType w' = filterType w
    /\ sortBy w' = sortBy w /\ sortOrder w' = sortOrder w
    /\ notifications (trace w') = notifications (trace w)
    /\ listener_calls (trace w') = listener_calls (trace w)
    /\ performance_samples (trace w') = performance_samples (trace w).
Proof.
  intros Hr. unfold StorageManager.getHistory, StorageManager.get.
  unfold visible_history, read_value, history_value.
  unfold try_catch, bind at 1. unfold bind at 1. unfold gets at 1.
  destruct (default Js.VUndefined (cache w !! StorageKeys.QR_HISTORY)) as [| | | | | |] eqn:Ec.
  2-7: unfold ret; simpl; eexists; (split; [reflexivity|]);
       destruct (cache w !! StorageKeys.QR_HISTORY) eqn:E; simpl in Ec; subst;
       try discriminate; repeat split; auto.
  destruct Hr as [Hr|Hr]; [congruence|].
  unfold StorageManager.getFromStorage, StorageManager.remember. run_m.
  unfold next_lastError.
  destruct (lastError w) as [|b rest] eqn:El; simpl in Hr; subst; simpl.
  - destruct (default Js.VUndefined (local w !! StorageKeys.QR_HISTORY)) eqn:Es;
      simpl; eexists; (split; [reflexivity|]); simpl;
      rewrite ?lookup_insert_eq;
      unfold notifications, listener_calls, performance_samples;
      rewrite <- ?app_assoc, ?omap_app; simpl; rewrite ?app_nil_r;
      repeat split; auto.
  - destruct (default Js.VUndefined (local w !! StorageKeys.QR_HISTORY)) eqn:Es;
      simpl; eexists; (split; [reflexivity|]); simpl;
      rewrite ?lookup_insert_eq;
      unfold notifications, listener_calls, performance_samples;
      rewrite <- ?app_assoc, ?omap_app; simpl; rewrite ?app_nil_r;
      repeat split; auto; discriminate.
Qed.

(** C10. Whenever the read of the history key itself does not fail,
    [getHistory] returns an array: the array under the key when there is
    one, and the empty array when the key is absent or holds anything that
    is not an array. It leaves the store as it is. *)
Theorem getHistory_returns_array (w : World) :
  history_readable w ->
  exists items shared w',
    StorageManager.getHistory w = (Ok (items, shared), w')
    /\ match history_value w with
       | Js.VArr stored => items = stored
       | _ => items = []
       end
    /\ local w' = local w.
Proof.
  intros Hr. destruct (getHistory_runs w Hr) as (w' & Hrun & Hl & _).
  exists (visible_history w), (Js.isArray (read_value w)), w'.
  split; [exact Hrun|]. split; [|exact Hl].
  unfold visible_history. destruct (history_value w); reflexivity.
Qed.

(** On a store that holds a string under the history key. *)
Lemma getHistory_returns_array_witness :
  exists items shared w',
    StorageManager.getHistory Sample.malformed = (Ok (items, shared), w')
    /\ items = []
    /\ local w' = local Sample.malformed.
Proof.
  apply (getHistory_returns_array Sample.malformed).
  right. reflexivity.
Defined.

Lemma coherent_visible w : cache_coherent w -> visible_history w = stored_history w.
Proof.
  unfold cache_coherent, visible_history, stored_history, history_value.
  intros [H|H]; rewrite H; simpl.
  - destruct (local w !! StorageKeys.QR_HISTORY) as [[]|]; reflexivity.
  - destruct (local w !! StorageKeys.QR_HISTORY) as [[]|]; reflexivity.
Qed.

Lemma coherent_read_value w :
  cache_coherent w ->
  Js.isArray (read_value w) = true /\ read_value w = Js.VArr (stored_history w)
  \/ Js.isArray (read_value w) = false /\ stored_history w = [].
Proof.
  unfold cache_coherent, read_value, stored_history, history_value.
  intros [H|H]; rewrite H; simpl;
    destruct (local w !! StorageKeys.QR_HISTORY) as [[]|]; simpl; auto.
Qed.

Lemma quiet_readable w : lastError w = [] -> history_readable w.
Proof. intros H. right. rewrite H. reflexivity. Qed.

Lemma cap_take {A : Type} (l : list A) (n : nat) :
  (if n <? length l then take n l else l) = take n l.
Proof.
  destruct (Nat.ltb_spec n (length l)); [reflexivity|].
  symmetry. apply take_ge. lia.
Qed.

Lemma take_app_take {A : Type} (n : nat) (l1 l2 : list A) :
  take n (l1 ++ take n l2) = take n (l1 ++ l2).
Proof.
  rewrite !take_app. f_equal. rewrite take_take. f_equal. lia.
Qed.

Lemma notifications_app t1 t2 : notifications (t1 ++ t2) = notifications t1 ++ notifications t2.
Proof. unfold notifications. apply omap_app. Qed.

Lemma performance_samples_app t1 t2 :
  performance_samples (t1 ++ t2) = performance_samples t1 ++ performance_samples t2.
Proof. unfold performance_samples. apply omap_app. Qed.

(** One successful [saveToHistory]. *)
Lemma saveToHistory_runs content f w :
  lastError w = [] -> cache_coherent w ->
  let newEntry := Js.VObj [("content", content); ("timestamp", Js.VNum (now f));
                           ("id", Js.VStr (StorageManager.generateId f))] in
  exists w',
    StorageManager.saveToHistory content f w = (Ok newEntry, w')
    /\ stored_history w' = take 100 (newEntry :: stored_history w)
    /\ lastError w' = []
    /\ cache w' !! StorageKeys.QR_HISTORY = local w' !! StorageKeys.QR_HISTORY
    /\ notifications (trace w') = notifications (trace w)
    /\ performance_samples (trace w') = performance_samples (trace w)
    /\ (forall k, k <> StorageKeys.QR_HISTORY -> local w' !! k = local w !! k).
Proof.
  intros Hq Hc newEntry.
  destruct (getHistory_runs w (quiet_readable w Hq))
    as (w1 & Hrun & Hl1 & Hc1 & Hq1 & _ & _ & _ & _ & _ & _ & _ & Hn1 & _ & Hp1).
  specialize (Hq1 Hq).
  unfold StorageManager.saveToHistory.
  unfold try_catch, bind at 1. rewrite Hrun.
  cbn [fst snd]. fold newEntry. rewrite cap_take.
  unfold StorageKeys.HISTORY_LIMIT.
  rewrite (coherent_visible w Hc).
  set (hist := take 100 (newEntry :: stored_history w)).
  unfold bind at 1.
  assert (Hm : exists w2, StorageManager.mutated (Js.isArray (read_value w)) hist w1 = (Ok tt, w2)
                          /\ lastError w2 = [] /\ trace w2 = trace w1).
  { unfold StorageManager.mutated. destruct (Js.isArray (read_value w)); run_m; eauto. }
  destruct Hm as (w2 & Hm & Hq2 & Ht2). rewrite Hm.
  unfold bind at 1. rewrite (set_quiet _ _ _ Hq2). run_m.
  eexists. split; [reflexivity|]. simpl.
  unfold stored_history. simpl. rewrite !lookup_insert_eq.
  rewrite notifications_app, performance_samples_app, Ht2, Hn1, Hp1. simpl.
  rewrite !app_nil_r. repeat split; auto.
  intros k Hk.
  assert (Hl2 : local w2 = local w1).
  { revert Hm. unfold StorageManager.mutated.
    destruct (Js.isArray (read_value w)); run_m; intros [= <-]; reflexivity. }
  rewrite lookup_insert_ne by congruence. rewrite Hl2, Hl1. reflexivity.
Qed.

Section HistoryFacts.

Context {platform : Platform}.

(** One successful [add]. *)
Lemma add_runs content f w :
  lastError w = [] -> cache_coherent w -> content <> EmptyString ->
  exists w',
    HistoryManager.add (Js.VStr content) (Js.VObj []) f w
    = (Ok (Session.entry content f), w')
    /\ stored_history w' = take 100 (Session.entry content f :: stored_history w)
    /\ lastError w' = []
    /\ cache w' !! StorageKeys.QR_HISTORY = local w' !! StorageKeys.QR_HISTORY
    /\ listener_calls (trace w')
       = listener_calls (trace w) ++ [("historyAdded", Session.entry content f)].
Proof.
  intros Hq Hc Hne.
  destruct (getHistory_runs w (quiet_readable w Hq))
    as (w1 & Hrun & Hl1 & Hc1 & Hq1 & _ & _ & _ & _ & _ & _ & _ & _ & Hn1 & _).
  specialize (Hq1 Hq).
  unfold HistoryManager.add.
  assert (Hguard : negb (Js.truthy (Js.VStr content))
                   || negb (String.eqb (Js.typeof (Js.VStr content)) "string") = false).
  { simpl. destruct (String.eqb_spec content EmptyString); [congruence|reflexivity]. }
  rewrite Hguard. unfold try_catch, bind at 1. rewrite Hrun.
  cbn [fst snd]. rewrite cap_take.
  change (Js.VObj (Js.spread_into _ (Js.VObj []))) with (Session.entry content f).
  rewrite (coherent_visible w Hc).
  set (hist := take 100 (Session.entry content f :: stored_history w)).
  unfold bind at 1.
  assert (Hm : exists w2, StorageManager.mutated (Js.isArray (read_value w)) hist w1 = (Ok tt, w2)
                          /\ lastError w2 = [] /\ trace w2 = trace w1).
  { unfold StorageManager.mutated. destruct (Js.isArray (read_value w)); run_m; eauto. }
  destruct Hm as (w2 & Hm & Hq2 & Ht2). rewrite Hm.
  unfold bind at 1. rewrite (set_quiet _ _ _ Hq2).
  unfold HistoryManager.notifyListeners. run_m.
  eexists. split; [reflexivity|]. simpl.
  unfold stored_history. simpl. rewrite !lookup_insert_eq.
  repeat split; auto.
  rewrite Ht2. unfold listener_calls in *. rewrite <- !app_assoc, !omap_app, Hn1.
  simpl. reflexivity.
Qed.

Lemma perform_keeps c w :
  lastError w = [] -> cache_coherent w -> Session.has_content c ->
  length (stored_history w) <= 100 ->
  let w' := snd (Session.perform c w) in
  lastError w' = [] /\ cache_coherent w'
  /\ stored_history w' = take 100 (Session.added [c] ++ stored_history w)
  /\ fst (Session.perform c w) = Ok tt.
Proof.
  intros Hq Hc Hne Hlen. destruct c as [content f|content f|]; simpl.
  - destruct (add_runs content f w Hq Hc Hne) as (w' & Hrun & Hs & Hq' & Hc' & _).
    unfold try_catch, bind. rewrite Hrun. cbn [fst snd]. repeat split; auto.
    right. exact Hc'.
  - destruct (saveToHistory_runs (Js.VStr content) f w Hq Hc)
      as (w' & Hrun & Hs & Hq' & Hc' & _).
    unfold try_catch, bind. rewrite Hrun. cbn [fst snd]. repeat split; auto.
    right. exact Hc'.
  - unfold StorageManager.cacheTimerFires. run_m. repeat split; auto.
    + left. simpl. apply lookup_delete_eq.
    + symmetry. apply take_ge. exact Hlen.
Qed.

(** C2. Start from a store whose history holds at most 100 entries, let
    storage calls succeed, and run any sequence of [add(content)] calls with
    a content that is not empty (calls of [saveToHistory(content)] may be
    among them, and cache timers may fire at will). After the sequence, and
    so after each call, the stored history is the new entries, newest first,
    in front of the old ones, cut to 100: it never holds more than 100
    entries, and once 100 entries or more have been added it is exactly the
    100 most recently added ones, newest first. *)
Theorem add_keeps_newest_hundred (calls : list Session.Call) (w : World) :
  lastError w = [] ->
  cache_coherent w ->
  length (stored_history w) <= 100 ->
  Forall Session.has_content calls ->
  let w' := snd (Session.run calls w) in
  stored_history w' = take 100 (rev (Session.added calls) ++ stored_history w)
  /\ length (stored_history w') <= 100
  /\ (100 <= length (Session.added calls) ->
      stored_history w' = take 100 (rev (Session.added calls))).
Proof.
  intros Hq Hc Hlen Hall.
  assert (Hmain : stored_history (snd (Session.run calls w))
                  = take 100 (rev (Session.added calls) ++ stored_history w)).
  { revert w Hq Hc Hlen. induction Hall as [|c calls Hc0 Hall IH]; intros w Hq Hc Hlen.
    - simpl. rewrite take_ge; auto.
    - destruct (perform_keeps c w Hq Hc Hc0 Hlen) as (Hq1 & Hc1 & Hs1 & Hok).
      simpl Session.run. unfold bind.
      destruct (Session.perform c w) as [r w1] eqn:Ep; cbn [fst snd] in Hq1, Hc1, Hs1, Hok.
      subst r.
      assert (Hlen1 : length (stored_history w1) <= 100)
        by (rewrite Hs1, length_take; lia).
      rewrite (IH w1 Hq1 Hc1 Hlen1), Hs1, take_app_take, app_assoc.
      f_equal. f_equal.
      change (c :: calls) with ([c] ++ calls).
      unfold Session.added. rewrite omap_app, rev_app_distr.
      f_equal. destruct c; reflexivity. }
  simpl. split; [exact Hmain|]. split.
  - rewrite Hmain, length_take. lia.
  - intros H100. rewrite Hmain, take_app_le; [reflexivity|]. rewrite length_rev. lia.
Qed.

End HistoryFacts.

Lemma calls101_have_content : Forall Session.has_content Sample.calls101.
Proof.
  unfold Sample.calls101. apply List.Forall_forall. intros c Hin.
  apply in_map_iff in Hin as (i & <- & _). simpl. discriminate.
Qed.

(** On 101 calls of [add], from an empty store. *)
Lemma add_keeps_newest_hundred_witness :
  let added := Session.added (platform := Reference.platform) Sample.calls101 in
  let w' := snd (Session.run (platform := Reference.platform)
                             Sample.calls101 Sample.blank) in
  stored_history w' = take 100 (rev added ++ stored_history Sample.blank)
  /\ length (stored_history w') <= 100
  /\ (100 <= length added -> stored_history w' = take 100 (rev added)).
Proof.
  apply (add_keeps_newest_hundred (platform := Reference.platform)
           Sample.calls101 Sample.blank).
  - reflexivity.
  - left. reflexivity.
  - vm_compute. lia.
  - exact calls101_have_content.
Defined.

Section ImportFacts.

Context {platform : Platform}.

Variable importFromCsv : string -> M (list Js.value).
Variable importFromTxt : string -> M (list Js.value).

(** C9. Take any history list, export it in the JSON format, and import
    the text into a store whose history is empty, with storage calls that
    succeed and a [JSON.parse] that gives back the document that
    [JSON.stringify] was given. The import returns the exported entries and
    the store then holds them, in the same order, cut to 100; for a list of
    at most 100 entries the stored contents are the exported contents, one
    by one. *)
Theorem export_import_roundtrip (exportTime : string) (history : list Js.value)
        (w : World) :
  JSON_parse (JSON_stringify (export_document exportTime history))
  = Some (export_document exportTime history) ->
  lastError w = [] ->
  cache_coherent w ->
  stored_history w = [] ->
  exists w',
    HistoryManager.import importFromCsv importFromTxt
                          (HistoryManager.exportAsJson exportTime history) "json" w
    = (Ok history, w')
    /\ stored_history w' = take 100 history
    /\ (length history <= 100 ->
        map content_of (stored_history w') = map content_of history).
Proof.
  intros Hjson Hq Hc Hempty.
  destruct (getHistory_runs w (quiet_readable w Hq))
    as (w1 & Hrun & Hl1 & Hc1 & Hq1 & _).
  specialize (Hq1 Hq).
  unfold HistoryManager.import, HistoryManager.importFromJson, HistoryManager.exportAsJson.
  fold (export_document exportTime history). rewrite Hjson.
  simpl String.eqb. cbn match. simpl Js.prop. cbn iota.
  unfold try_catch, bind at 1. unfold ret at 1. unfold bind at 1. rewrite Hrun.
  cbn [fst snd]. rewrite cap_take, (coherent_visible w Hc), Hempty, app_nil_r.
  set (hist := take 100 history).
  unfold bind at 1.
  assert (Hm : exists w2, StorageManager.mutated (Js.isArray (read_value w)) hist w1 = (Ok tt, w2)
                          /\ lastError w2 = []).
  { unfold StorageManager.mutated. destruct (Js.isArray (read_value w)); run_m; eauto. }
  destruct Hm as (w2 & Hm & Hq2). rewrite Hm.
  unfold bind at 1. rewrite (set_quiet _ _ _ Hq2).
  unfold HistoryManager.notifyListeners. run_m.
  eexists. split; [reflexivity|]. simpl.
  unfold stored_history. simpl. rewrite !lookup_insert_eq.
  split; [reflexivity|].
  intros Hlen. unfold hist. rewrite take_ge; auto.
Qed.

End ImportFacts.

(** On two entries, with the JSON printer and parser of the reference
    platform. *)
Lemma export_import_roundtrip_witness :
  exists w',
    HistoryManager.import (platform := Reference.platform)
                          (fun _ => ret []) (fun _ => ret [])
                          (HistoryManager.exportAsJson (platform := Reference.platform)
                             "2024-05-01T10:00:00.000Z" [Sample.note; Sample.link])
                          "json" Sample.blank
    = (Ok [Sample.note; Sample.link], w')
    /\ stored_history w' = take 100 [Sample.note; Sample.link]
    /\ (length [Sample.note; Sample.link] <= 100 ->
        map content_of (stored_history w')
        = map content_of [Sample.note; Sample.link]).
Proof.
  apply (export_import_roundtrip (platform := Reference.platform)
           (fun _ => ret []) (fun _ => ret [])
           "2024-05-01T10:00:00.000Z" [Sample.note; Sample.link] Sample.blank).
  - vm_compute. reflexivity.
  - reflexivity.
  - left. reflexivity.
  - reflexivity.
Defined.

(** *** Classification of the content *)

Section ClassifyFacts.

Context {platform : Platform}.

(** C6. [add(content)] stores as type the result of [detectContentType],
    which decides by precedence: [url] when the platform parses the content
    as a URL; otherwise [email] when it has the shape [local@domain.rest];
    otherwise [phone] when it is made of at least ten digits and separators;
    otherwise [text]. On a platform that parses [https://example.com] as a
    URL and none of the three other samples, the four samples come out as
    url, email, phone and text. *)
Theorem detectContentType_precedence :
  URL_parses "https://example.com" = true ->
  URL_parses "a@b.com" = false ->
  URL_parses "+1 (555) 123-4567" = false ->
  URL_parses "hello world" = false ->
  (forall content f w,
      lastError w = [] -> cache_coherent w -> content <> EmptyString ->
      exists item w',
        HistoryManager.add (Js.VStr content) (Js.VObj []) f w = (Ok item, w')
        /\ Js.field item "type" = Js.VStr (HistoryManager.detectContentType content))
  /\ (forall content,
         (URL_parses content = true ->
          HistoryManager.detectContentType content = "url")
         /\ (URL_parses content = false -> email_shaped content ->
             HistoryManager.detectContentType content = "email")
         /\ (URL_parses content = false -> ~ email_shaped content ->
             phone_shaped content ->
             HistoryManager.detectContentType content = "phone")
         /\ (URL_parses content = false -> ~ email_shaped content ->
             ~ phone_shaped content ->
             HistoryManager.detectContentType content = "text"))
  /\ HistoryManager.detectContentType "https://example.com" = "url"
  /\ HistoryManager.detectContentType "a@b.com" = "email"
  /\ HistoryManager.detectContentType "+1 (555) 123-4567" = "phone"
  /\ HistoryManager.detectContentType "hello world" = "text".
Proof.
  intros Hurl Hmail Hphone Htext.
  split; [|split].
  - intros content f w Hq Hc Hne.
    destruct (add_runs content f w Hq Hc Hne) as (w' & Hrun & _).
    exists (Session.entry content f), w'. split; [exact Hrun|reflexivity].
  - intros content. unfold HistoryManager.detectContentType, HistoryManager.isUrl.
    repeat split.
    + intros ->. reflexivity.
    + intros -> He. apply isEmail_shape in He. rewrite He. reflexivity.
    + intros -> He Hp. apply isPhoneNumber_shape in Hp. rewrite Hp.
      destruct (HistoryManager.isEmail content) eqn:E; [|reflexivity].
      apply isEmail_shape in E. contradiction.
    + intros -> He Hp.
      destruct (HistoryManager.isEmail content) eqn:E.
      { apply isEmail_shape in E. contradiction. }
      destruct (HistoryManager.isPhoneNumber content) eqn:P; [|reflexivity].
      apply isPhoneNumber_shape in P. contradiction.
  - unfold HistoryManager.detectContentType, HistoryManager.isUrl.
    rewrite Hurl, Hmail, Hphone, Htext. repeat split; vm_compute; reflexivity.
Qed.

End ClassifyFacts.

(** On the reference platform. *)
Lemma detectContentType_precedence_witness :
  HistoryManager.detectContentType (platform := Reference.platform)
                                   "https://example.com" = "url"
  /\ HistoryManager.detectContentType (platform := Reference.platform) "a@b.com" = "email"
  /\ HistoryManager.detectContentType (platform := Reference.platform)
                                      "+1 (555) 123-4567" = "phone"
  /\ HistoryManager.detectContentType (platform := Reference.platform)
                                      "hello world" = "text".
Proof.
  apply (detectContentType_precedence (platform := Reference.platform));
    vm_compute; reflexivity.
Defined.

(** *** The performance statistics *)

Lemma get_cached key d w v :
  cache w !! key = Some v -> v <> Js.VUndefined ->
  StorageManager.get key d w = (Ok v, w).
Proof.
  intros Hc Hv. unfold StorageManager.get, try_catch, bind, gets. rewrite Hc.
  cbn [default]. destruct v; try congruence; reflexivity.
Qed.

Lemma next_lastError_succeeds w :
  hd false (lastError w) = false ->
  next_lastError w = (Ok false, set_lastError (tl (lastError w)) w).
Proof.
  intros H. unfold next_lastError. destruct w as [l le c eh cs q ft sb so r t].
  simpl in *. destruct le as [|b rest]; simpl in *; subst; reflexivity.
Qed.

Lemma get_uncached key d w :
  default Js.VUndefined (cache w !! key) = Js.VUndefined ->
  hd false (lastError w) = false ->
  let stored := default Js.VUndefined (local w !! key) in
  let v := match stored with Js.VUndefined => d | _ => stored end in
  exists w',
    StorageManager.get key d w = (Ok v, w')
    /\ local w' = local w
    /\ cache w' = <[key := v]> (cache w)
    /\ lastError w' = tl (lastError w)
    /\ components w' = components w
    /\ errorHistory w' = errorHistory w
    /\ trace w' = trace w ++ [EvStorageGet key false;
                              EvCacheTimer key StorageManager.cacheTimeout].
Proof.
  intros Hc Hq stored v.
  unfold StorageManager.get, StorageManager.getFromStorage, StorageManager.remember.
  unfold try_catch, bind at 1. unfold bind at 1. unfold gets at 1. rewrite Hc.
  unfold bind at 1. unfold bind at 1. rewrite (next_lastError_succeeds w Hq).
  run_m. fold stored.
  assert (E : match stored with Js.VUndefined => d | _ => stored end = v) by reflexivity.
  destruct stored; rewrite E; eexists; (split; [reflexivity|]); simpl;
    rewrite <- app_assoc; auto 10.
Qed.

Lemma lookup_set_field k k' v fs :
  Js.lookup_field k (Js.set_field k' v fs)
  = if String.eqb k k' then Some v else Js.lookup_field k fs.
Proof.
  induction fs as [|[k0 v0] fs IH]; simpl.
  - destruct (String.eqb k k'); reflexivity.
  - destruct (String.eqb_spec k' k0) as [->|Hne]; simpl.
    + destruct (String.eqb k k0); reflexivity.
    + rewrite IH. destruct (String.eqb_spec k k') as [->|Hne'];
        [apply String.eqb_neq in Hne; rewrite Hne|]; reflexivity.
Qed.

Lemma listener_calls_app t1 t2 :
  listener_calls (t1 ++ t2) = listener_calls t1 ++ listener_calls t2.
Proof. unfold listener_calls. apply omap_app. Qed.




(** [logPerformance] never throws. *)
Lemma logPerformance_returns metric d w :
  fst (StorageManager.logPerformance metric d w) = Ok tt.
Proof.
  unfold StorageManager.logPerformance. unfold bind at 1. unfold emit at 1, modify at 1.
  unfold try_catch.
  match goal with |- context [bind ?m ?k ?x] => destruct (bind m k x) as [[[]|e] w1] end;
    reflexivity.
Qed.

(** *** Decode outcomes *)





(** *** The selection state machine *)

Create HintDb frame.

Section Frame.

Context {X : Type} (obs : World -> X).

Lemma keeps_ret {A : Type} (a : A) : keeps obs (ret a).
Proof. intros w. reflexivity. Qed.

Lemma keeps_throw {A : Type} (e : Error) : keeps obs (@throw A e).
Proof. intros w. reflexivity. Qed.

Lemma keeps_gets {A : Type} (f : World -> A) : keeps obs (gets f).
Proof. intros w. reflexivity. Qed.

Lemma keeps_modify (f : World -> World) :
  (forall w, obs (f w) = obs w) -> keeps obs (modify f).
Proof. intros H w. apply H. Qed.

Lemma keeps_emit (e : Event) :
  (forall w, obs (set_trace (trace w ++ [e]) w) = obs w) -> keeps obs (emit e).
Proof. intros H w. apply H. Qed.

Lemma keeps_bind {A B : Type} (m : M A) (k : A -> M B) :
  keeps obs m -> (forall a, keeps obs (k a)) -> keeps obs (bind m k).
Proof.
  intros Hm Hk w. unfold bind. specialize (Hm w).
  destruct (m w) as [[a|e] w1]; simpl in *.
  - rewrite (Hk a w1). exact Hm.
  - exact Hm.
Qed.

Lemma keeps_try_catch {A : Type} (m : M A) (h : Error -> M A) :
  keeps obs m -> (forall e, keeps obs (h e)) -> keeps obs (try_catch m h).
Proof.
  intros Hm Hh w. unfold try_catch. specialize (Hm w).
  destruct (m w) as [[a|e] w1]; simpl in *.
  - exact Hm.
  - rewrite (Hh e w1). exact Hm.
Qed.

Lemma keeps_next_lastError :
  (forall l w, obs (set_lastError l w) = obs w) -> keeps obs next_lastError.
Proof. intros H w. unfold next_lastError. destruct (lastError w); simpl; auto. Qed.

End Frame.

#[local] Hint Resolve keeps_ret keeps_throw keeps_gets : frame.

(** [surface] does not look at the store, the cache, the oracle or the
    error history, and of the trace it sees the listener calls only. *)
Ltac unseen :=
  intros; unfold surface, selection, visible_settings, listener_calls; simpl;
  rewrite ?omap_app, ?app_nil_r; reflexivity.

Ltac frame :=
  repeat first
    [ solve [auto with frame]
    | apply keeps_bind; [|intro]
    | apply keeps_try_catch; [|intro]
    | apply keeps_modify; solve [unseen]
    | apply keeps_emit; solve [unseen]
    | apply keeps_next_lastError; solve [unseen]
    | match goal with
      | |- keeps _ (if ?b then _ else _) => destruct b
      | |- keeps _ (match ?x with _ => _ end) => destruct x
      end ].

Lemma keeps_selection_of_surface {A : Type} (m : M A) :
  keeps surface m -> keeps selection m.
Proof. intros H w. specialize (H w). unfold surface in H. congruence. Qed.

Lemma keeps_settings_of_surface {A : Type} (m : M A) :
  keeps surface m -> keeps visible_settings m.
Proof. intros H w. specialize (H w). unfold surface in H. congruence. Qed.

Lemma keeps_handleError e : keeps surface (ErrorHandler.handleError e).
Proof.
  unfold ErrorHandler.handleError, ErrorHandler.addToHistory, ErrorHandler.notifyCallbacks,
    ErrorHandler.tryRecovery, ErrorHandler.tryStorageRecovery.
  frame.
Qed.

#[local] Hint Resolve keeps_handleError : frame.

Lemma keeps_raise {A : Type} e : keeps surface (@ErrorHandler.raise A e).
Proof. unfold ErrorHandler.raise. frame. Qed.

#[local] Hint Resolve keeps_raise : frame.

Lemma keeps_setWithRetry_from budget key v :
  forall retryCount, keeps surface (StorageManager.setWithRetry_from budget key v retryCount).
Proof.
  induction budget as [|budget IH]; intros retryCount; simpl; frame.
Qed.

#[local] Hint Resolve keeps_setWithRetry_from : frame.

Lemma keeps_set key v : keeps surface (StorageManager.set key v).
Proof.
  unfold StorageManager.set, StorageManager.setWithRetry, StorageManager.remember. frame.
Qed.

Lemma keeps_getHistory : keeps surface StorageManager.getHistory.
Proof.
  unfold StorageManager.getHistory, StorageManager.get, StorageManager.getFromStorage,
    StorageManager.remember.
  frame.
Qed.

#[local] Hint Resolve keeps_set keeps_getHistory : frame.

Lemma keeps_saveToHistory content f : keeps surface (StorageManager.saveToHistory content f).
Proof.
  unfold StorageManager.saveToHistory, StorageManager.mutated. frame.
Qed.

Lemma keeps_storage_saveSettings settings :
  keeps surface (StorageManager.saveSettings settings).
Proof. unfold StorageManager.saveSettings. frame. Qed.

#[local] Hint Resolve keeps_saveToHistory keeps_storage_saveSettings : frame.

(** A capture, whatever its outcome, leaves the selection state alone. *)
Lemma keeps_recognizeFromRect a rect :
  keeps surface (QRRecognizer.recognizeFromRect a rect).
Proof.
  unfold QRRecognizer.recognizeFromRect, QRRecognizer.loadHtml2Canvas,
    QRRecognizer.addToRecognitionHistory, QRRecognizer.showNotification,
    QRRecognizer.update, StorageManager.logPerformance.
  frame.
Qed.

#[local] Hint Resolve keeps_recognizeFromRect : frame.

Lemma keeps_settle a rect : keeps surface (QRRecognizer.settle a rect).
Proof. unfold QRRecognizer.settle. frame. Qed.

#[local] Hint Resolve keeps_settle : frame.

Lemma keeps_capture_completes a :
  keeps selection (QRRecognizer.step (QRRecognizer.CaptureCompletes a)).
Proof.
  apply keeps_selection_of_surface.
  unfold QRRecognizer.step, QRRecognizer.update. frame.
Qed.

Lemma spends_bind {A B : Type} j k (m : M A) (f : A -> M B) :
  spends_at_most j m -> (forall a, spends_at_most k (f a)) ->
  spends_at_most (j + k) (bind m f).
Proof.
  intros Hm Hf w. unfold bind. specialize (Hm w).
  destruct (m w) as [[a|e] w1]; simpl in *.
  - specialize (Hf a w1). lia.
  - lia.
Qed.

Lemma keeps_spends {A : Type} (m : M A) : keeps selection m -> spends_at_most 0 m.
Proof.
  intros H w. specialize (H w). unfold selection in H. unfold budget_used.
  injection H as -> _ _ ->. lia.
Qed.

Lemma handleMouseDown_spends x y : spends_at_most 0 (QRRecognizer.handleMouseDown x y).
Proof.
  intros w. unfold QRRecognizer.handleMouseDown, QRRecognizer.createSelectionBox,
    QRRecognizer.updateSelectionBox, QRRecognizer.update. run_m.
  destruct (isSelectionMode (recognizer w)) eqn:E; simpl; unfold budget_used; simpl;
    rewrite ?E; lia.
Qed.

Lemma handleMouseMove_spends x y : spends_at_most 0 (QRRecognizer.handleMouseMove x y).
Proof.
  intros w. unfold QRRecognizer.handleMouseMove, QRRecognizer.updateSelectionBox,
    QRRecognizer.update. run_m.
  destruct (isSelectionMode (recognizer w)) eqn:E; simpl;
    [destruct (selectionBox (recognizer w)) eqn:B; simpl|];
    unfold budget_used; simpl; rewrite ?E, ?B; simpl; rewrite ?E; lia.
Qed.

Lemma handleMouseUp_spends : spends_at_most 0 QRRecognizer.handleMouseUp.
Proof.
  intros w. unfold QRRecognizer.handleMouseUp, QRRecognizer.removeSelectionBox,
    QRRecognizer.update. run_m.
  destruct (isSelectionMode (recognizer w)) eqn:E; simpl;
    [destruct (selectionBox (recognizer w)) eqn:B; simpl|];
    unfold budget_used; simpl; rewrite ?E, ?length_app; simpl; lia.
Qed.

Lemma each_listener_spends n (h : M unit) :
  spends_at_most 0 h -> spends_at_most 0 (QRRecognizer.each_listener n h).
Proof.
  intros H. induction n as [|n IH]; simpl.
  - intros w. simpl. lia.
  - apply (spends_bind 0 0); auto.
Qed.

Lemma toggle_spends : spends_at_most 1 QRRecognizer.toggleSelectionMode.
Proof.
  intros w. unfold QRRecognizer.toggleSelectionMode, QRRecognizer.removeSelectionBox,
    QRRecognizer.showNotification, QRRecognizer.update. run_m.
  destruct (isSelectionMode (recognizer w)) eqn:E; simpl; unfold budget_used; simpl;
    rewrite ?E; lia.
Qed.

Lemma step_spends e :
  spends_at_most (toggles [e]) (QRRecognizer.step e).
Proof.
  destruct e as [|x y|x y| |a]; simpl.
  - apply toggle_spends.
  - apply (spends_bind 0 0); [apply keeps_spends, keeps_gets|].
    intros n. apply each_listener_spends, handleMouseDown_spends.
  - apply (spends_bind 0 0); [apply keeps_spends, keeps_gets|].
    intros n. apply each_listener_spends, handleMouseMove_spends.
  - apply (spends_bind 0 0); [apply keeps_spends, keeps_gets|].
    intros n. apply each_listener_spends, handleMouseUp_spends.
  - apply keeps_spends, (keeps_capture_completes a).
Qed.

Lemma run_spends events :
  spends_at_most (toggles events) (QRRecognizer.run events).
Proof.
  induction events as [|e events IH]; simpl QRRecognizer.run.
  - intros w. simpl. lia.
  - replace (toggles (e :: events)) with (toggles [e] + toggles events)
      by (destruct e; reflexivity).
    apply spends_bind; [apply step_spends|intros _; exact IH].
Qed.

Lemma idle_listeners_ignore_mouseUp n w :
  isSelectionMode (recognizer w) = false ->
  QRRecognizer.each_listener n QRRecognizer.handleMouseUp w = (Ok tt, w).
Proof.
  intros H. induction n as [|n IH]; simpl; [reflexivity|].
  unfold bind. unfold QRRecognizer.handleMouseUp at 1. run_m. rewrite H. exact IH.
Qed.

(** C4 (amended). A toggle command that arrives while a drag is in
    progress is not ignored: it cancels the selection, so the controller is
    back in Idle with selection mode off, the overlay removed and the cursor
    reverted, and no capture is started. Whatever the page does, the
    captures started are at most one for each toggle command, and one more
    when selection mode was already on: between two toggle commands, that is
    within one selection cycle, at most one capture is started. The
    pointer-up that ends a drag starts exactly one capture, on the rectangle
    of the overlay, and puts the controller back in Idle at once; when that
    capture later completes, with success or with failure, the selection
    state is left as it is. *)
Theorem selection_cycle (w : World) :
  (QRRecognizer.selection_state (recognizer w) = QRRecognizer.Dragging ->
   selection (snd (QRRecognizer.step QRRecognizer.ToggleCommand w))
   = (false, None, CursorDefault, started (recognizer w)))
  /\ (forall events,
         length (started (recognizer (snd (QRRecognizer.run events w))))
         <= length (started (recognizer w))
            + (if isSelectionMode (recognizer w) then 1 else 0) + toggles events)
  /\ (forall rect,
         isSelectionMode (recognizer w) = true ->
         selectionBox (recognizer w) = Some rect ->
         0 < mouseListeners (recognizer w) ->
         selection (snd (QRRecognizer.step QRRecognizer.MouseUp w))
         = (false, None, CursorDefault, started (recognizer w) ++ [rect]))
  /\ (forall a,
         selection (snd (QRRecognizer.step (QRRecognizer.CaptureCompletes a) w))
         = selection w).
Proof.
  repeat split.
  - unfold QRRecognizer.selection_state. intros H.
    destruct (isSelectionMode (recognizer w)) eqn:E; [|discriminate].
    unfold QRRecognizer.step, QRRecognizer.toggleSelectionMode,
      QRRecognizer.removeSelectionBox, QRRecognizer.showNotification, QRRecognizer.update.
    run_m. rewrite E. reflexivity.
  - intros events. pose proof (run_spends events w) as H.
    unfold budget_used in H. lia.
  - intros rect Hm Hb Hn.
    destruct (mouseListeners (recognizer w)) as [|n] eqn:En; [lia|].
    unfold QRRecognizer.step. unfold bind at 1. unfold gets at 1. rewrite En.
    simpl QRRecognizer.each_listener. unfold bind at 1.
    unfold QRRecognizer.handleMouseUp at 1, QRRecognizer.removeSelectionBox,
      QRRecognizer.update.
    run_m. rewrite Hm, Hb. simpl.
    rewrite idle_listeners_ignore_mouseUp; reflexivity.
  - intros a. apply (keeps_capture_completes a).
Qed.

(** On a drag in progress. *)
Lemma selection_cycle_witness :
  selection (snd (QRRecognizer.step QRRecognizer.ToggleCommand Sample.dragging))
  = (false, None, CursorDefault, started (recognizer Sample.dragging)).
Proof.
  apply (selection_cycle Sample.dragging). reflexivity.
Defined.

(** C4, as stated, fails: the toggle command that arrives during a drag is
    carried out and ends the drag; and a capture that completes after
    selection was switched on again finds the controller armed, not idle. *)
Lemma toggle_while_dragging_is_not_ignored :
  QRRecognizer.selection_state (recognizer Sample.dragging) = QRRecognizer.Dragging
  /\ QRRecognizer.selection_state
       (recognizer (snd (QRRecognizer.step QRRecognizer.ToggleCommand Sample.dragging)))
     <> QRRecognizer.Dragging
  /\ QRRecognizer.selection_state
       (recognizer
          (snd (QRRecognizer.run
                  [QRRecognizer.MouseUp; QRRecognizer.ToggleCommand;
                   QRRecognizer.CaptureCompletes Sample.miss] Sample.dragging)))
     <> QRRecognizer.Idle.
Proof.
  split; [|split].
  - reflexivity.
  - vm_compute. discriminate.
  - vm_compute. discriminate.
Qed.

(** *** Settings *)

(** X7. [validateSettings] lets through exactly the settings in which
    [size] has the type [number] and is neither below 100 nor above 1000,
    both colours pass [isValidColor], and [correctLevel] is one of the four
    levels. *)
Lemma validateSettings_accepts (settings : Js.value) (w : World) :
  ConfigManager.validateSettings settings w = (Ok tt, w) <->
  (Js.typeof (Js.field settings "size") = "number"
   /\ forall size, Js.field settings "size" = Js.VNum size ->
                   ~ (size < 100)%Z /\ ~ (1000 < size)%Z)
  /\ ConfigManager.isValidColor (Js.field settings "colorDark") = true
  /\ ConfigManager.isValidColor (Js.field settings "colorLight") = true
  /\ (exists level, In level ["L"; "M"; "Q"; "H"]
                    /\ Js.field settings "correctLevel" = Js.VStr level).
Proof.
  unfold ConfigManager.validateSettings, ConfigManager.validation_errors.
  assert (Hsize : ConfigManager.size_out_of_range (Js.field settings "size") = false <->
                  Js.typeof (Js.field settings "size") = "number"
                  /\ forall size, Js.field settings "size" = Js.VNum size ->
                                  ~ (size < 100)%Z /\ ~ (1000 < size)%Z).
  { unfold ConfigManager.size_out_of_range.
    destruct (Js.field settings "size") as [| | |n| | |]; split;
      try discriminate; try (intros [E _]; discriminate).
    - intros H. apply orb_false_iff in H as [H1 H2].
      split; [reflexivity|]. intros size [= <-]. lia.
    - intros [_ Hr]. destruct (Hr n eq_refl). apply orb_false_iff. lia. }
  assert (Hlevel : Js.includes_value (map snd ConfigManager.QR_CORRECT_LEVELS)
                                     (Js.field settings "correctLevel") = true <->
                   exists level, In level ["L"; "M"; "Q"; "H"]
                                 /\ Js.field settings "correctLevel" = Js.VStr level).
  { unfold Js.includes_value, ConfigManager.QR_CORRECT_LEVELS.
    destruct (Js.field settings "correctLevel") as [| | | |s| |];
      cbn [map snd existsb Js.strict_eq orb]; split;
      try discriminate; try (intros (level & _ & E); discriminate).
    - intros H. exists s. split; [|reflexivity].
      repeat (apply orb_true_iff in H as [H|H];
              [apply String.eqb_eq in H; subst; simpl; auto 6|]).
      discriminate.
    - intros (level & Hin & E). injection E as ->.
      simpl in Hin. destruct Hin as [<-|[<-|[<-|[<-|[]]]]]; reflexivity. }
  assert (Hfalsy : Js.truthy settings = false ->
                   ConfigManager.size_out_of_range (Js.field settings "size") = true).
  { destruct settings; intros; try discriminate; reflexivity. }
  rewrite <- Hsize, <- Hlevel. clear Hsize Hlevel.
  destruct (Js.truthy settings);
    destruct (ConfigManager.size_out_of_range (Js.field settings "size"));
    destruct (ConfigManager.isValidColor (Js.field settings "colorDark"));
    destruct (ConfigManager.isValidColor (Js.field settings "colorLight"));
    destruct (Js.includes_value (map snd ConfigManager.QR_CORRECT_LEVELS)
                                (Js.field settings "correctLevel"));
    cbn [negb app length Nat.ltb Nat.leb]; unfold throw, ret;
    (split; [try discriminate; auto|]);
    try (intros (H1 & H2 & H3 & H4); discriminate);
    try reflexivity.
  all: intros _; specialize (Hfalsy eq_refl); discriminate.
Qed.

(** When the object given to [saveSettings] passes the validation and the
    write succeeds, the merge of the object over the settings in memory is
    written first, and only then put in memory and handed to the listeners. *)
Lemma saveSettings_valid (newSettings : Js.value) (w : World) :
  ConfigManager.validateSettings newSettings w = (Ok tt, w) ->
  lastError w = [] ->
  let merged := Js.VObj (Js.spread_into (Js.spread_into [] (currentSettings w))
                                        newSettings) in
  exists w',
    ConfigManager.saveSettings newSettings w = (Ok merged, w')
    /\ local w' !! StorageKeys.QR_SETTINGS = Some merged
    /\ currentSettings w' = merged
    /\ trace w' = trace w ++ [EvStorageSet StorageKeys.QR_SETTINGS merged 0 false;
                              EvCacheTimer StorageKeys.QR_SETTINGS StorageManager.cacheTimeout;
                              EvApplySettings merged;
                              EvListeners "settingsSaved" merged].
Proof.
  intros Hv Hq merged.
  unfold ConfigManager.saveSettings, StorageManager.saveSettings.
  unfold try_catch at 1. unfold bind at 1. rewrite Hv.
  unfold bind at 1. unfold gets at 1. fold merged.
  unfold bind at 1. unfold try_catch at 1. unfold bind at 1.
  rewrite (set_quiet _ _ _ Hq).
  unfold ConfigManager.applySettings, ConfigManager.notifyListeners. run_m.
  eexists. split; [reflexivity|]. simpl.
  rewrite lookup_insert_eq, <- !app_assoc. simpl. auto.
Qed.

(** X9. Whenever [saveSettings] fails, for whatever reason, the settings in
    memory are what they were and no listener has been called; the error it
    throws is its own STORAGE_ERROR with code 4002, which wraps the cause. *)
Lemma saveSettings_failure (newSettings : Js.value) (w w' : World) (e : Error) :
  ConfigManager.saveSettings newSettings w = (Throw e, w') ->
  visible_settings w' = visible_settings w
  /\ exists cause, e = AppError "Failed to save settings" STORAGE_ERROR 4002 [] (Some cause).
Proof.
  unfold ConfigManager.saveSettings. unfold try_catch at 1. unfold bind at 1.
  assert (Hval : forall w0, exists r, ConfigManager.validateSettings newSettings w0 = (r, w0)).
  { intros w0. unfold ConfigManager.validateSettings, throw, ret.
    destruct (negb (Js.truthy newSettings)); [eauto|].
    destruct (0 <? length (ConfigManager.validation_errors newSettings)); eauto. }
  destruct (Hval w) as (r & Hr). rewrite Hr.
  destruct r as [[]|cause].
  - unfold bind at 1. unfold gets at 1.
    set (merged := Js.VObj _).
    unfold bind at 1.
    pose proof (keeps_settings_of_surface _ (keeps_storage_saveSettings merged) w) as Hk.
    destruct (StorageManager.saveSettings merged w) as [[b|cause] w1]; simpl in Hk.
    + unfold ConfigManager.applySettings, ConfigManager.notifyListeners. run_m. discriminate.
    + intros H.
      destruct (raise_AppError (A := Js.value) "Failed to save settings" STORAGE_ERROR 4002 []
                               (Some cause) w1) as (w2 & Hraise & Hh).
      simpl in Hraise. rewrite Hraise in H. injection H as <- <-.
      pose proof (keeps_settings_of_surface _ (keeps_handleError
        (AppError "Failed to save settings" STORAGE_ERROR 4002 [] (Some cause))) w1) as Hk2.
      rewrite Hh in Hk2. simpl in Hk2. split; [congruence|eauto].
  - intros H.
    destruct (raise_AppError (A := Js.value) "Failed to save settings" STORAGE_ERROR 4002 []
                             (Some cause) w) as (w2 & Hraise & Hh).
    simpl in Hraise. rewrite Hraise in H. injection H as <- <-.
    pose proof (keeps_settings_of_surface _ (keeps_handleError
      (AppError "Failed to save settings" STORAGE_ERROR 4002 [] (Some cause))) w) as Hk2.
    rewrite Hh in Hk2. simpl in Hk2. split; [congruence|eauto].
Qed.

(** C1: what the code does where the claim and the code part. With valid
    settings stored and in memory, [saveSettings({size: 50})] throws the
    STORAGE_ERROR 4002 of [saveSettings], not the VALIDATION_ERROR that it
    wraps, and the storage recovery that the error handler runs on a
    STORAGE_ERROR has cleared chrome.storage.local, so the stored settings
    are gone; the settings in memory are unchanged. And
    [saveSettings({size: 300})] fails in the same way although the merged
    result is valid, because the partial object itself is validated. *)
Theorem saveSettings_wraps_and_clears :
  let invalid := Js.VObj [("size", Js.VNum 50)] in
  let partial := Js.VObj [("size", Js.VNum 300)] in
  let merged := Js.VObj (Js.spread_into (Js.spread_into [] Sample.settings) partial) in
  let validation errors := AppError "Settings validation failed" VALIDATION_ERROR 4102
                                    errors None in
  let failed cause := Throw (AppError "Failed to save settings" STORAGE_ERROR 4002 []
                                      (Some cause)) in
  local Sample.configured !! StorageKeys.QR_SETTINGS = Some Sample.settings
  /\ fst (ConfigManager.saveSettings invalid Sample.configured)
     = failed (validation ["Size must be between 100 and 1000"; "Invalid colorDark value";
                           "Invalid colorLight value"; "Invalid correctLevel value"])
  /\ local (snd (ConfigManager.saveSettings invalid Sample.configured))
       !! StorageKeys.QR_SETTINGS = None
  /\ currentSettings (snd (ConfigManager.saveSettings invalid Sample.configured))
     = Sample.settings
  /\ fst (ConfigManager.validateSettings merged Sample.configured) = Ok tt
  /\ fst (ConfigManager.saveSettings partial Sample.configured)
     = failed (validation ["Invalid colorDark value"; "Invalid colorLight value";
                           "Invalid correctLevel value"]).
Proof.
  repeat split; vm_compute; reflexivity.
Qed.

(** *** Deleting an entry *)

Lemma findIndex_id_missing id l : forall i w,
  forallb is_object l = true ->
  forallb (fun item => negb (has_id id item)) l = true ->
  HistoryManager.findIndex_id id l i w = (Ok None, w).
Proof.
  induction l as [|item l IH]; intros i w Hobj Hno; simpl in *; [reflexivity|].
  apply andb_true_iff in Hobj as [Ho Hobj]. apply andb_true_iff in Hno as [Hn Hno].
  unfold has_id in Hn. destruct item; try discriminate. simpl in *.
  destruct (Js.strict_eq _ id); [discriminate|]. apply IH; auto.
Qed.

Lemma findIndex_id_present id before item after : forall i w,
  forallb is_object before = true ->
  forallb (fun x => negb (has_id id x)) before = true ->
  is_object item = true ->
  has_id id item = true ->
  HistoryManager.findIndex_id id (before ++ item :: after) i w
  = (Ok (Some (i + length before)), w).
Proof.
  induction before as [|x before IH]; intros i w Hobj Hno Ho Hid; simpl in *.
  - unfold has_id in Hid. destruct item; try discriminate. simpl in *.
    rewrite Hid. unfold ret. rewrite Nat.add_0_r. reflexivity.
  - apply andb_true_iff in Hobj as [Hx Hobj]. apply andb_true_iff in Hno as [Hn Hno].
    unfold has_id in Hn. destruct x; try discriminate. simpl in *.
    destruct (Js.strict_eq _ id); [discriminate|].
    rewrite IH; auto. replace (S i + length before) with (i + S (length before)) by lia.
    reflexivity.
Qed.

Lemma splice1_middle (before after : list Js.value) item :
  StorageManager.splice1 (length before) (before ++ item :: after) = before ++ after.
Proof.
  unfold StorageManager.splice1.
  rewrite take_app_length.
  replace (S (length before)) with (length (before ++ [item]))
    by (rewrite length_app; simpl; lia).
  replace (before ++ item :: after) with ((before ++ [item]) ++ after)
    by (rewrite <- app_assoc; reflexivity).
  rewrite drop_app_length. reflexivity.
Qed.

(** X16. For an id that some stored entry has, [delete(id)] removes the first
    entry with that id, returns it, and leaves every other entry where it
    was (entries are objects, storage calls succeed). *)
Lemma delete_present id before item after w :
  lastError w = [] -> cache_coherent w ->
  stored_history w = before ++ item :: after ->
  forallb is_object before = true ->
  forallb (fun x => negb (has_id id x)) before = true ->
  is_object item = true ->
  has_id id item = true ->
  exists w',
    HistoryManager.delete id w = (Ok item, w')
    /\ stored_history w' = before ++ after
    /\ listener_calls (trace w')
       = listener_calls (trace w)
         ++ [("historyDeleted", Js.VObj [("id", id); ("item", item)])].
Proof.
  intros Hq Hc Hs Hobj Hno Ho Hid.
  destruct (getHistory_runs w (quiet_readable w Hq))
    as (w1 & Hrun & Hl1 & Hc1 & Hq1 & _ & _ & _ & _ & _ & _ & _ & _ & Hn1 & _).
  specialize (Hq1 Hq).
  unfold HistoryManager.delete. unfold try_catch, bind at 1. rewrite Hrun.
  cbn [fst snd]. rewrite (coherent_visible w Hc), Hs.
  unfold bind at 1. rewrite (findIndex_id_present id before item after 0 w1); auto.
  cbn [Nat.add]. rewrite splice1_middle.
  assert (Hat : (before ++ item :: after) !! length before = Some item).
  { rewrite lookup_app_r by lia. rewrite Nat.sub_diag. reflexivity. }
  rewrite Hat. cbn [default].
  unfold bind at 1.
  assert (Hm : exists w2, StorageManager.mutated (Js.isArray (read_value w)) (before ++ after) w1
                          = (Ok tt, w2)
                          /\ lastError w2 = [] /\ trace w2 = trace w1).
  { unfold StorageManager.mutated. destruct (Js.isArray (read_value w)); run_m; eauto. }
  destruct Hm as (w2 & Hm & Hq2 & Ht2). rewrite Hm.
  unfold bind at 1. rewrite (set_quiet _ _ _ Hq2).
  unfold HistoryManager.notifyListeners. run_m.
  eexists. split; [reflexivity|]. simpl.
  unfold stored_history. simpl. rewrite !lookup_insert_eq.
  split; [reflexivity|].
  rewrite Ht2. unfold listener_calls in *. rewrite <- !app_assoc, !omap_app, Hn1.
  simpl. reflexivity.
Qed.

(** For an id that no stored entry has, [delete(id)] never returns: the
    VALIDATION_ERROR 8201 it raises is caught by its own handler and leaves
    as the cause of the STORAGE_ERROR 8202 thrown to the caller; handling
    that STORAGE_ERROR clears chrome.storage.local. *)
Lemma delete_missing id w :
  lastError w = [] -> cache_coherent w ->
  forallb is_object (stored_history w) = true ->
  forallb (fun x => negb (has_id id x)) (stored_history w) = true ->
  exists w',
    HistoryManager.delete id w
    = (Throw (AppError "Failed to delete from history" STORAGE_ERROR 8202 []
                (Some (AppError "History item not found" VALIDATION_ERROR 8201 [] None))),
       w')
    /\ local w' = ∅.
Proof.
  intros Hq Hc Hobj Hno.
  destruct (getHistory_runs w (quiet_readable w Hq))
    as (w1 & Hrun & Hl1 & Hc1 & Hq1 & _).
  specialize (Hq1 Hq).
  unfold HistoryManager.delete. unfold try_catch, bind at 1. rewrite Hrun.
  cbn [fst snd]. rewrite (coherent_visible w Hc).
  unfold bind at 1. rewrite (findIndex_id_missing id _ 0 w1); auto.
  unfold throw at 1.
  destruct (handleError_AppError "Failed to delete from history" STORAGE_ERROR 8202 []
              (Some (AppError "History item not found" VALIDATION_ERROR 8201 [] None)) w1)
    as (w2 & Hh & _ & _ & _ & _ & _ & _ & _ & _ & _ & Hl2).
  simpl in Hh. unfold ErrorHandler.raise, bind. rewrite Hh.
  exists w2. split; [reflexivity|]. rewrite Hl2, Hq1. reflexivity.
Qed.

(** C3: what the code does where the claim and the code part. With two
    entries stored, [delete] of an id that none of them has throws the
    STORAGE_ERROR 8202 of [delete], which wraps the VALIDATION_ERROR 8201,
    and the storage recovery run for that STORAGE_ERROR leaves no history
    behind. [StorageManager.deleteFromHistory] on an index that does not
    exist throws its VALIDATION_ERROR 3001 itself and leaves the history as
    it was. *)
Theorem delete_missing_wraps_and_clears :
  let missing := Js.VStr "1700000009999-nosuchone" in
  stored_history Sample.with_two = [Sample.note; Sample.link]
  /\ fst (HistoryManager.delete missing Sample.with_two)
     = Throw (AppError "Failed to delete from history" STORAGE_ERROR 8202 []
                (Some (AppError "History item not found" VALIDATION_ERROR 8201 [] None)))
  /\ stored_history (snd (HistoryManager.delete missing Sample.with_two)) = []
  /\ fst (StorageManager.deleteFromHistory 7 Sample.with_two)
     = Throw (AppError "Invalid history index" VALIDATION_ERROR 3001 [] None)
  /\ stored_history (snd (StorageManager.deleteFromHistory 7 Sample.with_two))
     = [Sample.note; Sample.link].
Proof.
  repeat split; vm_compute; reflexivity.
Qed.

(** *** Searching *)

Lemma filterM_content q l :
  forallb well_formed l = true ->
  HistoryManager.filterM (HistoryManager.content_includes q) l
  = Some (List.filter (content_has q) l).
Proof.
  induction l as [|item l IH]; simpl; intros H; [reflexivity|].
  apply andb_true_iff in H as [Hw H]. rewrite (IH H).
  unfold content_has. unfold well_formed, HistoryManager.has_string_content in Hw.
  apply andb_true_iff in Hw as [Ho Hs].
  unfold HistoryManager.content_includes.
  destruct (Js.prop item "content") as [[]|]; try discriminate. reflexivity.
Qed.

Lemma filterM_search_keeps q l :
  forallb well_formed l = true ->
  forallb (content_has q) l = true ->
  HistoryManager.filterM (HistoryManager.search_matches q) l = Some l.
Proof.
  induction l as [|item l IH]; simpl; intros Hw Hc; [reflexivity|].
  apply andb_true_iff in Hw as [Hw1 Hw]. apply andb_true_iff in Hc as [Hc1 Hc].
  rewrite (IH Hw Hc). unfold HistoryManager.search_matches.
  unfold content_has in Hc1.
  destruct (HistoryManager.content_includes q item) as [[]|]; try discriminate.
  reflexivity.
Qed.

Lemma insert_by_forallb (p : Js.value -> bool) cmp x l :
  forallb p (HistoryManager.insert_by cmp x l) = p x && forallb p l.
Proof.
  induction l as [|y l IH]; simpl; [reflexivity|].
  destruct (cmp x y <=? 0)%Z; simpl; [reflexivity|].
  rewrite IH. destruct (p x), (p y); reflexivity.
Qed.

Lemma sort_by_forallb (p : Js.value -> bool) cmp l :
  forallb p (HistoryManager.sort_by cmp l) = forallb p l.
Proof.
  induction l as [|x l IH]; simpl; [reflexivity|].
  rewrite insert_by_forallb, IH. reflexivity.
Qed.

Lemma filter_forallb {A : Type} (p : A -> bool) l : forallb p (List.filter p l) = true.
Proof.
  induction l as [|x l IH]; simpl; [reflexivity|].
  destruct (p x) eqn:E; simpl; rewrite ?E; auto.
Qed.

Lemma filter_keeps_forallb {A : Type} (p q : A -> bool) l :
  forallb p l = true -> forallb p (List.filter q l) = true.
Proof.
  induction l as [|x l IH]; simpl; [reflexivity|].
  intros H. apply andb_true_iff in H as [Hx H].
  destruct (q x); simpl; rewrite ?Hx; auto.
Qed.

Lemma objects_not_nullish l :
  forallb well_formed l = true -> existsb HistoryManager.nullish l = false.
Proof.
  induction l as [|x l IH]; simpl; [reflexivity|].
  intros H. apply andb_true_iff in H as [Hx H]. rewrite (IH H).
  destruct x; try discriminate; reflexivity.
Qed.

Section SearchFacts.

Context {platform : Platform}.

(** X20. With no type filter and the order by time, a search for a query that
    is not empty returns the stored entries whose content contains the
    query, case folded, in the order of the sort; the type of an entry
    plays no part (entries are well formed and their timestamps are
    numbers, storage calls succeed). *)
Lemma search_by_content_only (query : string) (w : World) :
  lastError w = [] -> cache_coherent w ->
  filterType w = "all" -> sortBy w = "timestamp" ->
  forallb well_formed (stored_history w) = true ->
  forallb has_timestamp (stored_history w) = true ->
  Str.toLowerCase query <> EmptyString ->
  exists w',
    HistoryManager.search query w
    = (Ok (HistoryManager.sort_by (HistoryManager.by_timestamp (sortOrder w))
             (List.filter (content_has (Str.toLowerCase query)) (stored_history w))),
       w').
Proof.
  intros Hq Hc Hft Hsb Hwf _ Hne.
  set (q := Str.toLowerCase query) in *.
  set (w0 := set_searchQuery q w).
  assert (Hq0 : lastError w0 = []) by exact Hq.
  assert (Hc0 : cache_coherent w0) by exact Hc.
  destruct (getHistory_runs w0 (quiet_readable w0 Hq0))
    as (w1 & Hrun & _ & _ & _ & _ & _ & _ & Hsq & Hf1 & Hs1 & Ho1 & _).
  unfold HistoryManager.search. unfold try_catch at 1. unfold bind at 1.
  unfold modify at 1. fold q. fold w0.
  unfold bind at 1. unfold HistoryManager.getAll. unfold try_catch at 1.
  unfold bind at 1. rewrite Hrun. cbn [fst snd].
  rewrite (coherent_visible w0 Hc0).
  change (stored_history w0) with (stored_history w).
  unfold HistoryManager.filterAndSort.
  unfold bind at 1. unfold gets at 1. rewrite Hf1. simpl filterType. rewrite Hft.
  cbn [String.eqb Ascii.eqb Bool.eqb negb]. unfold bind at 1. unfold ret at 1.
  unfold bind at 1. unfold gets at 1. rewrite Hsq. simpl searchQuery.
  destruct (String.eqb_spec q EmptyString) as [E|_]; [contradiction|].
  cbn [negb]. unfold bind at 1. unfold HistoryManager.filter_by at 1.
  rewrite (filterM_content q _ Hwf). unfold ret at 1.
  set (found := List.filter (content_has q) (stored_history w)).
  assert (Hfw : forallb well_formed found = true)
    by (apply filter_keeps_forallb; exact Hwf).
  unfold bind at 1. unfold gets at 1. rewrite Hs1. simpl sortBy. rewrite Hsb.
  unfold bind at 1. unfold gets at 1. rewrite Ho1. simpl sortOrder.
  cbn [String.eqb Ascii.eqb Bool.eqb].
  rewrite (objects_not_nullish _ Hfw), andb_false_r, !andb_false_r.
  unfold StorageManager.mutated. unfold bind at 1. unfold ret at 1. unfold ret at 1.
  unfold bind at 1. unfold gets at 1. rewrite Hsq. simpl searchQuery.
  unfold HistoryManager.filter_by.
  rewrite filterM_search_keeps.
  - eexists. reflexivity.
  - rewrite sort_by_forallb. exact Hfw.
  - rewrite sort_by_forallb. apply filter_forallb.
Qed.

End SearchFacts.

(** C7: what the code does where the claim and the code part. Two entries
    are stored, one of type [url] with the content [https://example.com].
    The callback of [search] accepts that entry for the query [url], by its
    type; the search returns nothing, because [getAll] has already dropped
    every entry whose content does not contain the query. A query found in
    the content returns the entry, whatever the case of the letters. *)
Theorem search_drops_type_matches :
  stored_history Sample.with_two = [Sample.note; Sample.link]
  /\ content_has "url" Sample.link = false
  /\ type_has "url" Sample.link = true
  /\ HistoryManager.search_matches "url" Sample.link = Some true
  /\ fst (HistoryManager.search (platform := Reference.platform) "url" Sample.with_two)
     = Ok []
  /\ fst (HistoryManager.search (platform := Reference.platform) "EXAMPLE" Sample.with_two)
     = Ok [Sample.link].
Proof.
  repeat split; vm_compute; reflexivity.
Qed.

(** *** The lemmas above on sample data *)

(** On [saveSettings({size: 50})] with valid settings stored and loaded. *)
Lemma saveSettings_failure_witness :
  let invalid := Js.VObj [("size", Js.VNum 50)] in
  visible_settings (snd (ConfigManager.saveSettings invalid Sample.configured))
  = visible_settings Sample.configured
  /\ exists cause,
       AppError "Failed to save settings" STORAGE_ERROR 4002 []
         (Some (AppError "Settings validation failed" VALIDATION_ERROR 4102
                  ["Size must be between 100 and 1000"; "Invalid colorDark value";
                   "Invalid colorLight value"; "Invalid correctLevel value"] None))
       = AppError "Failed to save settings" STORAGE_ERROR 4002 [] (Some cause).
Proof.
  apply (saveSettings_failure (Js.VObj [("size", Js.VNum 50)]) Sample.configured).
  vm_compute. reflexivity.
Defined.

(** On the second of two stored entries. *)
Lemma delete_present_witness :
  exists w',
    HistoryManager.delete (Js.VStr "1700000000000-abc123xyz") Sample.with_two
    = (Ok Sample.link, w')
    /\ stored_history w' = [Sample.note] ++ []
    /\ listener_calls (trace w')
       = listener_calls (trace Sample.with_two)
         ++ [("historyDeleted",
              Js.VObj [("id", Js.VStr "1700000000000-abc123xyz"); ("item", Sample.link)])].
Proof.
  apply (delete_present (Js.VStr "1700000000000-abc123xyz") [Sample.note] Sample.link []
                        Sample.with_two); reflexivity || (left; reflexivity).
Defined.

(** On a query in capitals. *)
Lemma search_by_content_only_witness :
  exists w',
    HistoryManager.search (platform := Reference.platform) "EXAMPLE" Sample.with_two
    = (Ok (HistoryManager.sort_by (HistoryManager.by_timestamp (sortOrder Sample.with_two))
             (List.filter (content_has (Str.toLowerCase "EXAMPLE"))
                          (stored_history Sample.with_two))),
       w').
Proof.
  apply (search_by_content_only (platform := Reference.platform) "EXAMPLE" Sample.with_two).
  - reflexivity.
  - left. reflexivity.
  - reflexivity.
  - reflexivity.
  - reflexivity.
  - reflexivity.
  - vm_compute. discriminate.
Defined.

(** *** What the storage manager and the error handler never touch *)

Create HintDb blind.

Ltac frame_by tac :=
  repeat first
    [ solve [auto with frame blind]
    | apply keeps_bind; [|intro]
    | apply keeps_try_catch; [|intro]
    | apply keeps_modify; solve [tac]
    | apply keeps_emit; solve [tac]
    | apply keeps_next_lastError; solve [tac]
    | match goal with
      | |- keeps _ (if ?b then _ else _) => destruct b
      | |- keeps _ (match ?x with _ => _ end) => destruct x
      end ].

Section Blind.

(** An observation that does not look at the store, the cache, the oracle,
    the error history or the trace. *)
Context {X : Type} (obs : World -> X).

Hypothesis blind_local : forall x w, obs (set_local x w) = obs w.
Hypothesis blind_cache : forall x w, obs (set_cache x w) = obs w.
Hypothesis blind_lastError : forall x w, obs (set_lastError x w) = obs w.
Hypothesis blind_errorHistory : forall x w, obs (set_errorHistory x w) = obs w.
Hypothesis blind_trace : forall x w, obs (set_trace x w) = obs w.

Ltac blind :=
  intros;
  rewrite ?blind_trace, ?blind_cache, ?blind_local, ?blind_lastError, ?blind_errorHistory;
  reflexivity.

Lemma blind_handleError e : keeps obs (ErrorHandler.handleError e).
Proof.
  unfold ErrorHandler.handleError, ErrorHandler.addToHistory, ErrorHandler.notifyCallbacks,
    ErrorHandler.tryRecovery, ErrorHandler.tryStorageRecovery.
  frame_by blind.
Qed.

Lemma blind_raise {A : Type} e : keeps obs (@ErrorHandler.raise A e).
Proof.
  unfold ErrorHandler.raise. apply keeps_bind; [apply blind_handleError|intro].
  apply keeps_throw.
Qed.

Lemma blind_get key d : keeps obs (StorageManager.get key d).
Proof.
  unfold StorageManager.get, StorageManager.getFromStorage, StorageManager.remember.
  apply keeps_try_catch; [|intro; apply blind_raise]. frame_by blind.
Qed.

Lemma blind_setWithRetry_from budget key v :
  forall retryCount, keeps obs (StorageManager.setWithRetry_from budget key v retryCount).
Proof.
  induction budget as [|budget IH]; intros retryCount; simpl.
  - frame_by blind.
  - apply keeps_bind; [frame_by blind|intro failed].
    apply keeps_bind; [frame_by blind|intro].
    destruct failed; [|frame_by blind].
    apply keeps_bind; [frame_by blind|intro]. apply IH.
Qed.

Lemma blind_set key v : keeps obs (StorageManager.set key v).
Proof.
  unfold StorageManager.set, StorageManager.setWithRetry, StorageManager.remember.
  apply keeps_try_catch; [|intro; apply blind_raise].
  apply keeps_bind; [apply blind_setWithRetry_from|intro]. frame_by blind.
Qed.

Lemma blind_remove key : keeps obs (StorageManager.remove key).
Proof.
  unfold StorageManager.remove, StorageManager.removeFromStorage.
  apply keeps_try_catch; [|intro; apply blind_raise]. frame_by blind.
Qed.

Lemma blind_clear : keeps obs StorageManager.clear.
Proof.
  unfold StorageManager.clear, StorageManager.clearStorage.
  apply keeps_try_catch; [|intro; apply blind_raise]. frame_by blind.
Qed.

Lemma blind_getHistory : keeps obs StorageManager.getHistory.
Proof.
  unfold StorageManager.getHistory.
  apply keeps_bind; [apply blind_get|intro]. frame_by blind.
Qed.

Lemma blind_mutated shared items : keeps obs (StorageManager.mutated shared items).
Proof. unfold StorageManager.mutated. frame_by blind. Qed.

Lemma blind_saveToHistory content f : keeps obs (StorageManager.saveToHistory content f).
Proof.
  unfold StorageManager.saveToHistory.
  apply keeps_try_catch; [|intro; apply blind_raise].
  apply keeps_bind; [apply blind_getHistory|intro].
  apply keeps_bind; [apply blind_mutated|intro].
  apply keeps_bind; [apply blind_set|intro]. apply keeps_ret.
Qed.

Lemma blind_deleteFromHistory index : keeps obs (StorageManager.deleteFromHistory index).
Proof.
  unfold StorageManager.deleteFromHistory.
  apply keeps_try_catch; [|intro; apply blind_raise].
  apply keeps_bind; [apply blind_getHistory|intro].
  destruct (_ && _); [|apply keeps_throw].
  apply keeps_bind; [apply blind_mutated|intro].
  apply keeps_bind; [apply blind_set|intro]. apply keeps_ret.
Qed.

Lemma blind_clearHistory : keeps obs StorageManager.clearHistory.
Proof.
  unfold StorageManager.clearHistory.
  apply keeps_try_catch; [|intro; apply blind_raise].
  apply keeps_bind; [apply blind_set|intro]. apply keeps_ret.
Qed.

Lemma blind_getSettings : keeps obs StorageManager.getSettings.
Proof.
  unfold StorageManager.getSettings.
  apply keeps_bind; [apply blind_get|intro]. apply keeps_ret.
Qed.

Lemma blind_saveSettings settings : keeps obs (StorageManager.saveSettings settings).
Proof.
  unfold StorageManager.saveSettings.
  apply keeps_try_catch; [|intro; apply blind_raise].
  apply keeps_bind; [apply blind_set|intro]. apply keeps_ret.
Qed.

Lemma blind_logPerformance metric d : keeps obs (StorageManager.logPerformance metric d).
Proof.
  unfold StorageManager.logPerformance.
  apply keeps_bind; [frame_by blind|intro].
  apply keeps_try_catch; [|intro; apply keeps_ret].
  apply keeps_bind; [apply blind_get|intro stats].
  destruct stats; try apply keeps_throw.
  - apply keeps_bind; [apply blind_set|intro]. apply keeps_ret.
  - destruct (StorageManager.sampled _ _); [|apply keeps_throw].
    apply keeps_bind; [frame_by blind|intro].
    apply keeps_bind; [apply blind_set|intro]. apply keeps_ret.
Qed.

End Blind.

(** No call of the storage manager, and no error handled on its way,
    changes anything outside the store, the cache and the error history:
    whether a call succeeds or fails, the settings in memory, the query,
    filter and order of the history manager, and the whole state of the
    recognizer are what they were. *)
Theorem storage_manager_leaves_components :
  (forall key d, keeps components (StorageManager.get key d))
  /\ (forall key v, keeps components (StorageManager.set key v))
  /\ (forall key, keeps components (StorageManager.remove key))
  /\ keeps components StorageManager.clear
  /\ keeps components StorageManager.getHistory
  /\ (forall content f, keeps components (StorageManager.saveToHistory content f))
  /\ (forall index, keeps components (StorageManager.deleteFromHistory index))
  /\ keeps components StorageManager.clearHistory
  /\ keeps components StorageManager.getSettings
  /\ (forall settings, keeps components (StorageManager.saveSettings settings))
  /\ (forall e, keeps components (ErrorHandler.handleError e)).
Proof.
  repeat split; intros;
    first [ apply blind_get | apply blind_set | apply blind_remove | apply blind_clear
          | apply blind_getHistory | apply blind_saveToHistory
          | apply blind_deleteFromHistory | apply blind_clearHistory
          | apply blind_getSettings | apply blind_saveSettings | apply blind_handleError ];
    reflexivity.
Qed.

(** *** The storage manager: reads, writes and removals *)





Lemma remove_succeeds key w :
  hd false (lastError w) = false ->
  StorageManager.remove key w
  = (Ok true,
     set_cache (base.delete key (cache w))
       (set_local (base.delete key (local w)) (set_lastError (tl (lastError w)) w))).
Proof.
  intros Hq. unfold StorageManager.remove, StorageManager.removeFromStorage.
  unfold try_catch, bind at 1. unfold bind at 1.
  rewrite (next_lastError_succeeds w Hq). reflexivity.
Qed.

Lemma clear_succeeds w :
  hd false (lastError w) = false ->
  StorageManager.clear w
  = (Ok true,
     set_cache ∅
       (set_local ∅
          (set_trace (trace w ++ [EvStorageClear false])
             (set_lastError (tl (lastError w)) w)))).
Proof.
  intros Hq. unfold StorageManager.clear, StorageManager.clearStorage.
  unfold try_catch, bind at 1. unfold bind at 1. unfold bind at 1.
  rewrite (next_lastError_succeeds w Hq). reflexivity.
Qed.

(** When the chrome.storage call succeeds, [remove] returns [true] and
    takes the key out of the store and out of the cache, and every other
    key stays as it was; a read of the key that follows gets the default of
    the reader. *)
Theorem remove_then_get (key : string) (d : Js.value) (w : World) :
  hd false (lastError w) = false ->
  let w' := snd (StorageManager.remove key w) in
  fst (StorageManager.remove key w) = Ok true
  /\ local w' = base.delete key (local w)
  /\ cache w' = base.delete key (cache w)
  /\ (hd false (lastError w') = false ->
      fst (StorageManager.get key d w') = Ok d).
Proof.
  intros Hq. rewrite (remove_succeeds key w Hq). cbn [fst snd].
  set (w2 := set_cache _ _).
  repeat split.
  intros Hq'.
  destruct (get_uncached key d w2) as (w3 & Hget & _).
  - unfold w2. simpl. rewrite lookup_delete_eq. reflexivity.
  - exact Hq'.
  - rewrite Hget. cbn [fst]. unfold w2. simpl. rewrite lookup_delete_eq. reflexivity.
Qed.

Lemma remove_then_get_witness :
  let w' := snd (StorageManager.remove "theme" More.cached) in
  fst (StorageManager.remove "theme" More.cached) = Ok true
  /\ local w' = base.delete "theme" (local More.cached)
  /\ cache w' = base.delete "theme" (cache More.cached)
  /\ (hd false (lastError w') = false ->
      fst (StorageManager.get "theme" (Js.VStr "light") w') = Ok (Js.VStr "light")).
Proof.
  apply (remove_then_get "theme" (Js.VStr "light") More.cached).
  reflexivity.
Defined.

(** When the chrome.storage call succeeds, [clear] returns [true] and
    leaves both the store and the cache empty, so that every read that
    follows gets the default of the reader. *)
Theorem clear_then_get (key : string) (d : Js.value) (w : World) :
  hd false (lastError w) = false ->
  let w' := snd (StorageManager.clear w) in
  fst (StorageManager.clear w) = Ok true
  /\ local w' = ∅
  /\ cache w' = ∅
  /\ (hd false (lastError w') = false ->
      fst (StorageManager.get key d w') = Ok d).
Proof.
  intros Hq. rewrite (clear_succeeds w Hq). cbn [fst snd].
  set (w2 := set_cache _ _).
  repeat split.
  intros Hq'.
  destruct (get_uncached key d w2) as (w3 & Hget & _).
  - unfold w2. simpl. rewrite lookup_empty. reflexivity.
  - exact Hq'.
  - rewrite Hget. cbn [fst]. unfold w2. simpl. rewrite lookup_empty. reflexivity.
Qed.

Lemma clear_then_get_witness :
  let w' := snd (StorageManager.clear More.cached) in
  fst (StorageManager.clear More.cached) = Ok true
  /\ local w' = ∅
  /\ cache w' = ∅
  /\ (hd false (lastError w') = false ->
      fst (StorageManager.get "theme" (Js.VStr "light") w') = Ok (Js.VStr "light")).
Proof.
  apply (clear_then_get "theme" (Js.VStr "light") More.cached).
  reflexivity.
Defined.

(** *** The history: positions, order and imports *)

(** The end of every operation that changes the history: the array handed
    out by [getHistory] is changed in place and then written. *)
Lemma write_back shared hist w1 :
  lastError w1 = [] ->
  exists w2,
    bind (StorageManager.mutated shared hist)
         (fun _ => StorageManager.set StorageKeys.QR_HISTORY (Js.VArr hist)) w1
    = (Ok true, w2)
    /\ stored_history w2 = hist
    /\ lastError w2 = []
    /\ cache w2 !! StorageKeys.QR_HISTORY = local w2 !! StorageKeys.QR_HISTORY
    /\ listener_calls (trace w2) = listener_calls (trace w1)
    /\ components w2 = components w1
    /\ errorHistory w2 = errorHistory w1.
Proof.
  intros Hq.
  assert (Hm : exists w', StorageManager.mutated shared hist w1 = (Ok tt, w')
                          /\ lastError w' = [] /\ trace w' = trace w1
                          /\ components w' = components w1
                          /\ errorHistory w' = errorHistory w1).
  { unfold StorageManager.mutated. destruct shared; run_m; eexists; repeat split; auto. }
  destruct Hm as (w' & Hm & Hq' & Ht' & Hk' & He').
  unfold bind. rewrite Hm, (set_quiet _ _ _ Hq').
  eexists. split; [reflexivity|]. simpl.
  unfold stored_history. simpl. rewrite !lookup_insert_eq.
  rewrite Ht'. unfold listener_calls. rewrite omap_app. simpl. rewrite app_nil_r.
  repeat split; auto.
Qed.

Lemma middle_lookup {A : Type} (before after : list A) item :
  (before ++ item :: after) !! length before = Some item.
Proof. rewrite lookup_app_r by lia. rewrite Nat.sub_diag. reflexivity. Qed.

(** X3. [deleteFromHistory(index)] with an index inside the stored list
    returns the entry at that position and stores the list without it: the
    entries before and after it keep their order (storage calls succeed). *)
Theorem deleteFromHistory_in_range (before after : list Js.value) (item : Js.value)
        (w : World) :
  lastError w = [] ->
  cache_coherent w ->
  stored_history w = before ++ item :: after ->
  exists w',
    StorageManager.deleteFromHistory (Z.of_nat (length before)) w = (Ok item, w')
    /\ stored_history w' = before ++ after.
Proof.
  intros Hq Hc Hs.
  destruct (getHistory_runs w (quiet_readable w Hq)) as (w1 & Hrun & _ & _ & Hq1 & _).
  specialize (Hq1 Hq).
  unfold StorageManager.deleteFromHistory. unfold try_catch, bind at 1. rewrite Hrun.
  cbn [fst snd]. rewrite (coherent_visible w Hc), Hs.
  assert (Hin : (0 <=? Z.of_nat (length before))%Z
                && (Z.of_nat (length before) <? Z.of_nat (length (before ++ item :: after)))%Z
                = true).
  { rewrite length_app. cbn [length].
    apply andb_true_iff. split; [apply Z.leb_le|apply Z.ltb_lt]; lia. }
  rewrite Hin, Nat2Z.id, splice1_middle, middle_lookup. cbn [default].
  destruct (write_back (Js.isArray (read_value w)) (before ++ after) w1 Hq1)
    as (w2 & Hw & Hs2 & _).
  unfold bind in Hw. unfold bind at 1.
  destruct (StorageManager.mutated _ _ w1) as [[[]|e] wm]; [|discriminate].
  unfold bind at 1. rewrite Hw. unfold ret. eauto.
Qed.

Lemma deleteFromHistory_in_range_witness :
  exists w',
    StorageManager.deleteFromHistory 1 Sample.with_two = (Ok Sample.link, w')
    /\ stored_history w' = [Sample.note].
Proof.
  apply (deleteFromHistory_in_range [Sample.note] [] Sample.link Sample.with_two).
  - reflexivity.
  - left. reflexivity.
  - reflexivity.
Defined.

(** X4. [deleteFromHistory(index)] with a negative index, or one at or past
    the end of the list, throws the VALIDATION_ERROR 3001 as it is. With
    storage calls that succeed, the stored history and every other key of
    chrome.storage.local, the performance statistics apart, are what they
    were. *)
Theorem deleteFromHistory_out_of_range (index : Z) (w : World) :
  lastError w = [] ->
  (index < 0 \/ Z.of_nat (length (visible_history w)) <= index)%Z ->
  exists w',
    StorageManager.deleteFromHistory index w
    = (Throw (AppError "Invalid history index" VALIDATION_ERROR 3001 [] None), w')
    /\ stored_history w' = stored_history w
    /\ (forall k, k <> StorageKeys.PERFORMANCE_STATS -> local w' !! k = local w !! k).
Proof.
  intros Hq Hout.
  destruct (getHistory_runs w (quiet_readable w Hq)) as (w1 & Hrun & Hl1 & _).
  unfold StorageManager.deleteFromHistory. unfold try_catch, bind at 1. rewrite Hrun.
  cbn [fst snd].
  assert (Hno : (0 <=? index)%Z && (index <? Z.of_nat (length (visible_history w)))%Z
                = false).
  { apply andb_false_iff.
    destruct Hout; [left; apply Z.leb_gt|right; apply Z.ltb_ge]; lia. }
  rewrite Hno. unfold throw.
  destruct (handleError_AppError "Invalid history index" VALIDATION_ERROR 3001 [] None w1)
    as (w2 & Hh & _ & _ & _ & _ & _ & _ & _ & Ht2 & _ & Hl2).
  simpl in Hh. unfold ErrorHandler.raise, bind. rewrite Hh. unfold throw.
  assert (Hl : local w2 = local w) by congruence.
  eexists. split; [reflexivity|]. cbn [snd]. unfold stored_history. rewrite Hl.
  split; [reflexivity|]. intros k _. reflexivity.
Qed.

Lemma deleteFromHistory_out_of_range_witness :
  exists w',
    StorageManager.deleteFromHistory (-1) Sample.with_two
    = (Throw (AppError "Invalid history index" VALIDATION_ERROR 3001 [] None), w')
    /\ stored_history w' = stored_history Sample.with_two
    /\ (forall k, k <> StorageKeys.PERFORMANCE_STATS ->
                  local w' !! k = local Sample.with_two !! k).
Proof.
  apply (deleteFromHistory_out_of_range (-1) Sample.with_two).
  - reflexivity.
  - left. lia.
Defined.

(** **** The order of [getAll] *)

Lemma insert_by_perm cmp x l : Permutation (HistoryManager.insert_by cmp x l) (x :: l).
Proof.
  induction l as [|y l IH]; simpl; [reflexivity|].
  destruct (cmp x y <=? 0)%Z; [reflexivity|].
  rewrite IH. apply perm_swap.
Qed.

Lemma sort_by_perm cmp l : Permutation (HistoryManager.sort_by cmp l) l.
Proof.
  induction l as [|x l IH]; simpl; [reflexivity|].
  rewrite insert_by_perm, IH. reflexivity.
Qed.

Lemma insert_by_sorted cmp (R : Js.value -> Js.value -> Prop) x l :
  (forall a b c, R a b -> R b c -> R a c) ->
  (forall y, In y l -> if (cmp x y <=? 0)%Z then R x y else R y x) ->
  StronglySorted R l ->
  StronglySorted R (HistoryManager.insert_by cmp x l).
Proof.
  intros Htrans. induction l as [|y l IH]; intros Hcmp Hs; simpl.
  - constructor; constructor.
  - inversion Hs as [|? ? Hs' Hall]; subst.
    pose proof (Hcmp y (or_introl eq_refl)) as Hy.
    destruct (cmp x y <=? 0)%Z.
    + constructor; [exact Hs|]. constructor; [exact Hy|].
      eapply List.Forall_impl; [|exact Hall]. intros z Hz. exact (Htrans _ _ _ Hy Hz).
    + constructor.
      * apply IH; [|exact Hs']. intros z Hz. apply Hcmp. right. exact Hz.
      * eapply Permutation_Forall; [symmetry; apply insert_by_perm|].
        constructor; assumption.
Qed.

Lemma sort_by_sorted cmp (R : Js.value -> Js.value -> Prop) l :
  (forall a b c, R a b -> R b c -> R a c) ->
  (forall x y, In x l -> In y l -> if (cmp x y <=? 0)%Z then R x y else R y x) ->
  StronglySorted R (HistoryManager.sort_by cmp l).
Proof.
  intros Htrans. induction l as [|x l IH]; intros Hcmp; simpl.
  - constructor.
  - apply insert_by_sorted; [exact Htrans| |].
    + intros y Hy. apply Hcmp; [left; reflexivity|right].
      eapply Permutation_in; [apply sort_by_perm|exact Hy].
    + apply IH. intros a b Ha Hb. apply Hcmp; right; assumption.
Qed.

Lemma has_timestamp_number item :
  has_timestamp item = true ->
  HistoryManager.to_number (Js.field item "timestamp") = Some (timestamp_of item).
Proof.
  unfold has_timestamp, timestamp_of.
  destruct (Js.field item "timestamp"); try discriminate. reflexivity.
Qed.

Lemma timestamps_not_nullish l :
  forallb has_timestamp l = true -> existsb HistoryManager.nullish l = false.
Proof.
  induction l as [|x l IH]; simpl; [reflexivity|].
  intros H. apply andb_true_iff in H as [Hx H]. rewrite (IH H).
  destruct x; try discriminate; reflexivity.
Qed.

Section OrderFacts.

Context {platform : Platform}.

(** One run of [getAll] with no filter and the order by time. The sort
    works on the array of the cache. *)
Lemma getAll_runs w :
  lastError w = [] -> cache_coherent w ->
  filterType w = "all" -> searchQuery w = EmptyString -> sortBy w = "timestamp" ->
  forallb has_timestamp (stored_history w) = true ->
  let shown := HistoryManager.sort_by (HistoryManager.by_timestamp (sortOrder w))
                                      (stored_history w) in
  exists w',
    HistoryManager.getAll w = (Ok shown, w')
    /\ local w' = local w
    /\ lastError w' = []
    /\ (Js.isArray (read_value w) = true ->
        cache w' !! StorageKeys.QR_HISTORY = Some (Js.VArr shown))
    /\ listener_calls (trace w') = listener_calls (trace w).
Proof.
  intros Hq Hc Hft Hsq Hsb Hts shown.
  destruct (getHistory_runs w (quiet_readable w Hq))
    as (w1 & Hrun & Hl1 & _ & Hq1 & _ & _ & _ & Hsq1 & Hf1 & Hs1 & Ho1 & _ & Hn1 & _).
  specialize (Hq1 Hq).
  unfold HistoryManager.getAll. unfold try_catch at 1. unfold bind at 1.
  rewrite Hrun. cbn [fst snd]. rewrite (coherent_visible w Hc).
  unfold HistoryManager.filterAndSort.
  unfold bind at 1. unfold gets at 1. rewrite Hf1, Hft.
  cbn [String.eqb Ascii.eqb Bool.eqb negb]. unfold bind at 1. unfold ret at 1.
  unfold bind at 1. unfold gets at 1. rewrite Hsq1, Hsq.
  cbn [String.eqb negb]. unfold bind at 1. unfold ret at 1.
  unfold bind at 1. unfold gets at 1. rewrite Hs1, Hsb.
  unfold bind at 1. unfold gets at 1. rewrite Ho1.
  cbn [String.eqb Ascii.eqb Bool.eqb].
  rewrite (timestamps_not_nullish _ Hts), andb_false_r, !andb_true_r.
  fold shown. unfold StorageManager.mutated.
  destruct (Js.isArray (read_value w)); run_m.
  - eexists. split; [reflexivity|]. simpl. rewrite lookup_insert_eq. auto.
  - eexists. split; [reflexivity|]. simpl. repeat split; auto. discriminate.
Qed.

(** X19. With no filter and no query, [getAll] returns the stored entries
    in the order of their timestamps, newest first for the order [desc] and
    oldest first otherwise: the result is a rearrangement of the stored
    list, and the list in the store itself stays in the order it had
    (storage calls succeed, every entry has a number as its timestamp). *)
Theorem getAll_sorted_by_time (w : World) :
  lastError w = [] ->
  cache_coherent w ->
  filterType w = "all" ->
  searchQuery w = EmptyString ->
  sortBy w = "timestamp" ->
  forallb has_timestamp (stored_history w) = true ->
  exists result w',
    HistoryManager.getAll w = (Ok result, w')
    /\ Permutation result (stored_history w)
    /\ StronglySorted
         (fun a b => if String.eqb (sortOrder w) "desc"
                     then (timestamp_of b <= timestamp_of a)%Z
                     else (timestamp_of a <= timestamp_of b)%Z) result
    /\ stored_history w' = stored_history w.
Proof.
  intros Hq Hc Hft Hsq Hsb Hts.
  destruct (getAll_runs w Hq Hc Hft Hsq Hsb Hts) as (w' & Hrun & Hl & _).
  eexists _, w'. split; [exact Hrun|].
  split; [apply sort_by_perm|].
  split; [|unfold stored_history; rewrite Hl; reflexivity].
  apply sort_by_sorted.
  - intros a b c. destruct (String.eqb (sortOrder w) "desc"); lia.
  - intros x y Hx Hy.
    assert (Hx' : has_timestamp x = true)
      by (eapply forallb_forall in Hts; eauto).
    assert (Hy' : has_timestamp y = true)
      by (eapply forallb_forall in Hts; eauto).
    unfold HistoryManager.by_timestamp, HistoryManager.oriented.
    rewrite (has_timestamp_number x Hx'), (has_timestamp_number y Hy').
    destruct (String.eqb (sortOrder w) "desc");
      match goal with |- context [(?z <=? 0)%Z] => destruct (Z.leb_spec z 0) end; lia.
Qed.

End OrderFacts.

Lemma getAll_sorted_by_time_witness :
  exists result w',
    HistoryManager.getAll (platform := Reference.platform) Sample.with_two
    = (Ok result, w')
    /\ Permutation result [Sample.note; Sample.link]
    /\ StronglySorted
         (fun a b => if String.eqb (sortOrder Sample.with_two) "desc"
                     then (timestamp_of b <= timestamp_of a)%Z
                     else (timestamp_of a <= timestamp_of b)%Z) result
    /\ stored_history w' = stored_history Sample.with_two.
Proof.
  apply (getAll_sorted_by_time (platform := Reference.platform) Sample.with_two).
  - reflexivity.
  - left. reflexivity.
  - reflexivity.
  - reflexivity.
  - reflexivity.
  - reflexivity.
Defined.

Lemma sort_by_length cmp l : length (HistoryManager.sort_by cmp l) = length l.
Proof. apply Permutation_length, sort_by_perm. Qed.

Section PositionFacts.

Context {platform : Platform}.

(** X17. [getAll] sorts the array of the cache in place, so an index taken
    from the list it has just returned names the same entry for a
    [deleteByIndex] that follows before the cache timer fires: the call
    returns the entry shown at that index, and the store then holds the
    shown list, in the shown order, without it (no filter, no query, order
    by time, storage calls succeed). *)
Theorem deleteByIndex_after_getAll (i : nat) (w : World) :
  lastError w = [] ->
  cache_coherent w ->
  filterType w = "all" ->
  searchQuery w = EmptyString ->
  sortBy w = "timestamp" ->
  forallb has_timestamp (stored_history w) = true ->
  i < length (stored_history w) ->
  let shown := HistoryManager.sort_by (HistoryManager.by_timestamp (sortOrder w))
                                      (stored_history w) in
  exists w1 w2 item,
    HistoryManager.getAll w = (Ok shown, w1)
    /\ shown !! i = Some item
    /\ HistoryManager.deleteByIndex (Z.of_nat i) w1 = (Ok item, w2)
    /\ stored_history w2 = StorageManager.splice1 i shown.
Proof.
  intros Hq Hc Hft Hsq Hsb Hts Hi shown.
  destruct (getAll_runs w Hq Hc Hft Hsq Hsb Hts) as (w1 & Hrun & Hl1 & Hq1 & Hc1 & _).
  fold shown in Hrun, Hc1.
  assert (Harr : Js.isArray (read_value w) = true).
  { destruct (coherent_read_value w Hc) as [[H _]|[_ H]]; [exact H|].
    rewrite H in Hi. simpl in Hi. lia. }
  specialize (Hc1 Harr).
  assert (Hlen : length shown = length (stored_history w)) by apply sort_by_length.
  destruct (lookup_lt_is_Some_2 shown i) as (item & Hitem); [lia|].
  exists w1. 
  destruct (getHistory_runs w1 (quiet_readable w1 Hq1)) as (w1' & Hrun' & _ & _ & Hq1' & _).
  specialize (Hq1' Hq1).
  assert (Hv : visible_history w1 = shown)
    by (unfold visible_history, history_value; rewrite Hc1; reflexivity).
  rewrite Hv in Hrun'.
  destruct (write_back (Js.isArray (read_value w1)) (StorageManager.splice1 i shown) w1' Hq1')
    as (w2 & Hw & Hs2 & _).
  eexists _, item. split; [exact Hrun|]. split; [exact Hitem|].
  unfold HistoryManager.deleteByIndex. unfold try_catch, bind at 1. rewrite Hrun'.
  cbn [fst snd].
  assert (Hin : (Z.of_nat i <? 0)%Z || (Z.of_nat (length shown) <=? Z.of_nat i)%Z = false).
  { apply orb_false_iff. split; [apply Z.ltb_ge|apply Z.leb_gt]; lia. }
  rewrite Hin, Nat2Z.id, Hitem. cbn [default].
  unfold bind in Hw. unfold StorageKeys.QR_HISTORY in Hw. unfold bind at 1.
  destruct (StorageManager.mutated _ _ w1') as [[[]|e] wm]; [|discriminate].
  unfold bind at 1. rewrite Hw.
  unfold HistoryManager.notifyListeners. run_m.
  split; [reflexivity|]. exact Hs2.
Qed.

(** X18. [deleteByIndex(index)] with a negative index, or one at or past
    the end of the list, never returns an entry: the VALIDATION_ERROR 8203
    it raises leaves as the cause of the STORAGE_ERROR 8204 thrown to the
    caller, no write is attempted, and handling that STORAGE_ERROR clears
    chrome.storage.local (storage calls succeed). *)
Theorem deleteByIndex_out_of_range (index : Z) (w : World) :
  lastError w = [] ->
  (index < 0 \/ Z.of_nat (length (visible_history w)) <= index)%Z ->
  exists w',
    HistoryManager.deleteByIndex index w
    = (Throw (AppError "Failed to delete from history by index" STORAGE_ERROR 8204 []
                (Some (AppError "Invalid history index" VALIDATION_ERROR 8203 [] None))),
       w')
    /\ local w' = ∅
    /\ listener_calls (trace w') = listener_calls (trace w).
Proof.
  intros Hq Hout.
  destruct (getHistory_runs w (quiet_readable w Hq))
    as (w1 & Hrun & _ & _ & Hq1 & _ & _ & _ & _ & _ & _ & _ & _ & Hn1 & _).
  specialize (Hq1 Hq).
  unfold HistoryManager.deleteByIndex. unfold try_catch, bind at 1. rewrite Hrun.
  cbn [fst snd].
  assert (Hno : (index <? 0)%Z || (Z.of_nat (length (visible_history w)) <=? index)%Z = true).
  { apply orb_true_iff. destruct Hout; [left; apply Z.ltb_lt|right; apply Z.leb_le]; lia. }
  rewrite Hno. unfold throw.
  destruct (handleError_AppError "Failed to delete from history by index" STORAGE_ERROR 8204 []
              (Some (AppError "Invalid history index" VALIDATION_ERROR 8203 [] None)) w1)
    as (w2 & Hh & _ & _ & _ & _ & _ & _ & _ & Ht2 & _ & Hl2).
  simpl in Hh. unfold ErrorHandler.raise, bind. rewrite Hh. unfold throw.
  eexists. split; [reflexivity|]. rewrite Hq1 in Hl2. simpl in Hl2. split; [exact Hl2|].
  rewrite Ht2. unfold listener_calls in *. rewrite omap_app. simpl. rewrite app_nil_r.
  exact Hn1.
Qed.

(** [clear()] returns [true], leaves the empty list under the history
    key, in the store and in the cache alike, and tells the listeners of
    [historyCleared] once (storage calls succeed). *)
Theorem clear_empties_history (w : World) :
  lastError w = [] ->
  exists w',
    HistoryManager.clear w = (Ok true, w')
    /\ stored_history w' = []
    /\ visible_history w' = []
    /\ listener_calls (trace w')
       = listener_calls (trace w) ++ [("historyCleared", Js.VObj [])].
Proof.
  intros Hq. unfold HistoryManager.clear, StorageManager.clearHistory.
  unfold try_catch at 1. unfold bind at 1. unfold try_catch at 1. unfold bind at 1.
  rewrite (set_quiet _ _ _ Hq).
  unfold HistoryManager.notifyListeners. run_m.
  eexists. split; [reflexivity|]. simpl.
  unfold stored_history, visible_history, history_value. simpl.
  rewrite !lookup_insert_eq. simpl.
  unfold listener_calls. rewrite <- !app_assoc, !omap_app. simpl. auto.
Qed.

End PositionFacts.

Lemma deleteByIndex_after_getAll_witness :
  let shown := HistoryManager.sort_by (HistoryManager.by_timestamp "desc")
                                      [Sample.note; Sample.link] in
  exists w1 w2 item,
    HistoryManager.getAll (platform := Reference.platform) Sample.with_two = (Ok shown, w1)
    /\ shown !! 1 = Some item
    /\ HistoryManager.deleteByIndex 1 w1 = (Ok item, w2)
    /\ stored_history w2 = StorageManager.splice1 1 shown.
Proof.
  apply (deleteByIndex_after_getAll (platform := Reference.platform) 1 Sample.with_two).
  - reflexivity.
  - left. reflexivity.
  - reflexivity.
  - reflexivity.
  - reflexivity.
  - reflexivity.
  - vm_compute. lia.
Defined.

Lemma deleteByIndex_out_of_range_witness :
  exists w',
    HistoryManager.deleteByIndex 2 Sample.with_two
    = (Throw (AppError "Failed to delete from history by index" STORAGE_ERROR 8204 []
                (Some (AppError "Invalid history index" VALIDATION_ERROR 8203 [] None))),
       w')
    /\ local w' = ∅
    /\ listener_calls (trace w') = listener_calls (trace Sample.with_two).
Proof.
  apply (deleteByIndex_out_of_range 2 Sample.with_two).
  - reflexivity.
  - right. vm_compute. discriminate.
Defined.

Lemma clear_empties_history_witness :
  exists w',
    HistoryManager.clear Sample.with_two = (Ok true, w')
    /\ stored_history w' = []
    /\ visible_history w' = []
    /\ listener_calls (trace w')
       = listener_calls (trace Sample.with_two) ++ [("historyCleared", Js.VObj [])].
Proof.
  apply (clear_empties_history Sample.with_two).
  reflexivity.
Defined.

(** **** Imports and rejected additions *)

Section MoreImportFacts.

Context {platform : Platform}.

Variable importFromCsv : string -> M (list Js.value).
Variable importFromTxt : string -> M (list Js.value).

(** X21. A JSON import puts the entries of the document in front of the
    stored ones, in the order of the document, and cuts the result to 100:
    nothing is merged or deduplicated, and when the list is full it is old
    entries that fall off the end. The listeners are told the number of
    entries of the document (storage calls succeed). *)
Theorem import_prepends (data : string) (doc : Js.value) (items : list Js.value)
        (w : World) :
  JSON_parse data = Some doc ->
  Js.prop doc "items" = Some (Js.VArr items) ->
  lastError w = [] ->
  cache_coherent w ->
  exists w',
    HistoryManager.import importFromCsv importFromTxt data "json" w = (Ok items, w')
    /\ stored_history w' = take 100 (items ++ stored_history w)
    /\ listener_calls (trace w')
       = listener_calls (trace w)
         ++ [("historyImported", Js.VObj [("count", Js.VNum (Z.of_nat (length items)))])].
Proof.
  intros Hjson Hitems Hq Hc.
  destruct (getHistory_runs w (quiet_readable w Hq))
    as (w1 & Hrun & _ & _ & Hq1 & _ & _ & _ & _ & _ & _ & _ & _ & Hn1 & _).
  specialize (Hq1 Hq).
  unfold HistoryManager.import, HistoryManager.importFromJson.
  rewrite Hjson, Hitems. simpl String.eqb. cbn iota.
  unfold try_catch, bind at 1. unfold ret at 1. unfold bind at 1. rewrite Hrun.
  cbn [fst snd]. rewrite cap_take, (coherent_visible w Hc).
  destruct (write_back (Js.isArray (read_value w)) (take 100 (items ++ stored_history w))
                       w1 Hq1)
    as (w2 & Hw & Hs2 & _ & _ & Hn2 & _).
  unfold bind in Hw. unfold StorageKeys.QR_HISTORY in Hw. unfold bind at 1.
  destruct (StorageManager.mutated _ _ w1) as [[[]|e] wm]; [|discriminate].
  unfold bind at 1. rewrite Hw.
  unfold HistoryManager.notifyListeners. run_m.
  eexists. split; [reflexivity|]. simpl. split; [exact Hs2|].
  rewrite listener_calls_app, Hn2, Hn1. reflexivity.
Qed.

(** X22. An import of a text that is not JSON, or in a format other than
    [json], [csv] and [txt], throws the RUNTIME_ERROR 8602, which wraps the
    cause. It makes no chrome.storage call and tells no listener: the
    store, the cache and with them the history are what they were. *)
Theorem import_rejects (data format : string) (w : World) :
  (format = "json" /\ JSON_parse data = None)
  \/ ~ In format ["json"; "csv"; "txt"] ->
  exists cause w',
    HistoryManager.import importFromCsv importFromTxt data format w
    = (Throw (AppError "Failed to import history" RUNTIME_ERROR 8602 [] (Some cause)), w')
    /\ (cause = NativeError "SyntaxError"
        \/ cause = AppError "Unsupported import format" VALIDATION_ERROR 8601 [] None)
    /\ local w' = local w
    /\ cache w' = cache w
    /\ lastError w' = lastError w
    /\ listener_calls (trace w') = listener_calls (trace w).
Proof.
  intros Hbad.
  assert (Hitems : exists cause,
             (if String.eqb format "json" then HistoryManager.importFromJson data
              else if String.eqb format "csv" then importFromCsv data
              else if String.eqb format "txt" then importFromTxt data
              else throw (AppError "Unsupported import format" VALIDATION_ERROR 8601 [] None)) w
             = (Throw cause, w)
             /\ (cause = NativeError "SyntaxError"
                 \/ cause = AppError "Unsupported import format" VALIDATION_ERROR 8601 [] None)).
  { destruct Hbad as [[-> Hjson]|Hno].
    - exists (NativeError "SyntaxError"). simpl String.eqb. cbn iota.
      unfold HistoryManager.importFromJson. rewrite Hjson. auto.
    - eexists. simpl in Hno.
      destruct (String.eqb_spec format "json") as [->|_]; [tauto|].
      destruct (String.eqb_spec format "csv") as [->|_]; [tauto|].
      destruct (String.eqb_spec format "txt") as [->|_]; [tauto|].
      split; [reflexivity|auto]. }
  destruct Hitems as (cause & Hthrow & Hcause).
  unfold HistoryManager.import. unfold try_catch, bind at 1. rewrite Hthrow.
  destruct (handleError_AppError "Failed to import history" RUNTIME_ERROR 8602 []
              (Some cause) w)
    as (w2 & Hh & Hc2 & _ & _ & _ & _ & _ & _ & Ht2 & Hq2 & Hl2).
  simpl in Hh. unfold ErrorHandler.raise, bind. rewrite Hh. unfold throw.
  exists cause, w2. split; [reflexivity|]. split; [exact Hcause|].
  rewrite Ht2, listener_calls_app. simpl. rewrite app_nil_r. auto.
Qed.

(** X23. [add] of a content that is not a string, or is the empty string,
    adds nothing: it makes no write and tells no listener. The
    VALIDATION_ERROR 8101 leaves as the cause of the STORAGE_ERROR 8102
    thrown to the caller, and handling that STORAGE_ERROR clears
    chrome.storage.local unless the clearing call itself fails. *)
Theorem add_rejects (content metadata : Js.value) (f : Fresh) (w : World) :
  Js.truthy content = false \/ Js.typeof content <> "string" ->
  exists w',
    HistoryManager.add content metadata f w
    = (Throw (AppError "Failed to add to history" STORAGE_ERROR 8102 []
                (Some (AppError "Invalid content for history item" VALIDATION_ERROR
                                8101 [] None))),
       w')
    /\ attempts (trace w') = attempts (trace w)
    /\ listener_calls (trace w') = listener_calls (trace w)
    /\ cache w' = cache w
    /\ local w' = (if hd false (lastError w) then local w else ∅).
Proof.
  intros Hbad.
  assert (Hguard : negb (Js.truthy content)
                   || negb (String.eqb (Js.typeof content) "string") = true).
  { apply orb_true_iff. destruct Hbad as [H|H]; [left; rewrite H; reflexivity|right].
    destruct (String.eqb_spec (Js.typeof content) "string"); [contradiction|reflexivity]. }
  unfold HistoryManager.add. rewrite Hguard. unfold try_catch, throw.
  destruct (handleError_AppError "Failed to add to history" STORAGE_ERROR 8102 []
              (Some (AppError "Invalid content for history item" VALIDATION_ERROR
                              8101 [] None)) w)
    as (w2 & Hh & Hc2 & _ & _ & _ & _ & _ & _ & Ht2 & Hq2 & Hl2).
  simpl in Hh. unfold ErrorHandler.raise, bind. rewrite Hh. unfold throw.
  exists w2. split; [reflexivity|].
  rewrite Ht2, attempts_app, listener_calls_app. simpl. rewrite !app_nil_r. auto.
Qed.

End MoreImportFacts.

Lemma import_prepends_witness :
  let data := HistoryManager.exportAsJson (platform := Reference.platform)
                "2024-05-01T10:00:00.000Z" [Sample.link] in
  exists w',
    HistoryManager.import (platform := Reference.platform)
                          (fun _ => ret []) (fun _ => ret []) data "json" Sample.with_two
    = (Ok [Sample.link], w')
    /\ stored_history w' = take 100 ([Sample.link] ++ stored_history Sample.with_two)
    /\ listener_calls (trace w')
       = listener_calls (trace Sample.with_two)
         ++ [("historyImported", Js.VObj [("count", Js.VNum (Z.of_nat (length [Sample.link])))])].
Proof.
  apply (import_prepends (platform := Reference.platform)
           (fun _ => ret []) (fun _ => ret [])
           (HistoryManager.exportAsJson (platform := Reference.platform)
              "2024-05-01T10:00:00.000Z" [Sample.link])
           (export_document "2024-05-01T10:00:00.000Z" [Sample.link])
           [Sample.link] Sample.with_two).
  - vm_compute. reflexivity.
  - reflexivity.
  - reflexivity.
  - left. reflexivity.
Defined.

Lemma import_rejects_witness :
  exists cause w',
    HistoryManager.import (platform := Reference.platform)
                          (fun _ => ret []) (fun _ => ret []) "{ not json" "json"
                          Sample.with_two
    = (Throw (AppError "Failed to import history" RUNTIME_ERROR 8602 [] (Some cause)), w')
    /\ (cause = NativeError "SyntaxError"
        \/ cause = AppError "Unsupported import format" VALIDATION_ERROR 8601 [] None)
    /\ local w' = local Sample.with_two
    /\ cache w' = cache Sample.with_two
    /\ lastError w' = lastError Sample.with_two
    /\ listener_calls (trace w') = listener_calls (trace Sample.with_two).
Proof.
  apply (import_rejects (platform := Reference.platform)
           (fun _ => ret []) (fun _ => ret []) "{ not json" "json" Sample.with_two).
  left. split; [reflexivity|vm_compute; reflexivity].
Defined.

Lemma add_rejects_witness :
  exists w',
    HistoryManager.add (platform := Reference.platform)
                       (Js.VStr EmptyString) (Js.VObj []) Sample.fresh Sample.with_two
    = (Throw (AppError "Failed to add to history" STORAGE_ERROR 8102 []
                (Some (AppError "Invalid content for history item" VALIDATION_ERROR
                                8101 [] None))),
       w')
    /\ attempts (trace w') = attempts (trace Sample.with_two)
    /\ listener_calls (trace w') = listener_calls (trace Sample.with_two)
    /\ cache w' = cache Sample.with_two
    /\ local w' = (if hd false (lastError Sample.with_two)
                   then local Sample.with_two else ∅).
Proof.
  apply (add_rejects (platform := Reference.platform)
           (Js.VStr EmptyString) (Js.VObj []) Sample.fresh Sample.with_two).
  left. reflexivity.
Defined.

(** *** The error handler *)

Lemma last_fifty_step {A : Type} (n : nat) (l : list A) (a : A) :
  0 < n ->
  drop (length (drop (length l - n) l ++ [a]) - n) (drop (length l - n) l ++ [a])
  = drop (length (l ++ [a]) - n) (l ++ [a]).
Proof.
  intros Hn. rewrite !length_app, length_drop. cbn [length].
  destruct (Nat.le_gt_cases (length l) n) as [Hle|Hgt].
  - replace (length l - n) with 0 by lia. rewrite drop_0.
    replace (length l - 0 + 1 - n) with (length l + 1 - n) by lia. reflexivity.
  - replace (length l - (length l - n) + 1 - n) with 1 by lia.
    rewrite !drop_app_le by (rewrite ?length_drop; lia).
    rewrite drop_drop. f_equal. f_equal. lia.
Qed.

Lemma handleError_history e w :
  length (errorHistory w) <= 50 ->
  fst (ErrorHandler.handleError e w) = Ok (as_app_error e)
  /\ errorHistory (snd (ErrorHandler.handleError e w))
     = drop (length (errorHistory w ++ [as_app_error e]) - 50)
            (errorHistory w ++ [as_app_error e]).
Proof.
  intros Hlen.
  assert (Hstep : (if ErrorHandler.maxHistorySize <? length (errorHistory w ++ [as_app_error e])
                   then tl (errorHistory w ++ [as_app_error e])
                   else errorHistory w ++ [as_app_error e])
                  = drop (length (errorHistory w ++ [as_app_error e]) - 50)
                         (errorHistory w ++ [as_app_error e])).
  { unfold ErrorHandler.maxHistorySize. rewrite length_app. cbn [length].
    destruct (Nat.ltb_spec 50 (length (errorHistory w) + 1)).
    - replace (length (errorHistory w) + 1 - 50) with 1 by lia.
      destruct (errorHistory w ++ [as_app_error e]); reflexivity.
    - replace (length (errorHistory w) + 1 - 50) with 0 by lia. reflexivity. }
  rewrite <- Hstep.
  unfold ErrorHandler.handleError. fold (as_app_error e).
  unfold ErrorHandler.addToHistory, ErrorHandler.notifyCallbacks, ErrorHandler.tryRecovery.
  destruct (error_type (as_app_error e)) as [[]|]; run_m; auto.
  unfold ErrorHandler.tryStorageRecovery. run_m. unfold next_lastError. simpl.
  destruct (lastError w) as [|[] rest]; simpl; auto.
Qed.

(** X5. The error handler keeps the last 50 errors it was given, oldest
    first: after any sequence of errors its history is the last 50 of what
    it held before followed by the new ones, each recorded as an AppError
    (a value that is not an AppError is wrapped as an UNKNOWN_ERROR with
    code 0). The history never grows beyond 50. *)
Theorem error_history_keeps_last_fifty (errors : list Error) (w : World) :
  length (errorHistory w) <= 50 ->
  let all := errorHistory w ++ map as_app_error errors in
  errorHistory (snd (handle_all errors w)) = drop (length all - 50) all
  /\ length (errorHistory (snd (handle_all errors w))) <= 50.
Proof.
  intros Hlen all.
  assert (Hmain : forall es w0 l,
             errorHistory w0 = drop (length l - 50) l ->
             errorHistory (snd (handle_all es w0))
             = drop (length (l ++ map as_app_error es) - 50) (l ++ map as_app_error es)).
  { induction es as [|e es IH]; intros w0 l H0.
    - simpl. rewrite app_nil_r. exact H0.
    - simpl handle_all. unfold bind.
      assert (Hlen0 : length (errorHistory w0) <= 50)
        by (rewrite H0, length_drop; lia).
      destruct (handleError_history e w0 Hlen0) as (Hres & Hhist).
      destruct (ErrorHandler.handleError e w0) as [r w1]. cbn [fst snd] in Hres, Hhist.
      subst r. cbn [map].
      replace (l ++ as_app_error e :: map as_app_error es)
        with ((l ++ [as_app_error e]) ++ map as_app_error es)
        by (rewrite <- app_assoc; reflexivity).
      apply IH. rewrite Hhist, H0. apply last_fifty_step. lia. }
  assert (Hall : errorHistory (snd (handle_all errors w)) = drop (length all - 50) all).
  { apply Hmain. replace (length (errorHistory w) - 50) with 0 by lia. reflexivity. }
  split; [exact Hall|]. rewrite Hall, length_drop. lia.
Qed.

Lemma error_history_keeps_last_fifty_witness :
  let errors := [NativeError "TypeError";
                 AppError "Invalid history index" VALIDATION_ERROR 3001 [] None] in
  let all := errorHistory Sample.blank ++ map as_app_error errors in
  errorHistory (snd (handle_all errors Sample.blank)) = drop (length all - 50) all
  /\ length (errorHistory (snd (handle_all errors Sample.blank))) <= 50.
Proof.
  apply (error_history_keeps_last_fifty
           [NativeError "TypeError";
            AppError "Invalid history index" VALIDATION_ERROR 3001 [] None] Sample.blank).
  simpl. lia.
Defined.

(** X6. Handling an error clears chrome.storage.local exactly when the
    error is a STORAGE_ERROR and the clearing call succeeds. Errors of every
    other type, and values that are not an AppError, make no chrome.storage
    call at all. The cache of the storage manager is never touched, so after
    a recovery it still holds what the store has lost. *)
Theorem handleError_clears_only_on_storage_error (e : Error) (w : World) :
  let w' := snd (ErrorHandler.handleError e w) in
  local w' = (if is_storage_error e && negb (hd false (lastError w)) then ∅ else local w)
  /\ cache w' = cache w
  /\ storage_calls (trace w')
     = storage_calls (trace w)
       ++ (if is_storage_error e then [EvStorageClear (hd false (lastError w))] else [])
  /\ lastError w' = (if is_storage_error e then tl (lastError w) else lastError w).
Proof.
  assert (Hcalls : forall t1 t2, storage_calls (t1 ++ t2) = storage_calls t1 ++ storage_calls t2)
    by (intros; apply List.filter_app).
  destruct e as [message t code errs cause|message].
  - destruct (handleError_AppError message t code errs cause w)
      as (w' & Hh & Hc & _ & _ & _ & _ & _ & _ & Hrest).
    simpl in Hh. rewrite Hh. cbn [snd]. unfold is_storage_error. cbn [error_type].
    destruct t; destruct Hrest as (Ht & Hq & Hl); rewrite Ht, Hcalls, Hl, Hq, Hc;
      cbn [andb storage_calls List.filter]; rewrite ?app_nil_r; auto.
    destruct (hd false (lastError w)); auto.
  - unfold ErrorHandler.handleError, ErrorHandler.addToHistory,
      ErrorHandler.notifyCallbacks, ErrorHandler.tryRecovery. run_m.
    rewrite Hcalls. simpl. rewrite app_nil_r. auto.
Qed.

(** *** Settings: what is saved is what is loaded *)

Lemma lookup_field_absent k fs :
  ~ In k (map fst fs) -> Js.lookup_field k fs = None.
Proof.
  induction fs as [|[k0 v0] fs IH]; simpl; intros H; [reflexivity|].
  destruct (String.eqb_spec k k0) as [->|_]; [tauto|]. apply IH. tauto.
Qed.

Lemma lookup_spread k v : forall acc,
  distinct_keys v ->
  Js.lookup_field k (Js.spread_into acc v)
  = match Js.lookup_field k (Js.own_fields v) with
    | Some x => Some x
    | None => Js.lookup_field k acc
    end.
Proof.
  unfold distinct_keys, Js.spread_into.
  induction (Js.own_fields v) as [|[k0 v0] fs IH]; intros acc Hd; simpl; [reflexivity|].
  simpl in Hd. inversion Hd as [|? ? Hnot Hd']; subst.
  rewrite (IH _ Hd'), lookup_set_field.
  destruct (String.eqb_spec k k0) as [->|_]; [|reflexivity].
  rewrite (lookup_field_absent _ _ Hnot). reflexivity.
Qed.

Lemma set_field_keys k v fs x :
  In x (map fst (Js.set_field k v fs)) -> x = k \/ In x (map fst fs).
Proof.
  induction fs as [|[k0 v0] fs IH]; simpl.
  - intros [<-|[]]. auto.
  - destruct (String.eqb_spec k k0) as [->|_]; simpl.
    + intros [<-|H]; auto.
    + intros [<-|H]; auto. destruct (IH H); auto.
Qed.

Lemma set_field_distinct k v fs :
  List.NoDup (map fst fs) -> List.NoDup (map fst (Js.set_field k v fs)).
Proof.
  induction fs as [|[k0 v0] fs IH]; simpl; intros Hd.
  - constructor; [intros []|constructor].
  - inversion Hd as [|? ? Hnot Hd']; subst.
    destruct (String.eqb_spec k k0) as [->|Hne]; simpl.
    + constructor; assumption.
    + constructor; [|apply IH; exact Hd'].
      intros Hin. apply set_field_keys in Hin as [->|Hin]; [congruence|contradiction].
Qed.

Lemma spread_distinct v : forall acc,
  List.NoDup (map fst acc) -> distinct_keys (Js.VObj (Js.spread_into acc v)).
Proof.
  unfold distinct_keys, Js.spread_into. simpl.
  induction (Js.own_fields v) as [|[k0 v0] fs IH]; intros acc Hd; simpl; [exact Hd|].
  apply IH, set_field_distinct, Hd.
Qed.

(** The validation looks at the four fields only and never at the state. *)
Lemma validate_outcome settings w :
  ConfigManager.validateSettings settings w
  = (if Js.truthy settings && (length (ConfigManager.validation_errors settings) =? 0)
     then Ok tt
     else Throw (if Js.truthy settings
                 then AppError "Settings validation failed" VALIDATION_ERROR 4102
                               (ConfigManager.validation_errors settings) None
                 else AppError "Settings object is null or undefined" VALIDATION_ERROR
                               4101 [] None),
     w).
Proof.
  unfold ConfigManager.validateSettings, throw, ret.
  destruct (Js.truthy settings); simpl; [|reflexivity].
  destruct (length (ConfigManager.validation_errors settings)); reflexivity.
Qed.

Lemma valid_no_errors settings :
  valid_settings settings <->
  Js.truthy settings = true /\ ConfigManager.validation_errors settings = [].
Proof.
  unfold valid_settings. split.
  - intros H. specialize (H Sample.blank). rewrite validate_outcome in H.
    destruct (Js.truthy settings); simpl in H; [|discriminate].
    destruct (ConfigManager.validation_errors settings); [auto|discriminate].
  - intros [Ht He] w. rewrite validate_outcome, Ht, He. reflexivity.
Qed.

Lemma validation_errors_same s1 s2 :
  (forall k, In k ["size"; "colorDark"; "colorLight"; "correctLevel"] ->
             Js.field s1 k = Js.field s2 k) ->
  ConfigManager.validation_errors s1 = ConfigManager.validation_errors s2.
Proof.
  intros H. unfold ConfigManager.validation_errors.
  rewrite !(H "size"), !(H "colorDark"), !(H "colorLight"), !(H "correctLevel");
    simpl; auto 6.
Qed.

(** A valid object has the four fields. *)
Lemma valid_fields_present fs k :
  valid_settings (Js.VObj fs) ->
  In k ["size"; "colorDark"; "colorLight"; "correctLevel"] ->
  exists v, Js.lookup_field k fs = Some v.
Proof.
  intros Hv Hk. apply valid_no_errors in Hv as [_ He].
  unfold ConfigManager.validation_errors in He.
  apply app_eq_nil in He as [H1 He]. apply app_eq_nil in He as [H2 He].
  apply app_eq_nil in He as [H3 H4].
  unfold Js.field, Js.prop in *. cbn [default] in *.
  simpl in Hk. destruct Hk as [<-|[<-|[<-|[<-|[]]]]].
  - destruct (Js.lookup_field "size" fs); [eauto|discriminate].
  - destruct (Js.lookup_field "colorDark" fs); [eauto|discriminate].
  - destruct (Js.lookup_field "colorLight" fs); [eauto|discriminate].
  - destruct (Js.lookup_field "correctLevel" fs); [eauto|discriminate].
Qed.

Lemma valid_is_object settings :
  valid_settings settings -> exists fs, settings = Js.VObj fs.
Proof.
  intros Hv. apply valid_no_errors in Hv as [_ He].
  destruct settings; try discriminate. eauto.
Qed.

Lemma defaults_valid : valid_settings ConfigManager.DEFAULT_SETTINGS.
Proof. apply valid_no_errors. split; reflexivity. Qed.

(** One run of [loadSettings] on settings that the cache holds. *)
Lemma loadSettings_cached settings w :
  cache w !! StorageKeys.QR_SETTINGS = Some settings ->
  Js.truthy settings = true ->
  valid_settings (ConfigManager.mergeWithDefaults settings) ->
  ConfigManager.loadSettings w
  = (Ok (ConfigManager.mergeWithDefaults settings),
     set_trace (trace w ++ [EvListeners "settingsLoaded"
                                        (ConfigManager.mergeWithDefaults settings)])
               (set_currentSettings (ConfigManager.mergeWithDefaults settings) w)).
Proof.
  intros Hc Ht Hv.
  unfold ConfigManager.loadSettings, StorageManager.getSettings.
  unfold try_catch at 1. unfold bind at 1. unfold bind at 1.
  rewrite (get_cached _ _ _ _ Hc) by (destruct settings; discriminate).
  unfold ret at 1. rewrite Ht.
  unfold bind at 1. unfold modify at 1. unfold bind at 1. rewrite Hv.
  unfold ConfigManager.notifyListeners. run_m. reflexivity.
Qed.

(** X10. Settings that [saveSettings] accepted are the settings that
    [loadSettings] returns next: every field of the object given to
    [saveSettings] comes back with the value given, the result is in
    memory, and the store holds what was saved (storage calls succeed; the
    object passes the validation and binds each key once). *)
Theorem save_then_load (newSettings : Js.value) (w : World) :
  valid_settings newSettings ->
  distinct_keys newSettings ->
  lastError w = [] ->
  exists saved loaded w1 w2,
    ConfigManager.saveSettings newSettings w = (Ok saved, w1)
    /\ ConfigManager.loadSettings w1 = (Ok loaded, w2)
    /\ local w2 !! StorageKeys.QR_SETTINGS = Some saved
    /\ currentSettings w2 = loaded
    /\ (forall k v, Js.lookup_field k (Js.own_fields newSettings) = Some v ->
                    Js.field saved k = v /\ Js.field loaded k = v).
Proof.
  intros Hv Hd Hq.
  destruct (saveSettings_valid newSettings w (Hv w) Hq) as (w1 & Hsave & Hl1 & Hc1 & Ht1).
  cbv zeta in Hsave, Hl1, Hc1, Ht1.
  set (saved := Js.VObj (Js.spread_into (Js.spread_into [] (currentSettings w)) newSettings))
    in *.
  set (loaded := ConfigManager.mergeWithDefaults saved).
  assert (Hds : distinct_keys saved).
  { apply spread_distinct. apply (spread_distinct (currentSettings w) []). constructor. }
  assert (Hsaved : forall k v, Js.lookup_field k (Js.own_fields newSettings) = Some v ->
                               Js.lookup_field k (Js.own_fields saved) = Some v).
  { intros k v Hk. unfold saved. cbn [Js.own_fields].
    rewrite (lookup_spread k newSettings _ Hd), Hk. reflexivity. }
  assert (Hloaded : forall k v, Js.lookup_field k (Js.own_fields saved) = Some v ->
                                Js.field loaded k = v).
  { intros k v Hk. unfold loaded, ConfigManager.mergeWithDefaults, Js.field, Js.prop.
    rewrite (lookup_spread k saved _ Hds), Hk. reflexivity. }
  assert (Hvl : valid_settings loaded).
  { destruct (valid_is_object newSettings Hv) as (fs & Hfs).
    apply valid_no_errors. split; [reflexivity|].
    rewrite (validation_errors_same loaded newSettings);
      [apply valid_no_errors in Hv; tauto|].
    intros k Hk. subst newSettings.
    destruct (valid_fields_present fs k Hv Hk) as (v & Hlook).
    rewrite (Hloaded k v (Hsaved k v Hlook)).
    unfold Js.field, Js.prop. rewrite Hlook. reflexivity. }
  assert (Hcache : cache w1 !! StorageKeys.QR_SETTINGS = Some saved).
  { revert Hsave. unfold ConfigManager.saveSettings, StorageManager.saveSettings.
    unfold try_catch at 1. unfold bind at 1. rewrite (Hv w).
    unfold bind at 1. unfold gets at 1. fold saved.
    unfold bind at 1. unfold try_catch at 1. unfold bind at 1.
    rewrite (set_quiet _ _ _ Hq).
    unfold ConfigManager.applySettings, ConfigManager.notifyListeners. run_m.
    intros H. injection H as <-. simpl. apply lookup_insert_eq. }
  exists saved, loaded, w1. eexists.
  split; [exact Hsave|].
  split; [apply (loadSettings_cached saved w1 Hcache eq_refl Hvl)|].
  simpl. split; [exact Hl1|]. split; [reflexivity|].
  intros k v Hk. split; [|exact (Hloaded k v (Hsaved k v Hk))].
  unfold Js.field, saved, Js.prop. fold saved.
  change (Js.spread_into (Js.spread_into [] (currentSettings w)) newSettings)
    with (Js.own_fields saved).
  rewrite (Hsaved k v Hk). reflexivity.
Qed.

Lemma save_then_load_witness :
  exists saved loaded w1 w2,
    ConfigManager.saveSettings More.red Sample.configured = (Ok saved, w1)
    /\ ConfigManager.loadSettings w1 = (Ok loaded, w2)
    /\ local w2 !! StorageKeys.QR_SETTINGS = Some saved
    /\ currentSettings w2 = loaded
    /\ (forall k v, Js.lookup_field k (Js.own_fields More.red) = Some v ->
                    Js.field saved k = v /\ Js.field loaded k = v).
Proof.
  apply (save_then_load More.red Sample.configured).
  - apply valid_no_errors. split; reflexivity.
  - unfold distinct_keys. simpl.
    repeat (constructor; [simpl; intuition discriminate|]). constructor.
  - reflexivity.
Defined.

(** X11. [setSetting(key, value)] never succeeds, whatever the key and the
    value: the object it hands to [saveSettings] has one field, so at least
    three of the four checks fail. It throws the STORAGE_ERROR 4002 around
    the VALIDATION_ERROR 4102, attempts no write and leaves the settings in
    memory as they were. *)
Theorem setSetting_always_fails (key : string) (v : Js.value) (w : World) :
  exists errors w',
    ConfigManager.setSetting key v w
    = (Throw (AppError "Failed to save settings" STORAGE_ERROR 4002 []
                (Some (AppError "Settings validation failed" VALIDATION_ERROR 4102
                                errors None))),
       w')
    /\ 3 <= length errors
    /\ currentSettings w' = currentSettings w
    /\ attempts (trace w') = attempts (trace w).
Proof.
  set (errors := ConfigManager.validation_errors (Js.VObj [(key, v)])).
  assert (Hlen : 3 <= length errors).
  { unfold errors, ConfigManager.validation_errors, Js.field, Js.prop.
    cbn [Js.lookup_field default].
    destruct (String.eqb "size" key) eqn:E1;
      destruct (String.eqb "colorDark" key) eqn:E2;
      destruct (String.eqb "colorLight" key) eqn:E3;
      destruct (String.eqb "correctLevel" key) eqn:E4;
      try (apply String.eqb_eq in E1; apply String.eqb_eq in E2; congruence);
      try (apply String.eqb_eq in E1; apply String.eqb_eq in E3; congruence);
      try (apply String.eqb_eq in E1; apply String.eqb_eq in E4; congruence);
      try (apply String.eqb_eq in E2; apply String.eqb_eq in E3; congruence);
      try (apply String.eqb_eq in E2; apply String.eqb_eq in E4; congruence);
      try (apply String.eqb_eq in E3; apply String.eqb_eq in E4; congruence);
      cbn [default]; rewrite !length_app;
      repeat match goal with
             | |- context [length (if ?c then _ else _)] => destruct c eqn:?
             end;
      cbn [length]; try lia; discriminate. }
  exists errors.
  unfold ConfigManager.setSetting, ConfigManager.saveSettings.
  unfold try_catch at 1. unfold bind at 1. rewrite validate_outcome. fold errors.
  cbn [Js.truthy andb].
  destruct (Nat.eqb_spec (length errors) 0) as [E|_]; [lia|].
  destruct (handleError_AppError "Failed to save settings" STORAGE_ERROR 4002 []
              (Some (AppError "Settings validation failed" VALIDATION_ERROR 4102
                              errors None)) w)
    as (w2 & Hh & _ & Hcs & _ & _ & _ & _ & _ & Ht2 & _).
  simpl in Hh. unfold ErrorHandler.raise, bind. rewrite Hh. unfold throw.
  exists w2. split; [reflexivity|]. split; [exact Hlen|]. split; [exact Hcs|].
  rewrite Ht2, attempts_app. simpl. apply app_nil_r.
Qed.

(** X12. With nothing stored under the settings key, [loadSettings]
    returns the default settings and puts them in memory; it tells the
    listeners of [settingsLoaded], and the settings key is still absent
    from the store afterwards: the defaults are not written back. *)
Theorem loadSettings_defaults (w : World) :
  cache w !! StorageKeys.QR_SETTINGS = None ->
  local w !! StorageKeys.QR_SETTINGS = None ->
  hd false (lastError w) = false ->
  exists w',
    ConfigManager.loadSettings w = (Ok ConfigManager.DEFAULT_SETTINGS, w')
    /\ currentSettings w' = ConfigManager.DEFAULT_SETTINGS
    /\ local w' !! StorageKeys.QR_SETTINGS = None
    /\ listener_calls (trace w')
       = listener_calls (trace w) ++ [("settingsLoaded", ConfigManager.DEFAULT_SETTINGS)].
Proof.
  intros Hc Hl Hq.
  destruct (get_uncached StorageKeys.QR_SETTINGS Js.VNull w)
    as (w1 & Hget & Hl1 & _ & _ & _ & _ & Htr).
  - rewrite Hc. reflexivity.
  - exact Hq.
  - rewrite Hl in Hget. cbn [default] in Hget.
    assert (Ht1 : listener_calls (trace w1) = listener_calls (trace w)).
    { rewrite Htr, listener_calls_app. simpl. apply app_nil_r. }
    unfold ConfigManager.loadSettings, StorageManager.getSettings.
    unfold try_catch at 1. unfold bind at 1. unfold bind at 1. rewrite Hget.
    unfold ret at 1. cbn [Js.truthy].
    change (ConfigManager.mergeWithDefaults (Js.VObj []))
      with ConfigManager.DEFAULT_SETTINGS.
    unfold bind at 1. unfold modify at 1. unfold bind at 1.
    rewrite (defaults_valid _).
    unfold ConfigManager.notifyListeners. run_m.
    eexists. split; [reflexivity|]. simpl.
    rewrite listener_calls_app, Ht1, Hl1. auto.
Qed.

Lemma loadSettings_defaults_witness :
  exists w',
    ConfigManager.loadSettings Sample.blank = (Ok ConfigManager.DEFAULT_SETTINGS, w')
    /\ currentSettings w' = ConfigManager.DEFAULT_SETTINGS
    /\ local w' !! StorageKeys.QR_SETTINGS = None
    /\ listener_calls (trace w')
       = listener_calls (trace Sample.blank)
         ++ [("settingsLoaded", ConfigManager.DEFAULT_SETTINGS)].
Proof.
  apply (loadSettings_defaults Sample.blank); reflexivity.
Defined.

(** X13. After [init], whatever the store holds and whether or not the
    read fails, the settings in memory pass the validation: they are the
    stored ones when those are valid, and the defaults in every other case,
    that is when the stored ones are not valid and when the read fails. *)
Theorem init_settings_are_valid (w : World) :
  let w' := snd (ConfigManager.init w) in
  valid_settings (currentSettings w')
  /\ (forall settings w1,
         StorageManager.getSettings w = (Ok settings, w1) ->
         valid_settings settings -> currentSettings w' = settings)
  /\ (forall settings w1,
         StorageManager.getSettings w = (Ok settings, w1) ->
         ~ valid_settings settings -> currentSettings w' = ConfigManager.DEFAULT_SETTINGS)
  /\ (forall e w1,
         StorageManager.getSettings w = (Throw e, w1) ->
         currentSettings w' = ConfigManager.DEFAULT_SETTINGS).
Proof.
  cbv zeta.
  assert (Hcur : currentSettings (snd (ConfigManager.init w))
                 = match StorageManager.getSettings w with
                   | (Ok settings, _) =>
                       if Js.truthy settings
                          && (length (ConfigManager.validation_errors settings) =? 0)
                       then settings else ConfigManager.DEFAULT_SETTINGS
                   | (Throw _, _) => ConfigManager.DEFAULT_SETTINGS
                   end).
  { unfold ConfigManager.init. unfold try_catch. unfold bind at 1.
    destruct (StorageManager.getSettings w) as [[settings|e] w1].
    - unfold bind at 1. unfold modify at 1. unfold bind at 1. rewrite validate_outcome.
      destruct (Js.truthy settings
                && (length (ConfigManager.validation_errors settings) =? 0)).
      + unfold ConfigManager.applySettings. run_m. reflexivity.
      + run_m. reflexivity.
    - run_m. reflexivity. }
  rewrite Hcur. clear Hcur.
  destruct (StorageManager.getSettings w) as [[settings|e] w1].
  - destruct (Js.truthy settings && (length (ConfigManager.validation_errors settings) =? 0))
      eqn:E.
    + assert (Hv : valid_settings settings).
      { apply andb_true_iff in E as [Ht He]. apply valid_no_errors. split; [exact Ht|].
        apply Nat.eqb_eq in He. destruct (ConfigManager.validation_errors settings);
          [reflexivity|discriminate]. }
      split; [exact Hv|]. split; [intros ? ? H _; injection H as <- _; reflexivity|].
      split; [intros ? ? H Hn; injection H as <- _; contradiction|].
      intros ? ? H. discriminate.
    + split; [exact defaults_valid|].
      split; [|split; [reflexivity|intros ? ? H; discriminate]].
      intros ? ? H Hv. injection H as <- _.
      apply valid_no_errors in Hv as [Ht He]. rewrite Ht, He in E. discriminate.
  - split; [exact defaults_valid|].
    split; [intros ? ? H; discriminate|].
    split; [intros ? ? H; discriminate|reflexivity].
Qed.

(** [resetSettings] stores the default settings, puts them in memory
    and tells the listeners of [settingsReset]; the [loadSettings] that
    follows returns the defaults (storage calls succeed). *)
Theorem resetSettings_restores_defaults (w : World) :
  lastError w = [] ->
  exists w1 w2,
    ConfigManager.resetSettings w = (Ok ConfigManager.DEFAULT_SETTINGS, w1)
    /\ local w1 !! StorageKeys.QR_SETTINGS = Some ConfigManager.DEFAULT_SETTINGS
    /\ currentSettings w1 = ConfigManager.DEFAULT_SETTINGS
    /\ listener_calls (trace w1)
       = listener_calls (trace w) ++ [("settingsReset", ConfigManager.DEFAULT_SETTINGS)]
    /\ ConfigManager.loadSettings w1 = (Ok ConfigManager.DEFAULT_SETTINGS, w2).
Proof.
  intros Hq. unfold ConfigManager.resetSettings, StorageManager.saveSettings.
  change (Js.VObj (Js.spread_into [] ConfigManager.DEFAULT_SETTINGS))
    with ConfigManager.DEFAULT_SETTINGS.
  unfold try_catch at 1. unfold bind at 1. unfold try_catch at 1. unfold bind at 1.
  rewrite (set_quiet _ _ _ Hq).
  unfold ConfigManager.applySettings, ConfigManager.notifyListeners. run_m.
  eexists. eexists. split; [reflexivity|]. simpl.
  rewrite lookup_insert_eq. split; [reflexivity|]. split; [reflexivity|].
  split.
  - rewrite <- !app_assoc, !listener_calls_app. simpl. reflexivity.
  - apply (loadSettings_cached ConfigManager.DEFAULT_SETTINGS).
    + simpl. apply lookup_insert_eq.
    + reflexivity.
    + exact defaults_valid.
Qed.

Lemma resetSettings_restores_defaults_witness :
  exists w1 w2,
    ConfigManager.resetSettings Sample.configured = (Ok ConfigManager.DEFAULT_SETTINGS, w1)
    /\ local w1 !! StorageKeys.QR_SETTINGS = Some ConfigManager.DEFAULT_SETTINGS
    /\ currentSettings w1 = ConfigManager.DEFAULT_SETTINGS
    /\ listener_calls (trace w1)
       = listener_calls (trace Sample.configured)
         ++ [("settingsReset", ConfigManager.DEFAULT_SETTINGS)]
    /\ ConfigManager.loadSettings w1 = (Ok ConfigManager.DEFAULT_SETTINGS, w2).
Proof.
  apply (resetSettings_restores_defaults Sample.configured). reflexivity.
Defined.

Section SettingsTransfer.

Context {platform : Platform}.

(** X14. [importSettings] of a text that is not JSON, or whose object does
    not pass the validation, throws the VALIDATION_ERROR 4201 around the
    cause. Nothing is saved: the store, the cache and the settings in
    memory are what they were, no chrome.storage call is made and no
    listener is told. *)
Theorem importSettings_rejects (settingsJson : string) (w : World) :
  JSON_parse settingsJson = None
  \/ (exists settings, JSON_parse settingsJson = Some settings
                       /\ ~ valid_settings settings) ->
  exists cause w',
    ConfigManager.importSettings settingsJson w
    = (Throw (AppError "Failed to import settings" VALIDATION_ERROR 4201 [] (Some cause)),
       w')
    /\ local w' = local w
    /\ cache w' = cache w
    /\ lastError w' = lastError w
    /\ currentSettings w' = currentSettings w
    /\ listener_calls (trace w') = listener_calls (trace w).
Proof.
  intros Hbad.
  assert (Hbody : exists cause,
             match JSON_parse settingsJson with
             | None => throw (NativeError "SyntaxError")
             | Some settings =>
                 bind (ConfigManager.validateSettings settings)
                      (fun _ => bind (ConfigManager.saveSettings settings)
                                     (fun _ => ret settings))
             end w = (Throw cause, w)).
  { destruct Hbad as [->|(settings & -> & Hinv)]; [eexists; reflexivity|].
    unfold bind at 1. rewrite validate_outcome.
    destruct (Js.truthy settings && (length (ConfigManager.validation_errors settings) =? 0))
      eqn:E; [|eexists; reflexivity].
    exfalso. apply Hinv. apply andb_true_iff in E as [Ht He].
    apply valid_no_errors. split; [exact Ht|]. apply Nat.eqb_eq in He.
    destruct (ConfigManager.validation_errors settings); [reflexivity|discriminate]. }
  destruct Hbody as (cause & Hbody).
  unfold ConfigManager.importSettings. unfold try_catch. rewrite Hbody.
  destruct (handleError_AppError "Failed to import settings" VALIDATION_ERROR 4201 []
              (Some cause) w)
    as (w2 & Hh & Hc2 & Hcs & _ & _ & _ & _ & _ & Ht2 & Hq2 & Hl2).
  simpl in Hh. unfold ErrorHandler.raise, bind. rewrite Hh. unfold throw.
  exists cause, w2. split; [reflexivity|].
  rewrite Ht2, listener_calls_app. simpl. rewrite app_nil_r. auto.
Qed.

(** X15. Exporting the settings in memory and importing the text back
    changes no setting: the import returns the exported object, stores it,
    and every field of the settings in memory is what it was (storage calls
    succeed, the settings in memory are valid, and [JSON.parse] gives back
    what [JSON.stringify] was given). *)
Theorem export_then_import_settings (w : World) :
  valid_settings (currentSettings w) ->
  distinct_keys (currentSettings w) ->
  JSON_parse (JSON_stringify (currentSettings w)) = Some (currentSettings w) ->
  lastError w = [] ->
  exists text w',
    ConfigManager.exportSettings w = (Ok text, w)
    /\ ConfigManager.importSettings text w = (Ok (currentSettings w), w')
    /\ local w' !! StorageKeys.QR_SETTINGS = Some (currentSettings w')
    /\ (forall k, Js.field (currentSettings w') k = Js.field (currentSettings w) k).
Proof.
  intros Hv Hd Hjson Hq.
  destruct (saveSettings_valid (currentSettings w) w (Hv w) Hq)
    as (w1 & Hsave & Hl1 & Hc1 & _).
  cbv zeta in Hsave, Hl1, Hc1.
  exists (JSON_stringify (currentSettings w)), w1.
  split; [reflexivity|].
  unfold ConfigManager.importSettings. unfold try_catch. rewrite Hjson.
  unfold bind at 1. rewrite (Hv w). unfold bind at 1. rewrite Hsave.
  split; [reflexivity|]. rewrite Hc1. split; [exact Hl1|].
  intros k. destruct (valid_is_object _ Hv) as (fs & Hfs).
  unfold Js.field, Js.prop. rewrite (lookup_spread k (currentSettings w) _ Hd).
  rewrite (lookup_spread k (currentSettings w) [] Hd).
  rewrite Hfs. cbn [Js.own_fields Js.lookup_field default].
  destruct (Js.lookup_field k fs); reflexivity.
Qed.

End SettingsTransfer.

Lemma importSettings_rejects_witness :
  exists cause w',
    ConfigManager.importSettings (platform := Reference.platform) "{ not json"
                                 Sample.configured
    = (Throw (AppError "Failed to import settings" VALIDATION_ERROR 4201 [] (Some cause)),
       w')
    /\ local w' = local Sample.configured
    /\ cache w' = cache Sample.configured
    /\ lastError w' = lastError Sample.configured
    /\ currentSettings w' = currentSettings Sample.configured
    /\ listener_calls (trace w') = listener_calls (trace Sample.configured).
Proof.
  apply (importSettings_rejects (platform := Reference.platform) "{ not json"
                                Sample.configured).
  left. vm_compute. reflexivity.
Defined.

Lemma export_then_import_settings_witness :
  exists text w',
    ConfigManager.exportSettings (platform := Reference.platform) Sample.configured
    = (Ok text, Sample.configured)
    /\ ConfigManager.importSettings (platform := Reference.platform) text Sample.configured
       = (Ok (currentSettings Sample.configured), w')
    /\ local w' !! StorageKeys.QR_SETTINGS = Some (currentSettings w')
    /\ (forall k, Js.field (currentSettings w') k
                  = Js.field (currentSettings Sample.configured) k).
Proof.
  apply (export_then_import_settings (platform := Reference.platform) Sample.configured).
  - apply valid_no_errors. split; reflexivity.
  - unfold distinct_keys. simpl.
    repeat (constructor; [simpl; intuition discriminate|]). constructor.
  - vm_compute. reflexivity.
  - reflexivity.
Defined.

(** *** The recognizer: geometry, invariants and failures *)

(** X24. While a drag is in progress, a pointer move makes the overlay the
    rectangle whose opposite corners are the anchor of the drag and the
    pointer: its sides are never negative, whichever way the pointer has
    gone. The anchor stays where the pointer went down, and no capture is
    started. *)
Theorem drag_rectangle_spans_anchor_and_pointer (x y : Z) (w : World) :
  isSelectionMode (recognizer w) = true ->
  is_Some (selectionBox (recognizer w)) ->
  let r := recognizer w in
  let r' := recognizer (snd (QRRecognizer.handleMouseMove x y w)) in
  exists box,
    selectionBox r' = Some box
    /\ (rect_left box = Z.min (startX r) x
        /\ rect_left box + rect_width box = Z.max (startX r) x)%Z
    /\ (rect_top box = Z.min (startY r) y
        /\ rect_top box + rect_height box = Z.max (startY r) y)%Z
    /\ (0 <= rect_width box /\ 0 <= rect_height box)%Z
    /\ startX r' = startX r /\ startY r' = startY r
    /\ started r' = started r.
Proof.
  intros Hm [box Hb]. unfold QRRecognizer.handleMouseMove, QRRecognizer.updateSelectionBox,
    QRRecognizer.update. run_m. rewrite Hm, Hb. simpl. rewrite Hb. simpl.
  eexists. split; [reflexivity|]. simpl. repeat split; lia.
Qed.

Lemma drag_rectangle_spans_anchor_and_pointer_witness :
  let r := recognizer Sample.dragging in
  let r' := recognizer (snd (QRRecognizer.handleMouseMove 4 90 Sample.dragging)) in
  exists box,
    selectionBox r' = Some box
    /\ (rect_left box = Z.min (startX r) 4
        /\ rect_left box + rect_width box = Z.max (startX r) 4)%Z
    /\ (rect_top box = Z.min (startY r) 90
        /\ rect_top box + rect_height box = Z.max (startY r) 90)%Z
    /\ (0 <= rect_width box /\ 0 <= rect_height box)%Z
    /\ startX r' = startX r /\ startY r' = startY r
    /\ started r' = started r.
Proof.
  apply (drag_rectangle_spans_anchor_and_pointer 4 90 Sample.dragging).
  - reflexivity.
  - vm_compute. eauto.
Defined.

Lemma idle_listeners_ignore n (h : M unit) w :
  h w = (Ok tt, w) -> QRRecognizer.each_listener n h w = (Ok tt, w).
Proof.
  intros H. induction n as [|n IH]; simpl; [reflexivity|].
  unfold bind. rewrite H. exact IH.
Qed.

(** X26. While selection mode is off, the mouse listeners do nothing. The
    listeners registered by earlier selections are never removed from the
    document, but however many of them a pointer event reaches, the state
    stays exactly as it was: no overlay appears and no capture starts. *)
Theorem idle_ignores_pointer_events (e : QRRecognizer.PageEvent) (w : World) :
  isSelectionMode (recognizer w) = false ->
  is_pointer_event e = true ->
  QRRecognizer.step e w = (Ok tt, w).
Proof.
  intros Hm He. destruct e as [|x y|x y| |a]; try discriminate;
    unfold QRRecognizer.step, bind at 1, gets at 1; apply idle_listeners_ignore.
  - unfold QRRecognizer.handleMouseDown. run_m. rewrite Hm. reflexivity.
  - unfold QRRecognizer.handleMouseMove. run_m. rewrite Hm. reflexivity.
  - unfold QRRecognizer.handleMouseUp. run_m. rewrite Hm. reflexivity.
Qed.

(** With the listeners of an earlier selection still registered. *)
Lemma idle_ignores_pointer_events_witness :
  mouseListeners (recognizer More.idle_again) = 1
  /\ QRRecognizer.step (QRRecognizer.MouseDown 10 10) More.idle_again
     = (Ok tt, More.idle_again).
Proof.
  split; [reflexivity|].
  apply (idle_ignores_pointer_events (QRRecognizer.MouseDown 10 10) More.idle_again);
    reflexivity.
Defined.

Lemma preserves_each_listener (P : World -> Prop) n (h : M unit) :
  preserves P h -> preserves P (QRRecognizer.each_listener n h).
Proof.
  intros Hh. induction n as [|n IH]; intros w Hw; simpl; [exact Hw|].
  unfold bind. specialize (Hh w Hw). destruct (h w) as [[[]|e] w1]; simpl in *.
  - apply IH. exact Hh.
  - exact Hh.
Qed.

Lemma step_mode_consistent e :
  preserves (fun w => mode_consistent (recognizer w)) (QRRecognizer.step e).
Proof.
  destruct e as [|x y|x y| |a].
  - intros w [Hbox Hcur]. unfold QRRecognizer.step, QRRecognizer.toggleSelectionMode,
      QRRecognizer.removeSelectionBox, QRRecognizer.showNotification, QRRecognizer.update.
    run_m. unfold mode_consistent.
    destruct (isSelectionMode (recognizer w)) eqn:E; simpl; rewrite ?E; simpl;
      first [solve [auto] | split; [discriminate|reflexivity]].
  - unfold QRRecognizer.step. intros w Hw. unfold bind at 1, gets at 1.
    apply preserves_each_listener; [|exact Hw]. clear. intros w [Hbox Hcur].
    unfold QRRecognizer.handleMouseDown, QRRecognizer.createSelectionBox,
      QRRecognizer.updateSelectionBox, QRRecognizer.update. run_m. unfold mode_consistent.
    destruct (isSelectionMode (recognizer w)) eqn:E; simpl; rewrite ?E; simpl;
      first [solve [auto] | split; [discriminate|exact Hcur]].
  - unfold QRRecognizer.step. intros w Hw. unfold bind at 1, gets at 1.
    apply preserves_each_listener; [|exact Hw]. clear. intros w [Hbox Hcur].
    unfold QRRecognizer.handleMouseMove, QRRecognizer.updateSelectionBox,
      QRRecognizer.update. run_m. unfold mode_consistent.
    destruct (isSelectionMode (recognizer w)) eqn:E; simpl;
      [destruct (selectionBox (recognizer w)) eqn:B; simpl|];
      rewrite ?B; simpl; rewrite ?E, ?B; simpl;
      first [solve [auto] | split; [discriminate|exact Hcur]].
  - unfold QRRecognizer.step. intros w Hw. unfold bind at 1, gets at 1.
    apply preserves_each_listener; [|exact Hw]. clear. intros w [Hbox Hcur].
    unfold QRRecognizer.handleMouseUp, QRRecognizer.removeSelectionBox,
      QRRecognizer.update. run_m. unfold mode_consistent.
    destruct (isSelectionMode (recognizer w)) eqn:E; simpl;
      [destruct (selectionBox (recognizer w)) eqn:B; simpl|];
      rewrite ?E, ?B; simpl; auto.
  - intros w Hw. pose proof (keeps_capture_completes a w) as Hk.
    unfold selection in Hk. injection Hk as H1 H2 H3 _.
    unfold mode_consistent in *. unfold QRRecognizer.step. rewrite H1, H2, H3. exact Hw.
Qed.

(** X27. Whatever the page does (toggle commands, pointer events in any
    order, captures completing at any time), the overlay and the cursor
    follow the mode flag: there is never an overlay while selection mode is
    off, and the cursor is the crosshair exactly while it is on. *)
Theorem selection_mode_rules_overlay_and_cursor (events : list QRRecognizer.PageEvent)
        (w : World) :
  mode_consistent (recognizer w) ->
  mode_consistent (recognizer (snd (QRRecognizer.run events w))).
Proof.
  revert w. induction events as [|e events IH]; intros w Hw; simpl; [exact Hw|].
  unfold bind. pose proof (step_mode_consistent e w Hw) as Hs.
  destruct (QRRecognizer.step e w) as [[[]|err] w1]; simpl in *.
  - apply IH. exact Hs.
  - exact Hs.
Qed.

Lemma selection_mode_rules_overlay_and_cursor_witness :
  mode_consistent (recognizer (snd (QRRecognizer.run More.session Sample.blank))).
Proof.
  apply (selection_mode_rules_overlay_and_cursor More.session Sample.blank).
  split; [reflexivity|reflexivity].
Defined.

(** Before anything else [recognizeFromRect] makes sure html2canvas is
    marked as loaded when the page has it. *)
Lemma recognize_prelude a w :
  exists w1,
    (if negb (html2canvasLoaded (recognizer w))
     then QRRecognizer.loadHtml2Canvas a else ret tt) w = (Ok tt, w1)
    /\ local w1 = local w /\ cache w1 = cache w /\ lastError w1 = lastError w
    /\ trace w1 = trace w /\ errorHistory w1 = errorHistory w
    /\ recognitionHistory (recognizer w1) = recognitionHistory (recognizer w).
Proof.
  unfold QRRecognizer.loadHtml2Canvas, QRRecognizer.update. run_m.
  destruct (html2canvasLoaded (recognizer w)) eqn:E; simpl; rewrite ?E;
    [eauto 10|].
  destruct (QRRecognizer.html2canvas_defined a); simpl; eauto 10.
Qed.

Lemma recognize_handler cause w1 :
  exists w',
    bind (QRRecognizer.showNotification
            ("识别失败: " +:+ QRRecognizer.error_message cause) "error")
         (fun _ => @ErrorHandler.raise RecognitionResult
                     (AppError "QR code recognition failed" RUNTIME_ERROR 7003 []
                               (Some cause))) w1
    = (Throw (AppError "QR code recognition failed" RUNTIME_ERROR 7003 [] (Some cause)), w')
    /\ trace w' = trace w1
                  ++ [EvNotification ("识别失败: " +:+ QRRecognizer.error_message cause) "error";
                      EvErrorCallbacks (AppError "QR code recognition failed" RUNTIME_ERROR
                                                 7003 [] (Some cause))]
    /\ local w' = local w1 /\ cache w' = cache w1 /\ lastError w' = lastError w1
    /\ recognizer w' = recognizer w1.
Proof.
  unfold QRRecognizer.showNotification. unfold bind at 1. unfold emit at 1, modify at 1.
  set (w2 := set_trace _ w1).
  destruct (handleError_AppError "QR code recognition failed" RUNTIME_ERROR 7003 []
              (Some cause) w2)
    as (w3 & Hh & Hc3 & _ & Hr3 & _ & _ & _ & _ & Ht3 & Hq3 & Hl3).
  simpl in Hh. unfold ErrorHandler.raise, bind. rewrite Hh. unfold throw.
  exists w3. split; [reflexivity|].
  rewrite Ht3, Hl3, Hc3, Hr3, Hq3. unfold w2. simpl. rewrite <- app_assoc. auto.
Qed.

(** X28. When a capture cannot be made (html2canvas or jsQR is missing
    from the page, or the capture itself throws), [recognizeFromRect] shows
    one error notification with the message of the cause and throws the
    RUNTIME_ERROR 7003 around it. No performance sample is logged, the
    recognition history is unchanged, and chrome.storage is not called: the
    store and the cache are what they were. *)
Theorem recognize_failure_is_reported (a : QRRecognizer.Attempt) (rect : Rect)
        (cause : Error) (w : World) :
  capture_error a = Some cause ->
  exists w',
    QRRecognizer.recognizeFromRect a rect w
    = (Throw (AppError "QR code recognition failed" RUNTIME_ERROR 7003 [] (Some cause)), w')
    /\ notifications (trace w')
       = notifications (trace w)
         ++ [("识别失败: " +:+ QRRecognizer.error_message cause, "error")]
    /\ performance_samples (trace w') = performance_samples (trace w)
    /\ storage_calls (trace w') = storage_calls (trace w)
    /\ local w' = local w /\ cache w' = cache w
    /\ recognitionHistory (recognizer w') = recognitionHistory (recognizer w).
Proof.
  intros Hcause.
  destruct (recognize_prelude a w) as (w1 & Hpre & Hl1 & Hc1 & Hq1 & Ht1 & _ & Hr1).
  destruct (recognize_handler cause w1) as (w' & Hh & Ht & Hl & Hc & _ & Hr).
  exists w'. split.
  - unfold capture_error in Hcause.
    unfold QRRecognizer.recognizeFromRect. unfold try_catch.
    unfold bind at 1. unfold gets at 1. cbn beta iota.
    unfold bind at 1. rewrite Hpre.
    destruct (QRRecognizer.html2canvas_defined a); cbn [negb] in *;
      [destruct (QRRecognizer.jsQR_defined a); cbn [negb] in *;
       [destruct (QRRecognizer.capture_failure a) as [message|]; [|discriminate]|]|];
      injection Hcause as <-; unfold throw at 1; exact Hh.
  - rewrite Ht, Hl, Hc, Hr, Hl1, Hc1, Hr1, Ht1.
    rewrite !notifications_app, !performance_samples_app.
    unfold storage_calls. rewrite !List.filter_app. simpl. rewrite !app_nil_r.
    repeat split; reflexivity.
Qed.

Lemma recognize_failure_is_reported_witness :
  exists w',
    QRRecognizer.recognizeFromRect More.no_capture_library (mkRect 10 10 40 50) Sample.with_two
    = (Throw (AppError "QR code recognition failed" RUNTIME_ERROR 7003 []
                (Some (AppError "html2canvas library not available" RUNTIME_ERROR
                                7001 [] None))), w')
    /\ notifications (trace w')
       = notifications (trace Sample.with_two)
         ++ [("识别失败: " +:+ QRRecognizer.error_message
                                  (AppError "html2canvas library not available"
                                            RUNTIME_ERROR 7001 [] None), "error")]
    /\ performance_samples (trace w') = performance_samples (trace Sample.with_two)
    /\ storage_calls (trace w') = storage_calls (trace Sample.with_two)
    /\ local w' = local Sample.with_two /\ cache w' = cache Sample.with_two
    /\ recognitionHistory (recognizer w') = recognitionHistory (recognizer Sample.with_two).
Proof.
  apply (recognize_failure_is_reported More.no_capture_library (mkRect 10 10 40 50)
           (AppError "html2canvas library not available" RUNTIME_ERROR 7001 [] None)
           Sample.with_two).
  reflexivity.
Defined.

Lemma removelast_cap {A : Type} (x : A) (l : list A) :
  length l <= 50 ->
  (if QRRecognizer.maxHistorySize <? length (x :: l) then removelast (x :: l) else x :: l)
  = take 50 (x :: l).
Proof.
  intros Hlen. unfold QRRecognizer.maxHistorySize.
  destruct (Nat.ltb_spec 50 (length (x :: l))) as [Hgt|Hle].
  - assert (Hl : length (x :: l) = 51) by (simpl in *; lia).
    destruct (exists_last (l := x :: l)) as (front & y & E); [discriminate|].
    rewrite E, removelast_last. rewrite E, length_app in Hl. simpl in Hl.
    rewrite take_app_le by lia. rewrite take_ge by lia. reflexivity.
  - symmetry. apply take_ge. lia.
Qed.

(** X29. The recognition history of the page gains an entry exactly when
    jsQR has found a code, and then the new entry stands first and the
    list is cut to 50. The entry is recorded before the content is saved
    to the stored history, so it is there whether or not that write
    succeeds; a run that finds no code, or fails, leaves the list as it
    was. *)
Theorem recognition_history_keeps_fifty (a : QRRecognizer.Attempt) (rect : Rect)
        (w : World) :
  length (recognitionHistory (recognizer w)) <= 50 ->
  let old := recognitionHistory (recognizer w) in
  let new := recognitionHistory
               (recognizer (snd (QRRecognizer.recognizeFromRect a rect w))) in
  new = match code_found a with
        | Some code =>
            take 50 ((mkResult true (Some (QRRecognizer.qr_data code))
                               (Some (default (0, 0)%Z (QRRecognizer.qr_topLeftCorner code)))
                               (QRRecognizer.t_end a - QRRecognizer.t_start a)%Z,
                      QRRecognizer.seenAt a, QRRecognizer.pageUrl a) :: old)
        | None => old
        end
  /\ length new <= 50.
Proof.
  intros Hlen old new.
  assert (Hnew : new = match code_found a with
                       | Some code =>
                           take 50 ((mkResult true (Some (QRRecognizer.qr_data code))
                                       (Some (default (0, 0)%Z
                                                      (QRRecognizer.qr_topLeftCorner code)))
                                       (QRRecognizer.t_end a - QRRecognizer.t_start a)%Z,
                                     QRRecognizer.seenAt a, QRRecognizer.pageUrl a) :: old)
                       | None => old
                       end).
  { subst new old.
    destruct (recognize_prelude a w) as (w1 & Hpre & _ & _ & _ & _ & _ & Hr1).
    unfold code_found, QRRecognizer.recognizeFromRect. unfold try_catch.
    unfold bind at 1. unfold gets at 1. cbn beta iota.
    unfold bind at 1. rewrite Hpre.
    destruct (QRRecognizer.html2canvas_defined a); cbn [negb andb];
      [destruct (QRRecognizer.jsQR_defined a); cbn [negb andb];
       [destruct (QRRecognizer.capture_failure a) as [message|]|]|].
    - unfold throw at 1.
      destruct (recognize_handler (NativeError message) w1) as (w' & Hh & _ & _ & _ & _ & Hr).
      rewrite Hh. cbn [snd]. rewrite Hr. exact Hr1.
    - pose proof (logPerformance_returns StorageKeys.QR_RECOGNITION_TIME
                    (QRRecognizer.t_logged a - QRRecognizer.t_start a) w1) as Hret.
      pose proof (blind_logPerformance (fun w0 => recognitionHistory (recognizer w0))
                    (fun _ _ => eq_refl) (fun _ _ => eq_refl) (fun _ _ => eq_refl)
                    (fun _ _ => eq_refl) (fun _ _ => eq_refl)
                    StorageKeys.QR_RECOGNITION_TIME
                    (QRRecognizer.t_logged a - QRRecognizer.t_start a) w1) as Hr2.
      unfold bind at 1.
      destruct (StorageManager.logPerformance _ _ w1) as [[[]|e] w2];
        cbn [fst snd] in Hret, Hr2; try discriminate.
      destruct (QRRecognizer.decoded a) as [code|].
      + unfold QRRecognizer.addToRecognitionHistory, QRRecognizer.update.
        unfold bind at 1. unfold modify at 1.
        set (w3 := set_recognizer _ w2).
        assert (Hr3 : recognitionHistory (recognizer w3)
                      = take 50 ((mkResult true (Some (QRRecognizer.qr_data code))
                                    (Some (default (0, 0)%Z
                                                   (QRRecognizer.qr_topLeftCorner code)))
                                    (QRRecognizer.t_end a - QRRecognizer.t_start a)%Z,
                                  QRRecognizer.seenAt a, QRRecognizer.pageUrl a)
                                 :: recognitionHistory (recognizer w))).
        { unfold w3. simpl recognitionHistory. rewrite Hr2, Hr1.
          apply removelast_cap. exact Hlen. }
        pose proof (blind_saveToHistory (fun w0 => recognitionHistory (recognizer w0))
                      (fun _ _ => eq_refl) (fun _ _ => eq_refl) (fun _ _ => eq_refl)
                      (fun _ _ => eq_refl) (fun _ _ => eq_refl)
                      (Js.VStr (QRRecognizer.qr_data code)) (QRRecognizer.fresh a) w3) as Hk.
        unfold bind at 1.
        destruct (StorageManager.saveToHistory _ _ w3) as [[entry|e] w4]; cbn [snd] in Hk.
        * unfold QRRecognizer.showNotification. run_m. rewrite Hk. exact Hr3.
        * destruct (recognize_handler e w4) as (w' & Hh & _ & _ & _ & _ & Hr).
          rewrite Hh. cbn [snd]. rewrite Hr, Hk. exact Hr3.
      + unfold QRRecognizer.showNotification. run_m. rewrite Hr2. exact Hr1.
    - unfold throw at 1.
      destruct (recognize_handler (AppError "jsQR library not available" RUNTIME_ERROR
                                            7002 [] None) w1)
        as (w' & Hh & _ & _ & _ & _ & Hr).
      rewrite Hh. cbn [snd]. rewrite Hr. exact Hr1.
    - unfold throw at 1.
      destruct (recognize_handler (AppError "html2canvas library not available"
                                            RUNTIME_ERROR 7001 [] None) w1)
        as (w' & Hh & _ & _ & _ & _ & Hr).
      rewrite Hh. cbn [snd]. rewrite Hr. exact Hr1. }
  split; [exact Hnew|]. rewrite Hnew.
  destruct (code_found a); [rewrite length_take; lia|exact Hlen].
Qed.

Lemma recognition_history_keeps_fifty_witness :
  let old := recognitionHistory (recognizer Sample.flaky) in
  let new := recognitionHistory
               (recognizer (snd (QRRecognizer.recognizeFromRect
                                   Sample.scan (mkRect 10 10 40 50) Sample.flaky))) in
  new = match code_found Sample.scan with
        | Some code =>
            take 50 ((mkResult true (Some (QRRecognizer.qr_data code))
                               (Some (default (0, 0)%Z (QRRecognizer.qr_topLeftCorner code)))
                               (QRRecognizer.t_end Sample.scan
                                - QRRecognizer.t_start Sample.scan)%Z,
                      QRRecognizer.seenAt Sample.scan, QRRecognizer.pageUrl Sample.scan)
                     :: old)
        | None => old
        end
  /\ length new <= 50.
Proof.
  apply (recognition_history_keeps_fifty Sample.scan (mkRect 10 10 40 50) Sample.flaky).
  simpl. lia.
Defined.

Lemma press_again_changes_nothing x y w :
  isSelectionMode (recognizer w) = true ->
  QRRecognizer.handleMouseDown x y (snd (QRRecognizer.handleMouseDown x y w))
  = (Ok tt, snd (QRRecognizer.handleMouseDown x y w)).
Proof.
  intros Hm. unfold QRRecognizer.handleMouseDown, QRRecognizer.createSelectionBox,
    QRRecognizer.updateSelectionBox, QRRecognizer.update. run_m. rewrite Hm. simpl.
  rewrite Hm. reflexivity.
Qed.

(** X25. A pointer-down in selection mode gives the overlay a style whose
    corner is the pointer and whose width and height are the two
    coordinates of the pointer, not zero: [handleMouseDown] passes the
    anchor twice to [updateSelectionBox(left, top, width, height)]. A
    release that follows without a move starts one capture, on the box of
    that overlay, and the controller is idle again. *)
Theorem press_and_release_captures (x y : Z) (w : World) :
  isSelectionMode (recognizer w) = true ->
  0 < mouseListeners (recognizer w) ->
  let pressed := snd (QRRecognizer.step (QRRecognizer.MouseDown x y) w) in
  let released := snd (QRRecognizer.step QRRecognizer.MouseUp pressed) in
  selectionBox (recognizer pressed) = Some (mkRect x y x y)
  /\ length (started (recognizer released)) = S (length (started (recognizer w)))
  /\ QRRecognizer.selection_state (recognizer released) = QRRecognizer.Idle.
Proof.
  intros Hm Hn.
  destruct (mouseListeners (recognizer w)) as [|n] eqn:En; [lia|].
  assert (Hpress : QRRecognizer.step (QRRecognizer.MouseDown x y) w
                   = (Ok tt, snd (QRRecognizer.handleMouseDown x y w))).
  { unfold QRRecognizer.step. unfold bind at 1. unfold gets at 1. rewrite En.
    simpl QRRecognizer.each_listener. unfold bind at 1.
    destruct (QRRecognizer.handleMouseDown x y w) as [[[]|e] w1] eqn:E.
    - cbn [snd]. apply idle_listeners_ignore.
      pose proof (press_again_changes_nothing x y w Hm) as H. rewrite E in H. exact H.
    - revert E. unfold QRRecognizer.handleMouseDown, QRRecognizer.createSelectionBox,
        QRRecognizer.updateSelectionBox, QRRecognizer.update. run_m. rewrite Hm.
      discriminate. }
  rewrite Hpress. cbn [snd].
  set (pressed := snd (QRRecognizer.handleMouseDown x y w)).
  assert (Hp : isSelectionMode (recognizer pressed) = true
               /\ selectionBox (recognizer pressed) = Some (mkRect x y x y)
               /\ mouseListeners (recognizer pressed) = S n
               /\ started (recognizer pressed) = started (recognizer w)).
  { unfold pressed, QRRecognizer.handleMouseDown, QRRecognizer.createSelectionBox,
      QRRecognizer.updateSelectionBox, QRRecognizer.update. run_m. rewrite Hm. simpl.
    auto. }
  destruct Hp as (Hpm & Hpb & Hpn & Hps).
  split; [exact Hpb|].
  assert (Hup : exists w2,
             QRRecognizer.step QRRecognizer.MouseUp pressed = (Ok tt, w2)
             /\ started (recognizer w2) = started (recognizer pressed) ++ [mkRect x y x y]
             /\ isSelectionMode (recognizer w2) = false).
  { unfold QRRecognizer.step. unfold bind at 1. unfold gets at 1. rewrite Hpn.
    simpl QRRecognizer.each_listener. unfold bind at 1.
    unfold QRRecognizer.handleMouseUp at 1, QRRecognizer.removeSelectionBox,
      QRRecognizer.update.
    run_m. rewrite Hpm, Hpb. simpl.
    rewrite idle_listeners_ignore_mouseUp by reflexivity.
    eexists. split; [reflexivity|]. simpl. auto. }
  destruct Hup as (w2 & Hup & Hs2 & Hm2). rewrite Hup. cbn [snd].
  rewrite Hs2, Hps, length_app. split; [simpl; lia|].
  unfold QRRecognizer.selection_state. rewrite Hm2. reflexivity.
Qed.

Lemma press_and_release_captures_witness :
  let pressed := snd (QRRecognizer.step (QRRecognizer.MouseDown 120 80) More.armed) in
  let released := snd (QRRecognizer.step QRRecognizer.MouseUp pressed) in
  selectionBox (recognizer pressed) = Some (mkRect 120 80 120 80)
  /\ length (started (recognizer released)) = S (length (started (recognizer More.armed)))
  /\ QRRecognizer.selection_state (recognizer released) = QRRecognizer.Idle.
Proof.
  apply (press_and_release_captures 120 80 More.armed).
  - reflexivity.
  - vm_compute. lia.
Defined.

(** *** Installation *)

Lemma storage_get_runs key w :
  exists w1,
    BackgroundService.storage_get key w
    = (if hd false (lastError w) then Throw (NativeError "chrome.runtime.lastError")
       else Ok (default Js.VUndefined (local w !! key)), w1)
    /\ lastError w1 = tl (lastError w) /\ local w1 = local w /\ cache w1 = cache w.
Proof.
  unfold BackgroundService.storage_get, next_lastError. run_m.
  destruct (lastError w) as [|[] rest] eqn:E; simpl;
    eexists; (split; [reflexivity|]); simpl; rewrite ?E; auto.
Qed.

Lemma storage_set_runs key v w :
  exists w1,
    BackgroundService.storage_set key v w
    = (if hd false (lastError w) then Throw (NativeError "chrome.runtime.lastError")
       else Ok tt, w1)
    /\ local w1 = (if hd false (lastError w) then local w else <[key := v]> (local w))
    /\ cache w1 = cache w.
Proof.
  unfold BackgroundService.storage_set, next_lastError. run_m.
  destruct (lastError w) as [|[] rest] eqn:E; simpl;
    eexists; (split; [reflexivity|]); simpl; rewrite ?E; auto.
Qed.

Lemma handled_quietly message w :
  exists w',
    bind (ErrorHandler.handleError (NativeError message)) (fun _ => ret tt) w = (Ok tt, w')
    /\ local w' = local w /\ cache w' = cache w.
Proof.
  unfold ErrorHandler.handleError, ErrorHandler.addToHistory, ErrorHandler.notifyCallbacks,
    ErrorHandler.tryRecovery. run_m. eexists. split; [reflexivity|]. simpl. auto.
Qed.

(** X30. [initializeDefaultSettings], run on installation, never throws.
    It writes the default settings exactly when the read succeeds, finds
    nothing (or something falsy) under the settings key, and the write
    succeeds; settings that are already stored are never overwritten, a
    failed call is handed to the error handler without clearing the store,
    and what is written is the default object of the configuration
    manager. *)
Theorem install_writes_defaults_only_when_absent (w : World) :
  let existing := default Js.VUndefined (local w !! StorageKeys.QR_SETTINGS) in
  let read_ok := negb (hd false (lastError w)) in
  let write_ok := negb (hd false (tl (lastError w))) in
  let w' := snd (BackgroundService.initializeDefaultSettings w) in
  fst (BackgroundService.initializeDefaultSettings w) = Ok tt
  /\ local w' = (if read_ok && negb (Js.truthy existing) && write_ok
                 then <[StorageKeys.QR_SETTINGS := ConfigManager.DEFAULT_SETTINGS]> (local w)
                 else local w)
  /\ cache w' = cache w.
Proof.
  cbv zeta.
  assert (Hrun : exists w',
             BackgroundService.initializeDefaultSettings w = (Ok tt, w')
             /\ local w'
                = (if negb (hd false (lastError w))
                      && negb (Js.truthy (default Js.VUndefined
                                                  (local w !! StorageKeys.QR_SETTINGS)))
                      && negb (hd false (tl (lastError w)))
                   then <[StorageKeys.QR_SETTINGS := ConfigManager.DEFAULT_SETTINGS]> (local w)
                   else local w)
             /\ cache w' = cache w).
  { destruct (storage_get_runs "qrSettings" w) as (w1 & Hget & Hq1 & Hl1 & Hc1).
    unfold BackgroundService.initializeDefaultSettings. unfold try_catch, bind at 1.
    rewrite Hget. unfold StorageKeys.QR_SETTINGS.
    destruct (hd false (lastError w)); cbn [negb andb].
    - destruct (handled_quietly "chrome.runtime.lastError" w1) as (w2 & Hh & Hl2 & Hc2).
      rewrite Hh. exists w2. rewrite Hl2, Hc2. auto.
    - destruct (Js.truthy (default Js.VUndefined (local w !! "qrSettings")));
        cbn [negb andb]; [unfold ret; eauto|].
      destruct (storage_set_runs "qrSettings" ConfigManager.DEFAULT_SETTINGS w1)
        as (w2 & Hset & Hl2 & Hc2).
      change (Js.VObj [("size", Js.VNum 200); ("colorDark", Js.VStr "#000000");
                       ("colorLight", Js.VStr "#ffffff"); ("correctLevel", Js.VStr "H")])
        with ConfigManager.DEFAULT_SETTINGS.
      rewrite Hset. rewrite Hq1 in *.
      destruct (hd false (tl (lastError w))); cbn [negb].
      + destruct (handled_quietly "chrome.runtime.lastError" w2) as (w3 & Hh & Hl3 & Hc3).
        rewrite Hh. exists w3. rewrite Hl3, Hc3, Hl2, Hc2. auto.
      + exists w2. rewrite Hl2, Hc2, Hl1. auto. }
  destruct Hrun as (w' & Hrun & Hl & Hc). rewrite Hrun. cbn [fst snd]. auto.
Qed.
